(** * Poker-Calculator: the hand evaluator, the Monte-Carlo equity loop and
      the outs scan of [poker_calculator.py], embedded and verified.

    The embedding follows the Python module class by class:
    [Card], [Deck], [HandEvaluator], [PokerCalculator].  Python integers are
    [Z], Python lists are [list], the result dictionaries are [gmap string],
    exceptions are an explicit [outcome], and the [random] module is an
    explicit entropy stream threaded through every draw. *)

From Stdlib Require Import ZArith QArith List Permutation Sorted Lia Lqa.
From stdpp Require Import gmap strings list sorting pretty.

Open Scope Z_scope.

(** ** Exceptions and outcomes *)

Inductive exn := IndexError | ValueError | ZeroDivisionError.

Inductive outcome (A : Type) :=
| Returned (a : A)
| Raised (e : exn).
Arguments Returned {A} a.
Arguments Raised {A} e.

#[global] Instance outcome_bind : MBind outcome :=
  fun A B (k : A -> outcome B) (m : outcome A) =>
    match m with
    | Returned a => k a
    | Raised e => Raised e
    end.

(** [xs[0]]: the first element, [IndexError] on the empty list. *)
Definition index0 {A} (xs : list A) : outcome A :=
  match xs with
  | x :: _ => Returned x
  | [] => Raised IndexError
  end.

(** ** class Card *)

Inductive Suit := Spade | Heart | Diamond | Club.
Inductive Rank :=
  R2 | R3 | R4 | R5 | R6 | R7 | R8 | R9 | R10 | RJ | RQ | RK | RA.

#[global] Instance Suit_eq_dec : EqDecision Suit.
Proof. solve_decision. Defined.
#[global] Instance Rank_eq_dec : EqDecision Rank.
Proof. solve_decision. Defined.

Definition SUITS : list Suit := [Spade; Heart; Diamond; Club].
Definition RANKS : list Rank :=
  [R2; R3; R4; R5; R6; R7; R8; R9; R10; RJ; RQ; RK; RA].

(** [RANK_VALUES = {rank: i for i, rank in enumerate(RANKS)}] *)
Definition RANK_VALUES (r : Rank) : Z :=
  match r with
  | R2 => 0 | R3 => 1 | R4 => 2 | R5 => 3 | R6 => 4 | R7 => 5 | R8 => 6
  | R9 => 7 | R10 => 8 | RJ => 9 | RQ => 10 | RK => 11 | RA => 12
  end.

Record Card := mkCard { rank : Rank; suit : Suit }.

#[global] Instance Card_eq_dec : EqDecision Card.
Proof. solve_decision. Defined.

(** [self.value = self.RANK_VALUES[rank]] *)
Definition value (c : Card) : Z := RANK_VALUES (rank c).

(** [Card.__eq__]: same rank and same suit. *)
Definition Card_eq (c other : Card) : bool :=
  bool_decide (rank c = rank other) && bool_decide (suit c = suit other).

(** ** The [random] module

    The only use the program makes of randomness is [random.sample].  Its
    library contract: [ValueError] when the sample is larger than the
    population or negative, otherwise [k] elements taken at pairwise
    distinct positions of the population, which is left untouched.  The
    entropy is an explicit stream of naturals; each selection consumes one
    number and picks that position (modulo the pool size) among the
    positions not selected yet. *)

Definition Rng := nat -> nat.

Definition randbelow (g : Rng) (n : nat) : nat * Rng :=
  ((g 0%nat mod n)%nat, fun i => g (S i)).

Fixpoint sample_from {A} (pool : list A) (k : nat) (g : Rng) : list A * Rng :=
  match k with
  | O => ([], g)
  | S k' =>
      let '(j, g1) := randbelow g (length pool) in
      match pool !! j with
      | Some c =>
          let '(rest, g2) := sample_from (delete j pool) k' g1 in
          (c :: rest, g2)
      | None => ([], g1)
      end
  end.

Definition random_sample {A} (population : list A) (k : Z) (g : Rng)
  : outcome (list A * Rng) :=
  if bool_decide (k < 0) || bool_decide (Z.of_nat (length population) < k)
  then Raised ValueError
  else Returned (sample_from population (Z.to_nat k) g).

(** ** class Deck *)

Abbreviation Deck := (list Card).

(** [Deck.__init__]:
    [[Card(rank, suit) for suit in Card.SUITS for rank in Card.RANKS]] *)
Definition Deck_init : Deck :=
  flat_map (fun s => map (fun r => mkCard r s) RANKS) SUITS.

(** One pass of [remove_cards]: keep the cards that differ from [card] in
    rank or in suit. *)
Definition remove_card (self : Deck) (card : Card) : Deck :=
  filter (fun c => ¬ (rank c = rank card ∧ suit c = suit card)) self.

(** [Deck.remove_cards]: returns the new value of [self.cards]. *)
Definition remove_cards (self : Deck) (cards : list Card) : Deck :=
  fold_left remove_card cards self.

(** [Deck.draw]: returns the drawn cards, the value of [self.cards] after
    the call and the entropy left. *)
Definition draw (self : Deck) (n : Z) (g : Rng)
  : outcome (list Card * Deck * Rng) :=
  '(drawn, g') ← random_sample self n g;
  Returned (drawn, self, g').

(** ** class HandEvaluator *)

(** A hand ranking: [(hand_type, key_cards)]. *)
Abbreviation HandRank := (Z * list Z)%type.

(** Python's ordering of lists of integers: the first differing position
    decides, a proper prefix is smaller. *)
Fixpoint list_cmp (a b : list Z) : comparison :=
  match a, b with
  | [], [] => Eq
  | [], _ :: _ => Lt
  | _ :: _, [] => Gt
  | x :: a', y :: b' =>
      match x ?= y with
      | Eq => list_cmp a' b'
      | c => c
      end
  end.

Definition list_gt (a b : list Z) : bool :=
  match list_cmp a b with Gt => true | _ => false end.

(** Python's ordering of [(int, list)] tuples. *)
Definition tuple_cmp (a b : HandRank) : comparison :=
  match a.1 ?= b.1 with
  | Eq => list_cmp a.2 b.2
  | c => c
  end.

Definition tuple_gt (a b : HandRank) : bool :=
  match tuple_cmp a b with Gt => true | _ => false end.

Definition tuple_eq (a b : HandRank) : bool := bool_decide (a = b).

(** [sorted(xs)] and [sorted(xs, reverse=True)] on integers. *)
Definition sorted (xs : list Z) : list Z := merge_sort Z.le xs.
Definition sorted_reverse (xs : list Z) : list Z := merge_sort (flip Z.le) xs.

(** [collections.Counter(xs)] as the association list of its items, in
    the order of first insertion. *)
Fixpoint counter_add (r : Z) (cs : list (Z * nat)) : list (Z * nat) :=
  match cs with
  | [] => [(r, 1%nat)]
  | (k, n) :: cs' =>
      if bool_decide (k = r) then (k, S n) :: cs'
      else (k, n) :: counter_add r cs'
  end.

Definition Counter (xs : list Z) : list (Z * nat) :=
  fold_left (fun cs r => counter_add r cs) xs [].

(** [count in rank_counts.values()] *)
Definition in_values (count : nat) (rank_counts : list (Z * nat)) : bool :=
  bool_decide (count ∈ rank_counts.*2).

(** [[r for r, count in rank_counts.items() if count == n]] *)
Definition ranks_with_count (n : nat) (rank_counts : list (Z * nat)) : list Z :=
  (filter (fun rc => rc.2 = n) rank_counts).*1.

(** The loop of [_is_straight] over adjacent positions. *)
Fixpoint adjacent_steps (sorted_ranks : list Z) : bool :=
  match sorted_ranks with
  | x :: (y :: _) as tl =>
      if negb (bool_decide (y - x = 1)) then false else adjacent_steps tl
  | _ => true
  end.

Definition _is_straight (ranks : list Z) : bool :=
  let sorted_ranks := sorted ranks in
  adjacent_steps sorted_ranks.

Definition _evaluate_five_cards (cards : list Card) : outcome HandRank :=
  let ranks := value <$> cards in
  let suits := suit <$> cards in
  let rank_counts := Counter ranks in
  let is_flush := bool_decide (length (remove_dups suits) = 1%nat) in
  let sorted_ranks := sorted_reverse ranks in
  let is_straight := _is_straight sorted_ranks in
  (* the A-5-4-3-2 straight *)
  let wheel := bool_decide (sorted_ranks = [12; 3; 2; 1; 0]) in
  let is_straight := if wheel then true else is_straight in
  let sorted_ranks := if wheel then [3; 2; 1; 0; -1] else sorted_ranks in
  if is_flush && is_straight
     && bool_decide (sorted_ranks = [12; 11; 10; 9; 8])
  then Returned (9, sorted_ranks)
  else if is_flush && is_straight
  then Returned (8, sorted_ranks)
  else if in_values 4 rank_counts
  then
    four_rank ← index0 (ranks_with_count 4 rank_counts);
    kicker ← index0 (filter (fun r => r ≠ four_rank) ranks);
    Returned (7, [four_rank; kicker])
  else if in_values 3 rank_counts && in_values 2 rank_counts
  then
    three_rank ← index0 (ranks_with_count 3 rank_counts);
    pair_rank ← index0 (ranks_with_count 2 rank_counts);
    Returned (6, [three_rank; pair_rank])
  else if is_flush
  then Returned (5, sorted_ranks)
  else if is_straight
  then Returned (4, sorted_ranks)
  else if in_values 3 rank_counts
  then
    three_rank ← index0 (ranks_with_count 3 rank_counts);
    let kickers :=
      sorted_reverse
        (filter (fun r => r ≠ three_rank) ranks) in
    Returned (3, [three_rank] ++ kickers)
  else
    let pairs := ranks_with_count 2 rank_counts in
    if bool_decide (length pairs = 2%nat)
    then
      let pairs := sorted_reverse pairs in
      kicker ← index0 (filter (fun r => r ∉ pairs) ranks);
      Returned (2, pairs ++ [kicker])
    else if bool_decide (length pairs = 1%nat)
    then
      pair_rank ← index0 pairs;
      let kickers :=
        sorted_reverse
          (filter (fun r => r ≠ pair_rank) ranks) in
      Returned (1, [pair_rank] ++ kickers)
    else Returned (0, sorted_ranks).

(** [itertools.combinations(xs, k)]: the [k]-element subsequences of [xs],
    in lexicographic order of positions. *)
Fixpoint combinations {A} (xs : list A) (k : nat) : list (list A) :=
  match k with
  | O => [[]]
  | S k' =>
      match xs with
      | [] => []
      | x :: xs' => map (cons x) (combinations xs' k') ++ combinations xs' k
      end
  end.

(** One iteration of the loop of [evaluate_hand]. *)
Definition best_step (best_hand : HandRank) (combo : list Card)
  : outcome HandRank :=
  '(hand_type, key_cards) ← _evaluate_five_cards combo;
  if bool_decide (hand_type > best_hand.1)
     || (bool_decide (hand_type = best_hand.1) && list_gt key_cards best_hand.2)
  then Returned (hand_type, key_cards)
  else Returned best_hand.

Fixpoint best_loop (combos : list (list Card)) (best_hand : HandRank)
  : outcome HandRank :=
  match combos with
  | [] => Returned best_hand
  | combo :: rest =>
      best_hand' ← best_step best_hand combo;
      best_loop rest best_hand'
  end.

Definition evaluate_hand (cards : list Card) : outcome HandRank :=
  if bool_decide (length cards < 5)%nat then Returned (0, [])
  else best_loop (combinations cards 5) (0, []).

Definition hand_name (hand_type : Z) : string :=
  match hand_type with
  | 9 => "皇家同花顺"
  | 8 => "同花顺"
  | 7 => "四条"
  | 6 => "葫芦"
  | 5 => "同花"
  | 4 => "顺子"
  | 3 => "三条"
  | 2 => "两对"
  | 1 => "一对"
  | 0 => "高牌"
  | _ => "未知"
  end.

(** ** class PokerCalculator *)

(** The values stored in the result dictionaries.  A Python float is kept
    as the exact rational it rounds: [a / b] on integers is the double
    nearest to the quotient held here. *)
Inductive pyval :=
| VInt (n : Z)
| VFloat (q : Q)
| VStr (s : string)
| VCards (cs : list Card).

(** [a / b] on integers. *)
Definition true_div (a b : Z) : outcome Q :=
  if bool_decide (b = 0) then Raised ZeroDivisionError
  else Returned (inject_Z a / inject_Z b)%Q.

(** [max(xs)]: [ValueError] on the empty list, otherwise the first of the
    greatest elements. *)
Definition py_max (xs : list HandRank) : outcome HandRank :=
  match xs with
  | [] => Raised ValueError
  | x :: rest =>
      Returned (fold_left (fun m y => if tuple_gt y m then y else m) rest x)
  end.

(** The opponents' loop of one trial.  [dealt] records the hole cards
    handed out so far; the program keeps them only as [opponent_hole]
    inside the iteration. *)
Fixpoint opponents_loop (n : nat) (full_community : list Card)
    (sim_deck : Deck) (opponent_hands : list HandRank)
    (dealt : list (list Card)) (g : Rng)
  : outcome (list HandRank * list (list Card) * Deck * Rng) :=
  match n with
  | O => Returned (opponent_hands, dealt, sim_deck, g)
  | S n' =>
      '(opponent_hole, sim_deck, g) ← draw sim_deck 2 g;
      let opponent_cards := opponent_hole ++ full_community in
      opponent_hand ← evaluate_hand opponent_cards;
      let opponent_hands := opponent_hands ++ [opponent_hand] in
      let sim_deck := remove_cards sim_deck opponent_hole in
      opponents_loop n' full_community sim_deck opponent_hands
        (dealt ++ [opponent_hole]) g
  end.

(** What one trial deals and evaluates. *)
Record Trial := mkTrial {
  full_community : list Card;
  opponent_holes : list (list Card);
  my_hand : HandRank;
  opponent_hands : list HandRank
}.

Definition deal_trial (hole_cards community_cards known_cards : list Card)
    (cards_needed num_opponents : Z) (g : Rng) : outcome (Trial * Rng) :=
  let sim_deck := Deck_init in
  let sim_deck := remove_cards sim_deck known_cards in
  '(remaining_community, sim_deck, g) ←
    (if bool_decide (cards_needed > 0) then draw sim_deck cards_needed g
     else Returned ([], sim_deck, g));
  let full_community := community_cards ++ remaining_community in
  let sim_deck := remove_cards sim_deck remaining_community in
  let my_cards := hole_cards ++ full_community in
  my_hand ← evaluate_hand my_cards;
  '(opponent_hands, dealt, sim_deck, g) ←
    opponents_loop (Z.to_nat num_opponents) full_community sim_deck [] [] g;
  Returned (mkTrial full_community dealt my_hand opponent_hands, g).

(** The comparison that closes a trial: the new values of
    [(wins, ties, losses)]. *)
Definition tally (counters : Z * Z * Z) (t : Trial) : outcome (Z * Z * Z) :=
  let '(wins, ties, losses) := counters in
  best_opponent_hand ← py_max (opponent_hands t);
  if tuple_gt (my_hand t) best_opponent_hand
  then Returned (wins + 1, ties, losses)
  else if tuple_eq (my_hand t) best_opponent_hand
  then Returned (wins, ties + 1, losses)
  else Returned (wins, ties, losses + 1).

(** [for _ in range(num_simulations)] *)
Fixpoint simulation_loop (n : nat)
    (hole_cards community_cards known_cards : list Card)
    (cards_needed num_opponents : Z) (counters : Z * Z * Z) (g : Rng)
  : outcome (Z * Z * Z * Rng) :=
  match n with
  | O => Returned (counters, g)
  | S n' =>
      '(t, g) ← deal_trial hole_cards community_cards known_cards
                  cards_needed num_opponents g;
      counters ← tally counters t;
      simulation_loop n' hole_cards community_cards known_cards
        cards_needed num_opponents counters g
  end.

Definition calculate_win_probability (hole_cards community_cards : list Card)
    (num_opponents num_simulations : Z) (g : Rng)
  : outcome (gmap string pyval * Rng) :=
  let deck := Deck_init in
  let known_cards := hole_cards ++ community_cards in
  let deck := remove_cards deck known_cards in
  let cards_needed := 5 - Z.of_nat (length community_cards) in
  '(wins, ties, losses, g) ←
    simulation_loop (Z.to_nat num_simulations) hole_cards community_cards
      known_cards cards_needed num_opponents (0, 0, 0) g;
  win_rate ← true_div wins num_simulations;
  tie_rate ← true_div ties num_simulations;
  loss_rate ← true_div losses num_simulations;
  current ← evaluate_hand (hole_cards ++ community_cards);
  Returned
    (<["win_rate" := VFloat win_rate]>
       (<["tie_rate" := VFloat tie_rate]>
          (<["loss_rate" := VFloat loss_rate]>
             (<["simulations" := VInt num_simulations]>
                (<["current_hand" := VStr (hand_name current.1)]> ∅)))),
     g).

Definition get_hand_strength (hole_cards community_cards : list Card)
  : outcome (Z * string) :=
  let all_cards := hole_cards ++ community_cards in
  if bool_decide (5 <= length all_cards)%nat
  then
    '(hand_type, _) ← evaluate_hand all_cards;
    Returned (hand_type, hand_name hand_type)
  else Returned (-1, "尚未形成完整手牌").

(** The scan of [calculate_outs] over [deck.cards]. *)
Fixpoint outs_loop (cards : list Card) (hole_cards community_cards : list Card)
    (current_hand_type : Z) (improving_cards : list Card)
  : outcome (list Card) :=
  match cards with
  | [] => Returned improving_cards
  | card :: rest =>
      let test_cards := hole_cards ++ community_cards ++ [card] in
      '(new_hand_type, _) ← evaluate_hand test_cards;
      let improving_cards :=
        if bool_decide (new_hand_type > current_hand_type)
        then improving_cards ++ [card] else improving_cards in
      outs_loop rest hole_cards community_cards current_hand_type
        improving_cards
  end.

Definition calculate_outs (hole_cards community_cards : list Card)
  : outcome (gmap string pyval) :=
  if bool_decide (5 <= length community_cards)%nat
  then Returned (<["outs" := VInt 0]>
                   (<["description" := VStr "已经是河牌圈"]> ∅))
  else
    let deck := Deck_init in
    let known_cards := hole_cards ++ community_cards in
    let deck := remove_cards deck known_cards in
    '(current_hand_type, _) ← evaluate_hand (hole_cards ++ community_cards);
    improving_cards ←
      outs_loop deck hole_cards community_cards current_hand_type [];
    let outs := length improving_cards in
    let remaining_cards := length deck in
    immediate_odds ←
      (if bool_decide (0 < remaining_cards)%nat
       then q ← true_div (Z.of_nat outs) (Z.of_nat remaining_cards);
            Returned (VFloat q)
       else Returned (VInt 0));
    Returned
      (<["outs" := VInt (Z.of_nat outs)]>
         (<["immediate_odds" := immediate_odds]>
            (<["improving_cards" := VCards (take 10 improving_cards)]>
               (<["description" :=
                    VStr ("有" +:+ pretty outs +:+ "张out牌可以改进手牌")]> ∅)))).

(** ** Notions used by the statements *)

(** [a <= b] in Python's ordering of tuples. *)
Definition tuple_le (a b : HandRank) : Prop := tuple_cmp a b <> Gt.

(** A deck as the program builds them: a fresh deck after any number of
    calls to [remove_cards]. *)
Definition deck_after (removals : list (list Card)) : Deck :=
  fold_left remove_cards removals Deck_init.

(** The number of occurrences of [r] in [xs]. *)
Definition occ (r : Z) (xs : list Z) : nat := length (filter (fun x => x = r) xs).

(** The count stored for [r], [0] when [r] is not a key. *)
Fixpoint get (r : Z) (cs : list (Z * nat)) : nat :=
  match cs with
  | [] => 0%nat
  | (k, n) :: cs' => if bool_decide (k = r) then n else get r cs'
  end.

Definition mixed_suits (cards : list Card) : Prop :=
  ~ exists s, Forall (fun c => suit c = s) cards.

Definition royal_seven : list Card :=
  [mkCard RA Spade; mkCard RK Spade; mkCard RQ Spade; mkCard RJ Spade;
   mkCard R10 Spade; mkCard R2 Heart; mkCard R3 Diamond].

Definition four_cards : list Card :=
  [mkCard RA Spade; mkCard RA Heart; mkCard RA Diamond; mkCard RA Club].

Definition eight_cards : list Card :=
  [mkCard RA Spade; mkCard RA Heart; mkCard RA Diamond; mkCard RA Club;
   mkCard R2 Spade; mkCard R3 Spade; mkCard R4 Spade; mkCard R5 Spade].

Definition wheel_hand : list Card :=
  [mkCard R4 Club; mkCard RA Spade; mkCard R2 Heart; mkCard R5 Club;
   mkCard R3 Heart].

Definition wheel_key : list Z := [3; 2; 1; 0; -1].

(** The caller contract of the equity simulation: two hole cards, at most
    five community cards, no card twice, at least one opponent, and a deck
    that holds the cards one trial draws. *)
Definition valid_call (hole community : list Card) (num_opponents : Z) : Prop :=
  length hole = 2%nat
  /\ (length community <= 5)%nat
  /\ NoDup (hole ++ community)
  /\ 1 <= num_opponents
  /\ (Z.to_nat (5 - Z.of_nat (length community)) + 2 * Z.to_nat num_opponents
      <= length (remove_cards Deck_init (hole ++ community)))%nat.

(** The trials of a run, in the order the loop deals them: each one is
    dealt from the entropy the one before left, and [g'] is what is left
    after the last. *)
Fixpoint dealt_in_turn (hole community known : list Card)
    (cards_needed num_opponents : Z) (g : Rng) (trials : list Trial)
    (g' : Rng) : Prop :=
  match trials with
  | [] => g' = g
  | t :: rest =>
      exists g1,
        deal_trial hole community known cards_needed num_opponents g
        = Returned (t, g1)
        /\ dealt_in_turn hole community known cards_needed num_opponents
             g1 rest g'
  end.

(** The counters after the comparisons of the given trials, in order. *)
Fixpoint tally_all (counters : Z * Z * Z) (trials : list Trial)
  : outcome (Z * Z * Z) :=
  match trials with
  | [] => Returned counters
  | t :: rest => counters ← tally counters t; tally_all counters rest
  end.

Definition AsAh : list Card := [mkCard RA Spade; mkCard RA Heart].
Definition three_hole : list Card :=
  [mkCard RA Spade; mkCard RA Heart; mkCard RK Spade].
Definition flop_spades : list Card :=
  [mkCard R2 Spade; mkCard R7 Spade; mkCard RK Spade].
Definition zeros : Rng := fun _ => 0%nat.

Definition river_board : list Card :=
  [mkCard R2 Spade; mkCard R7 Spade; mkCard RK Spade; mkCard R9 Heart;
   mkCard R3 Club].

(** The standard model of rounding to the nearest binary64 number, away
    from underflow: the rounded value of a non-negative rational is within
    the relative error [2^-53] of it.  The floats of the result dictionary
    are the roundings of the quotients the model keeps. *)
Definition unit_roundoff : Q := 1 # 9007199254740992.

Definition rounds (fl : Q -> Q) : Prop :=
  forall x : Q,
    (0 <= x -> x * (1 - unit_roundoff) <= fl x <= x * (1 + unit_roundoff))%Q.

(** All the cards have one suit. *)
Definition same_suit (cards : list Card) : Prop :=
  exists s, forall c, c ∈ cards -> suit c = s.

(** The values are consecutive: a rearrangement of [lo, lo+1, ...]. *)
Definition consecutive (ranks : list Z) : Prop :=
  exists lo, ranks ≡ₚ seqZ lo (Z.of_nat (length ranks)).

(** The values of A, 5, 4, 3, 2 in some order. *)
Definition wheel_ranks (ranks : list Z) : Prop := ranks ≡ₚ [12; 3; 2; 1; 0].

(** The branch [_evaluate_five_cards] takes, read off its tests: [F] is
    [is_flush], [S] is [is_straight] and [key5] is [sorted_ranks], all
    three after the A-5-4-3-2 adjustment. *)
Inductive five_case (F S : bool) (key5 ranks : list Z) : HandRank -> Prop :=
| case_royal :
    F && S = true -> key5 = [12; 11; 10; 9; 8] ->
    five_case F S key5 ranks (9, key5)
| case_straight_flush :
    F && S = true -> key5 <> [12; 11; 10; 9; 8] ->
    five_case F S key5 ranks (8, key5)
| case_quads r k :
    F && S = false -> occ r ranks = 4%nat -> occ k ranks = 1%nat ->
    five_case F S key5 ranks (7, [r; k])
| case_full_house r3 r2 :
    F && S = false -> (forall r, occ r ranks <> 4%nat) ->
    occ r3 ranks = 3%nat -> occ r2 ranks = 2%nat ->
    five_case F S key5 ranks (6, [r3; r2])
| case_flush :
    F = true -> S = false -> (forall r, occ r ranks <> 4%nat) ->
    ~ ((exists r, occ r ranks = 3%nat) /\ (exists r, occ r ranks = 2%nat)) ->
    five_case F S key5 ranks (5, key5)
| case_straight :
    F = false -> S = true -> (forall r, occ r ranks <> 4%nat) ->
    ~ ((exists r, occ r ranks = 3%nat) /\ (exists r, occ r ranks = 2%nat)) ->
    five_case F S key5 ranks (4, key5)
| case_trips r :
    F = false -> S = false -> (forall r, occ r ranks <> 4%nat) ->
    occ r ranks = 3%nat -> (forall r, occ r ranks <> 2%nat) ->
    five_case F S key5 ranks
      (3, r :: sorted_reverse (filter (fun x => x <> r) ranks))
| case_two_pair p1 p2 k :
    F = false -> S = false -> (forall r, occ r ranks <> 4%nat) ->
    (forall r, occ r ranks <> 3%nat) ->
    occ p1 ranks = 2%nat -> occ p2 ranks = 2%nat -> p2 < p1 ->
    occ k ranks = 1%nat ->
    five_case F S key5 ranks (2, [p1; p2; k])
| case_pair p :
    F = false -> S = false -> (forall r, occ r ranks <> 4%nat) ->
    (forall r, occ r ranks <> 3%nat) ->
    occ p ranks = 2%nat -> (forall r, occ r ranks = 2%nat -> r = p) ->
    five_case F S key5 ranks
      (1, p :: sorted_reverse (filter (fun x => x <> p) ranks))
| case_high_card :
    F = false -> S = false -> (forall r, occ r ranks <> 4%nat) ->
    (forall r, occ r ranks <> 3%nat) -> (forall r, occ r ranks <> 2%nat) ->
    five_case F S key5 ranks (0, key5).

Definition royal_hand : list Card :=
  [mkCard R10 Spade; mkCard RA Spade; mkCard RQ Spade; mkCard RK Spade;
   mkCard RJ Spade].
Definition straight_flush_hand : list Card :=
  [mkCard R7 Heart; mkCard R5 Heart; mkCard R6 Heart; mkCard R9 Heart;
   mkCard R8 Heart].
Definition quads_hand : list Card :=
  [mkCard RA Spade; mkCard RK Spade; mkCard RA Heart; mkCard RA Diamond;
   mkCard RA Club].
Definition full_house_hand : list Card :=
  [mkCard R2 Club; mkCard RK Spade; mkCard RK Heart; mkCard R2 Spade;
   mkCard RK Diamond].
Definition flush_hand : list Card :=
  [mkCard R2 Spade; mkCard R7 Spade; mkCard RK Spade; mkCard R9 Spade;
   mkCard RJ Spade].
Definition straight_hand : list Card :=
  [mkCard R7 Spade; mkCard R5 Heart; mkCard R6 Spade; mkCard R9 Club;
   mkCard R8 Diamond].
Definition trips_hand : list Card :=
  [mkCard R7 Spade; mkCard R7 Heart; mkCard RA Spade; mkCard R7 Club;
   mkCard R8 Diamond].
Definition two_pair_hand : list Card :=
  [mkCard R7 Spade; mkCard RA Heart; mkCard RA Spade; mkCard R7 Club;
   mkCard R8 Diamond].
Definition pair_hand : list Card :=
  [mkCard R7 Spade; mkCard RA Heart; mkCard R2 Spade; mkCard R7 Club;
   mkCard R8 Diamond].
Definition high_hand : list Card :=
  [mkCard R7 Spade; mkCard RA Heart; mkCard R2 Spade; mkCard RJ Club;
   mkCard R8 Diamond].

(** ** app.py: the duplicate check made before the analysis

    [card_set = set((c.rank, c.suit) for c in all_cards)] and
    [has_duplicate = len(card_set) < len(all_cards)]. *)
Definition has_duplicate (all_cards : list Card) : bool :=
  let card_set := remove_dups ((fun c => (rank c, suit c)) <$> all_cards) in
  bool_decide (length card_set < length all_cards)%nat.

(** ** deepseek_advisor.py: DeepSeekAdvisor.parse_action_from_text

    Python strings are kept as their UTF-8 bytes; a newline and each of the
    searched markers occur in the bytes exactly where they occur in the
    text. *)

(** [needle in hay] *)
Fixpoint py_in (needle hay : string) : bool :=
  String.prefix needle hay
  || match hay with
     | EmptyString => false
     | String _ rest => py_in needle rest
     end.

Definition newline : string := String (Ascii.ascii_of_nat 10) EmptyString.

(** [text.split('\n')[0]] *)
Fixpoint first_line_of (text : string) : string :=
  match text with
  | EmptyString => EmptyString
  | String c rest =>
      if Ascii.eqb c (Ascii.ascii_of_nat 10) then EmptyString
      else String c (first_line_of rest)
  end.

Definition action_dict (action color : string) : gmap string pyval :=
  <["action" := VStr action]> (<["color" := VStr color]> ∅).

Definition parse_action_from_text (text : string) : gmap string pyval :=
  let first_line :=
    if bool_decide (text = EmptyString) then EmptyString
    else first_line_of text in
  if py_in "【弃牌】" first_line then action_dict "弃牌" "🔴"
  else if py_in "【全下】" first_line then action_dict "全下" "🟣"
  else if py_in "【加注" first_line then action_dict "加注" "🟢"
  else if py_in "【跟注】" first_line then action_dict "跟注" "🟡"
  else action_dict "分析中" "⚪".

(** * Checks on concrete hands *)

Example evaluate_wheel :
  evaluate_hand [mkCard RA Spade; mkCard R2 Heart; mkCard R3 Heart;
                 mkCard R4 Club; mkCard R5 Club]
  = Returned (4, [3; 2; 1; 0; -1]).
Proof. vm_compute. reflexivity. Qed.

Example evaluate_seven :
  evaluate_hand [mkCard RA Spade; mkCard RA Heart; mkCard R3 Heart;
                 mkCard R3 Club; mkCard R5 Club; mkCard RA Club; mkCard RK Spade]
  = Returned (6, [12; 1]).
Proof. vm_compute. reflexivity. Qed.

(** * The ordering of hand rankings *)

Section Ordering.

Lemma list_cmp_refl (a : list Z) : list_cmp a a = Eq.
Proof. induction a as [|x a IH]; simpl; [done|]. by rewrite Z.compare_refl. Qed.

Lemma list_cmp_eq (a b : list Z) : list_cmp a b = Eq -> a = b.
Proof.
  revert b; induction a as [|x a IH]; intros [|y b]; simpl; try done.
  destruct (x ?= y) eqn:E; try done.
  apply Z.compare_eq in E. intros H. f_equal; auto.
Qed.

Lemma list_cmp_opp (a b : list Z) : list_cmp b a = CompOpp (list_cmp a b).
Proof.
  revert b; induction a as [|x a IH]; intros [|y b]; simpl; try done.
  rewrite (Z.compare_antisym x y).
  destruct (x ?= y); simpl; auto.
Qed.

Lemma list_cmp_trans (c : comparison) (a b d : list Z) :
  list_cmp a b = c -> list_cmp b d = c -> list_cmp a d = c.
Proof.
  revert b d; induction a as [|x a IH]; intros [|y b] [|z d]; simpl;
    try congruence.
  destruct (x ?= y) eqn:E1, (y ?= z) eqn:E2; try congruence.
  - apply Z.compare_eq in E1, E2. subst. rewrite Z.compare_refl. eauto.
  - apply Z.compare_eq in E1. subst. rewrite E2. congruence.
  - apply Z.compare_eq in E1. subst. rewrite E2. congruence.
  - apply Z.compare_eq in E2. subst. rewrite E1. congruence.
  - rewrite (Zcompare_Lt_trans _ _ _ E1 E2). congruence.
  - apply Z.compare_eq in E2. subst. rewrite E1. congruence.
  - rewrite (Zcompare_Gt_trans _ _ _ E1 E2). congruence.
Qed.

Lemma tuple_cmp_cons (a b : HandRank) :
  tuple_cmp a b = list_cmp (a.1 :: a.2) (b.1 :: b.2).
Proof. reflexivity. Qed.

Lemma tuple_le_refl a : tuple_le a a.
Proof. unfold tuple_le. rewrite tuple_cmp_cons, list_cmp_refl. done. Qed.

Lemma tuple_cmp_eq a b : tuple_cmp a b = Eq -> a = b.
Proof.
  rewrite tuple_cmp_cons. intros H%list_cmp_eq.
  destruct a, b; simpl in *. congruence.
Qed.

Lemma tuple_cmp_opp a b : tuple_cmp b a = CompOpp (tuple_cmp a b).
Proof. rewrite !tuple_cmp_cons. apply list_cmp_opp. Qed.

Lemma tuple_le_trans a b c : tuple_le a b -> tuple_le b c -> tuple_le a c.
Proof.
  unfold tuple_le. rewrite !tuple_cmp_cons.
  set (x := a.1 :: a.2); set (y := b.1 :: b.2); set (z := c.1 :: c.2).
  intros H1 H2.
  destruct (list_cmp x y) eqn:E1; [| |done];
    destruct (list_cmp y z) eqn:E2; try done.
  - apply list_cmp_eq in E1. by rewrite E1, E2.
  - apply list_cmp_eq in E1. by rewrite E1, E2.
  - apply list_cmp_eq in E2. by rewrite <- E2, E1.
  - by rewrite (list_cmp_trans Lt x y z E1 E2).
Qed.

Lemma tuple_le_antisym a b : tuple_le a b -> tuple_le b a -> a = b.
Proof.
  unfold tuple_le. rewrite (tuple_cmp_opp a b).
  destruct (tuple_cmp a b) eqn:E; simpl; try done.
  intros _ _. by apply tuple_cmp_eq.
Qed.

Lemma tuple_le_total a b : tuple_le a b \/ tuple_le b a.
Proof.
  unfold tuple_le. rewrite (tuple_cmp_opp a b).
  destruct (tuple_cmp a b); simpl; auto.
Qed.

Lemma tuple_gt_le a b : tuple_gt a b = false <-> tuple_le a b.
Proof. unfold tuple_gt, tuple_le. destruct (tuple_cmp a b); split; done. Qed.

Lemma tuple_gt_lt a b : tuple_gt a b = true -> tuple_le b a.
Proof.
  unfold tuple_gt, tuple_le. rewrite (tuple_cmp_opp a b).
  destruct (tuple_cmp a b); simpl; done.
Qed.

(** The test of [evaluate_hand]'s loop is Python's [>] on the tuples. *)
Lemma best_test_tuple_gt (hand_type : Z) (key_cards : list Z) (best_hand : HandRank) :
  bool_decide (hand_type > best_hand.1)
  || (bool_decide (hand_type = best_hand.1) && list_gt key_cards best_hand.2)
  = tuple_gt (hand_type, key_cards) best_hand.
Proof.
  unfold tuple_gt, tuple_cmp, list_gt. simpl.
  destruct (hand_type ?= best_hand.1) eqn:E.
  - apply Z.compare_eq in E. repeat case_bool_decide; simpl; try lia; done.
  - rewrite Z.compare_lt_iff in E. repeat case_bool_decide; simpl; try lia; done.
  - rewrite Z.compare_gt_iff in E. repeat case_bool_decide; simpl; try lia; done.
Qed.

End Ordering.

(** * The deck and the draws *)

Section DeckFacts.

Lemma Deck_init_length : length Deck_init = 52%nat.
Proof. reflexivity. Qed.

Lemma Deck_init_NoDup : NoDup Deck_init.
Proof. apply (bool_decide_unpack _). vm_compute. exact I. Qed.

Lemma Deck_init_all (c : Card) : c ∈ Deck_init.
Proof.
  destruct c as [r s]. unfold Deck_init, SUITS, RANKS. simpl.
  rewrite !elem_of_cons. destruct r, s; tauto.
Qed.

Lemma remove_card_alt (self : Deck) (card : Card) :
  remove_card self card = filter (fun c => c <> card) self.
Proof.
  unfold remove_card. apply list_filter_iff. intros [r s].
  destruct card as [r' s']. simpl. split.
  - intros H E. apply H. by inversion E.
  - intros H [-> ->]. by apply H.
Qed.

Lemma elem_of_remove_cards (cards : list Card) (self : Deck) (c : Card) :
  c ∈ remove_cards self cards <-> c ∈ self /\ c ∉ cards.
Proof.
  unfold remove_cards. revert self.
  induction cards as [|x cards IH]; intros self; simpl.
  - rewrite elem_of_nil. tauto.
  - rewrite IH, remove_card_alt, list_elem_of_filter, not_elem_of_cons. tauto.
Qed.

Lemma remove_cards_sublist (cards : list Card) (self : Deck) :
  remove_cards self cards `sublist_of` self.
Proof.
  unfold remove_cards. revert self.
  induction cards as [|x cards IH]; intros self; simpl; [done|].
  etrans; [apply IH|]. apply sublist_filter.
Qed.

Lemma remove_cards_NoDup (cards : list Card) (self : Deck) :
  NoDup self -> NoDup (remove_cards self cards).
Proof. intros H. eapply sublist_NoDup; [done|]. apply remove_cards_sublist. Qed.

Lemma remove_cards_app (self : Deck) (xs ys : list Card) :
  remove_cards self (xs ++ ys) = remove_cards (remove_cards self xs) ys.
Proof. unfold remove_cards. apply fold_left_app. Qed.

(** Removing cards that are in the deck splits it. *)
Lemma remove_cards_split (cards : list Card) (self : Deck) :
  NoDup self -> NoDup cards -> (forall c, c ∈ cards -> c ∈ self) ->
  self ≡ₚ cards ++ remove_cards self cards.
Proof.
  intros Hs Hc Hin. apply NoDup_Permutation; [done| |].
  - apply NoDup_app. split_and!; [done| |by apply remove_cards_NoDup].
    intros c Hc1 Hc2%elem_of_remove_cards. tauto.
  - intros c. rewrite elem_of_app, elem_of_remove_cards.
    split; [|intros [?|[? ?]]; auto].
    intros ?. destruct (decide (c ∈ cards)); auto.
Qed.

Lemma remove_cards_length (cards : list Card) (self : Deck) :
  NoDup self -> NoDup cards -> (forall c, c ∈ cards -> c ∈ self) ->
  (length self = length cards + length (remove_cards self cards))%nat.
Proof.
  intros Hs Hc Hin.
  rewrite (Permutation_length (remove_cards_split cards self Hs Hc Hin)).
  apply length_app.
Qed.

Lemma deck_after_NoDup (removals : list (list Card)) : NoDup (deck_after removals).
Proof.
  unfold deck_after. generalize Deck_init_NoDup. generalize Deck_init.
  induction removals as [|r rs IH]; intros d Hd; simpl; [done|].
  apply IH. by apply remove_cards_NoDup.
Qed.

Lemma submseteq_NoDup {A} (l k : list A) : l ⊆+ k -> NoDup k -> NoDup l.
Proof.
  intros [k' Hk]%submseteq_Permutation Hnd. rewrite Hk in Hnd.
  by apply NoDup_app in Hnd as (? & _ & _).
Qed.

(** [sample_from] hands out [k] elements at distinct positions. *)
Lemma sample_from_spec {A} (k : nat) (pool : list A) (g : Rng) :
  (k <= length pool)%nat ->
  length (sample_from pool k g).1 = k /\ (sample_from pool k g).1 ⊆+ pool.
Proof.
  revert pool g. induction k as [|k IH]; intros pool g Hk; simpl.
  - split; [done|]. apply submseteq_nil_l.
  - set (j := (g 0%nat mod length pool)%nat).
    assert (Hj : (j < length pool)%nat) by (apply Nat.mod_upper_bound; lia).
    destruct (lookup_lt_is_Some_2 pool j Hj) as [c Hc]. rewrite Hc.
    specialize (IH (delete j pool) (fun i => g (S i))).
    destruct (sample_from (delete j pool) k (fun i => g (S i))) as [rest g2].
    simpl in *. rewrite length_delete in IH by eauto.
    destruct IH as [IH1 IH2]; [lia|]. split; [by rewrite IH1|].
    rewrite (delete_Permutation pool j c Hc). by apply submseteq_skip.
Qed.

(** Every selection at distinct positions is the draw of some stream. *)
Lemma sample_from_complete {A} (out pool : list A) :
  out ⊆+ pool -> exists g, (sample_from pool (length out) g).1 = out.
Proof.
  revert pool. induction out as [|c out IH]; intros pool Hsub.
  - by exists (fun _ => 0%nat).
  - assert (c ∈ pool) as Hc
      by (eapply elem_of_submseteq; [apply elem_of_cons; auto|done]).
    apply list_elem_of_lookup in Hc as [j Hj].
    assert (out ⊆+ delete j pool) as Hsub'.
    { rewrite (delete_Permutation pool j c Hj) in Hsub.
      by apply submseteq_app_inv_l with (k := [c]). }
    destruct (IH _ Hsub') as [g' Hg'].
    exists (fun i => match i with O => j | S i' => g' i' end).
    simpl. rewrite Nat.mod_small by (by eapply lookup_lt_Some). rewrite Hj.
    destruct (sample_from (delete j pool) (length out) g') as [rest g2] eqn:E.
    simpl in *. by rewrite Hg'.
Qed.

Lemma random_sample_ok {A} (population : list A) (k : Z) (g : Rng) :
  0 <= k <= Z.of_nat (length population) ->
  random_sample population k g
  = Returned (sample_from population (Z.to_nat k) g).
Proof.
  intros Hk. unfold random_sample.
  rewrite !bool_decide_eq_false_2 by lia. done.
Qed.

Lemma random_sample_short {A} (population : list A) (k : Z) (g : Rng) :
  Z.of_nat (length population) < k ->
  random_sample population k g = Raised ValueError.
Proof.
  intros Hk. unfold random_sample.
  rewrite (bool_decide_eq_true_2 (_ < k)) by lia. by rewrite orb_true_r.
Qed.

(** What a successful draw gives. *)
Lemma draw_ok (self : Deck) (n : Z) (g : Rng) :
  0 <= n <= Z.of_nat (length self) ->
  exists drawn g',
    draw self n g = Returned (drawn, self, g')
    /\ length drawn = Z.to_nat n /\ drawn ⊆+ self.
Proof.
  intros Hn. unfold draw. rewrite random_sample_ok by done.
  pose proof (sample_from_spec (Z.to_nat n) self g ltac:(lia)) as [H1 H2].
  destruct (sample_from self (Z.to_nat n) g) as [drawn g'].
  exists drawn, g'. simpl in *. done.
Qed.

Lemma draw_short (self : Deck) (n : Z) (g : Rng) :
  Z.of_nat (length self) < n -> draw self n g = Raised ValueError.
Proof. intros Hn. unfold draw. by rewrite random_sample_short. Qed.

End DeckFacts.

(** * Counting ranks *)

Section Counting.

Lemma occ_app r xs ys : occ r (xs ++ ys) = (occ r xs + occ r ys)%nat.
Proof. unfold occ. by rewrite filter_app, length_app. Qed.

Lemma occ_perm r xs ys : xs ≡ₚ ys -> occ r xs = occ r ys.
Proof. intros H. unfold occ. by rewrite H. Qed.

Lemma occ_pos r xs : r ∈ xs <-> (0 < occ r xs)%nat.
Proof.
  unfold occ. split.
  - intros H. assert (r ∈ filter (fun x => x = r) xs) as Hin
      by (by apply list_elem_of_filter).
    destruct (filter _ xs); [by apply elem_of_nil in Hin|csimpl; lia].
  - intros H. destruct (filter (fun x => x = r) xs) as [|y l] eqn:E;
      [csimpl in H; lia|].
    assert (y ∈ filter (fun x => x = r) xs) as Hy by (rewrite E; apply elem_of_cons; auto).
    apply list_elem_of_filter in Hy as [-> ?]. done.
Qed.

Lemma get_counter_add_eq r cs : get r (counter_add r cs) = S (get r cs).
Proof.
  induction cs as [|[k n] cs IH]; csimpl.
  - by rewrite bool_decide_eq_true_2.
  - case_bool_decide; csimpl.
    + by rewrite bool_decide_eq_true_2.
    + by rewrite bool_decide_eq_false_2.
Qed.

Lemma get_counter_add_ne r r' cs :
  r <> r' -> get r' (counter_add r cs) = get r' cs.
Proof.
  intros Hne. induction cs as [|[k n] cs IH]; csimpl.
  - by rewrite bool_decide_eq_false_2.
  - case_bool_decide; csimpl; subst.
    + by rewrite bool_decide_eq_false_2.
    + by rewrite IH.
Qed.

Lemma keys_counter_add r cs :
  (counter_add r cs).*1 = if bool_decide (r ∈ cs.*1) then cs.*1 else cs.*1 ++ [r].
Proof.
  induction cs as [|[k n] cs IH]; csimpl; [done|].
  destruct (bool_decide_reflect (k = r)) as [->|Hkr]; csimpl.
  - rewrite bool_decide_eq_true_2 by (apply elem_of_cons; auto). done.
  - rewrite IH. destruct (bool_decide_reflect (r ∈ cs.*1)) as [Hin|Hin].
    + rewrite bool_decide_eq_true_2 by (apply elem_of_cons; auto). done.
    + rewrite bool_decide_eq_false_2; [done|].
      rewrite elem_of_cons. intros [->|?]; done.
Qed.

Lemma get_fold r xs cs :
  get r (fold_left (fun cs r => counter_add r cs) xs cs)
  = (get r cs + occ r xs)%nat.
Proof.
  revert cs. induction xs as [|x xs IH]; intros cs; csimpl.
  - unfold occ. csimpl. lia.
  - rewrite IH. change (x :: xs) with ([x] ++ xs). rewrite occ_app.
    unfold occ at 2. csimpl. rewrite filter_cons, filter_nil.
    destruct (decide (x = r)) as [->|Hne]; csimpl.
    + rewrite get_counter_add_eq. lia.
    + rewrite get_counter_add_ne by done. lia.
Qed.

Lemma keys_fold xs cs :
  NoDup cs.*1 ->
  NoDup (fold_left (fun cs r => counter_add r cs) xs cs).*1
  /\ forall k, k ∈ (fold_left (fun cs r => counter_add r cs) xs cs).*1
               <-> k ∈ cs.*1 \/ k ∈ xs.
Proof.
  revert cs. induction xs as [|x xs IH]; intros cs Hnd; csimpl.
  - split; [done|]. intros k. rewrite elem_of_nil. tauto.
  - destruct (IH (counter_add x cs)) as [IH1 IH2].
    + rewrite keys_counter_add. case_bool_decide; [done|].
      apply NoDup_app. split_and!; [done| |apply NoDup_singleton].
      intros y Hy ->%list_elem_of_singleton. done.
    + split; [done|]. intros k. rewrite IH2, keys_counter_add, elem_of_cons.
      case_bool_decide as Hin.
      * split; [tauto|]. intros [?|[->|?]]; auto.
      * rewrite elem_of_app, list_elem_of_singleton. tauto.
Qed.

Lemma elem_of_get r n cs :
  NoDup cs.*1 -> (r, n) ∈ cs <-> r ∈ cs.*1 /\ n = get r cs.
Proof.
  induction cs as [|[k m] cs IH]; csimpl; intros Hnd.
  - rewrite !elem_of_nil. tauto.
  - apply NoDup_cons in Hnd as [Hk Hnd]. rewrite !elem_of_cons, (IH Hnd).
    destruct (bool_decide_reflect (k = r)) as [->|Hkr].
    + split.
      * intros [E|[? ?]]; [|done]. inversion E; subst. auto.
      * intros [_ ->]. auto.
    + split.
      * intros [E|[? ?]]; [|auto]. inversion E; subst. done.
      * intros [[->|?] ->]; [done|auto].
Qed.

(** The items of a [Counter]: every rank of the list, once, with its
    number of occurrences. *)
Lemma Counter_NoDup xs : NoDup (Counter xs).*1.
Proof. apply (keys_fold xs []). constructor. Qed.

Lemma elem_of_Counter r n xs : (r, n) ∈ Counter xs <-> r ∈ xs /\ n = occ r xs.
Proof.
  rewrite elem_of_get by apply Counter_NoDup. unfold Counter.
  rewrite get_fold. csimpl.
  destruct (keys_fold xs [] ltac:(constructor)) as [_ ->].
  csimpl. rewrite elem_of_nil. tauto.
Qed.

Lemma elem_of_ranks_with_count n r xs :
  r ∈ ranks_with_count n (Counter xs) <-> r ∈ xs /\ occ r xs = n.
Proof.
  unfold ranks_with_count. rewrite list_elem_of_fmap. split.
  - intros ([r' m] & -> & [Hm Hin]%list_elem_of_filter). csimpl in *.
    apply elem_of_Counter in Hin as [? ?]. split; [done|congruence].
  - intros [Hin Hn]. exists (r, n). split; [done|].
    apply list_elem_of_filter. split; [done|]. apply elem_of_Counter. done.
Qed.

Lemma ranks_with_count_NoDup n xs : NoDup (ranks_with_count n (Counter xs)).
Proof.
  unfold ranks_with_count. eapply sublist_NoDup; [apply (Counter_NoDup xs)|].
  apply fmap_sublist, sublist_filter.
Qed.

Lemma in_values_Counter n xs :
  in_values n (Counter xs) = true <-> exists r, r ∈ xs /\ occ r xs = n.
Proof.
  unfold in_values. rewrite bool_decide_eq_true, list_elem_of_fmap. split.
  - intros ([r m] & -> & Hin). apply elem_of_Counter in Hin as [? ?].
    exists r. done.
  - intros (r & Hin & Hn). exists (r, n). split; [done|].
    apply elem_of_Counter. done.
Qed.

End Counting.

(** * Order-independent parts of the five-card evaluation *)

Section FiveCards.

Lemma perm_short_eq {A} (l l' : list A) :
  l ≡ₚ l' -> (length l <= 1)%nat -> l = l'.
Proof.
  intros Hp Hl. destruct l as [|x [|y l]]; simpl in Hl; try lia.
  - by apply Permutation_nil_l.
  - by apply Permutation_singleton_l.
Qed.

Lemma length_filter_ne r xs :
  (length (filter (fun x => x <> r) xs) + occ r xs = length xs)%nat.
Proof.
  unfold occ.
  rewrite <- (Permutation_length (filter_app_complement (fun x => x = r) xs)).
  rewrite length_app. lia.
Qed.

Lemma occ_filter_ne r r' xs :
  r' <> r -> occ r' (filter (fun x => x <> r) xs) = occ r' xs.
Proof.
  intros Hne. unfold occ. rewrite list_filter_filter. f_equal.
  apply list_filter_iff. intros x. split; [tauto|]. intros ->. done.
Qed.

(** Cards of ranks outside [L] and cards of each rank of [L] add up. *)
Lemma length_filter_notin (L xs : list Z) :
  NoDup L ->
  (length (filter (fun x => x ∉ L) xs)
   + sum_list ((fun r => occ r xs) <$> L) = length xs)%nat.
Proof.
  intros Hnd. revert xs. induction Hnd as [|r L Hr Hnd IH]; intros xs.
  - csimpl. rewrite Nat.add_0_r. f_equal.
    induction xs as [|x xs IHxs]; [done|].
    rewrite filter_cons_True by apply not_elem_of_nil. by f_equal.
  - csimpl. rewrite <- (length_filter_ne r xs).
    rewrite <- (IH (filter (fun x => x <> r) xs)).
    rewrite list_filter_filter.
    assert (filter (fun x => x ∉ r :: L) xs
            = filter (fun a => (a ∉ L) /\ a <> r) xs) as ->.
    { apply list_filter_iff. intros x. rewrite not_elem_of_cons. tauto. }
    assert ((fun r0 => occ r0 (filter (fun x => x <> r) xs)) <$> L
            = (fun r0 => occ r0 xs) <$> L) as ->.
    { apply list_fmap_ext. intros i r' Hr'. apply occ_filter_ne.
      intros ->. apply Hr. by eapply list_elem_of_lookup_2. }
    lia.
Qed.

Lemma sum_list_lower (n : nat) (f : Z -> nat) (L : list Z) :
  (forall r, r ∈ L -> (n <= f r)%nat) -> (length L * n <= sum_list (f <$> L))%nat.
Proof.
  induction L as [|r L IH]; intros H; csimpl; [lia|].
  assert (n <= f r)%nat by (apply H, elem_of_cons; auto).
  assert (length L * n <= sum_list (f <$> L))%nat.
  { apply IH. intros r' Hr'. apply H, elem_of_cons; auto. }
  lia.
Qed.

(** Distinct ranks that each occur at least [n] times. *)
Lemma occ_bound (n : nat) (L xs : list Z) :
  NoDup L -> (forall r, r ∈ L -> (n <= occ r xs)%nat) ->
  (length L * n <= length xs)%nat.
Proof.
  intros Hnd H. pose proof (length_filter_notin L xs Hnd).
  pose proof (sum_list_lower n (fun r => occ r xs) L H). lia.
Qed.

Lemma ranks_with_count_bound n xs :
  (length (ranks_with_count n (Counter xs)) * n <= length xs)%nat.
Proof.
  apply occ_bound; [apply ranks_with_count_NoDup|].
  intros r [_ <-]%elem_of_ranks_with_count. done.
Qed.

Lemma ranks_with_count_perm n xs xs' :
  xs ≡ₚ xs' ->
  ranks_with_count n (Counter xs) ≡ₚ ranks_with_count n (Counter xs').
Proof.
  intros Hp. apply NoDup_Permutation; try apply ranks_with_count_NoDup.
  intros r. rewrite !elem_of_ranks_with_count, (occ_perm r xs xs' Hp).
  by rewrite Hp.
Qed.

Lemma in_values_perm n xs xs' :
  xs ≡ₚ xs' -> in_values n (Counter xs) = in_values n (Counter xs').
Proof.
  intros Hp. apply eq_true_iff_eq. rewrite !in_values_Counter.
  split; intros (r & Hin & Ho); exists r.
  - split; [by rewrite <- Hp | by rewrite <- (occ_perm r xs xs' Hp)].
  - split; [by rewrite Hp | by rewrite (occ_perm r xs xs' Hp)].
Qed.

Lemma in_values_nonempty n cs :
  in_values n cs = true -> exists r, r ∈ ranks_with_count n cs.
Proof.
  unfold in_values, ranks_with_count.
  rewrite bool_decide_eq_true, list_elem_of_fmap.
  intros ([r m] & -> & Hin). exists r. apply list_elem_of_fmap.
  exists (r, m). split; [done|]. by apply list_elem_of_filter.
Qed.

#[local] Instance flip_le_total : Total (flip Z.le).
Proof. intros x y. unfold flip. lia. Qed.
#[local] Instance flip_le_trans : Transitive (flip Z.le).
Proof. intros x y z. unfold flip. lia. Qed.
#[local] Instance flip_le_antisym : AntiSymm (=) (flip Z.le).
Proof. intros x y. unfold flip. lia. Qed.

Lemma sorted_reverse_perm xs xs' :
  xs ≡ₚ xs' -> sorted_reverse xs = sorted_reverse xs'.
Proof.
  intros Hp. unfold sorted_reverse.
  apply (Sorted_unique (flip Z.le)); try apply Sorted_merge_sort; try apply _.
  by rewrite !merge_sort_Permutation.
Qed.

Lemma sorted_reverse_Permutation xs : sorted_reverse xs ≡ₚ xs.
Proof. apply merge_sort_Permutation. Qed.

Lemma sorted_reverse_length xs : length (sorted_reverse xs) = length xs.
Proof. by rewrite sorted_reverse_Permutation. Qed.

Lemma remove_dups_perm (xs xs' : list Suit) :
  xs ≡ₚ xs' -> length (remove_dups xs) = length (remove_dups xs').
Proof.
  intros Hp. apply Permutation_length.
  apply NoDup_Permutation; try apply NoDup_remove_dups.
  intros x. by rewrite !elem_of_remove_dups, Hp.
Qed.

End FiveCards.

Section FiveCardsEval.

Ltac leaf :=
  eexists; split_and!; [reflexivity|reflexivity|simpl; lia|simpl; lia|done].

Lemma head_elem_of {A} (x : A) (l k : list A) : k = x :: l -> x ∈ k.
Proof. intros ->. apply elem_of_cons. auto. Qed.

(** A five-card hand and any reordering of it get the same ranking, and
    the evaluation raises no error. *)
Lemma five_cards_perm_total (cards cards' : list Card) :
  cards ≡ₚ cards' -> length cards = 5%nat ->
  exists h, _evaluate_five_cards cards = Returned h
            /\ _evaluate_five_cards cards' = Returned h
            /\ 0 <= h.1 <= 9 /\ h.2 <> [].
Proof.
  intros Hp Hlen. unfold _evaluate_five_cards. cbv zeta.
  assert (Hr : value <$> cards ≡ₚ value <$> cards') by (by rewrite Hp).
  assert (Hs : suit <$> cards ≡ₚ suit <$> cards') by (by rewrite Hp).
  assert (Hl : length (value <$> cards) = 5%nat) by (by rewrite length_fmap).
  rewrite <- (remove_dups_perm _ _ Hs).
  rewrite <- (sorted_reverse_perm _ _ Hr).
  rewrite <- !(in_values_perm _ _ _ Hr).
  generalize dependent (value <$> cards'). intros ranks' Hr.
  generalize dependent (value <$> cards). intros ranks Hl Hr.
  generalize (bool_decide (length (remove_dups (suit <$> cards)) = 1%nat)).
  intros is_flush.
  set (wheel := bool_decide (sorted_reverse ranks = [12; 3; 2; 1; 0])).
  assert (Hsr : (if wheel then [3; 2; 1; 0; -1] else sorted_reverse ranks) <> []).
  { destruct wheel; [done|]. intros E.
    pose proof (sorted_reverse_length ranks) as Hsl. rewrite E, Hl in Hsl. done. }
  generalize dependent (if wheel then [3; 2; 1; 0; -1] else sorted_reverse ranks).
  intros sorted_ranks Hsr.
  generalize (if wheel then true else _is_straight (sorted_reverse ranks)).
  intros is_straight. clear wheel.
  assert (E4 : ranks_with_count 4 (Counter ranks')
               = ranks_with_count 4 (Counter ranks)).
  { symmetry. apply perm_short_eq; [by apply ranks_with_count_perm|].
    pose proof (ranks_with_count_bound 4 ranks). lia. }
  assert (E3 : ranks_with_count 3 (Counter ranks')
               = ranks_with_count 3 (Counter ranks)).
  { symmetry. apply perm_short_eq; [by apply ranks_with_count_perm|].
    pose proof (ranks_with_count_bound 3 ranks). lia. }
  pose proof (ranks_with_count_perm 2 _ _ Hr) as P2.
  pose proof (ranks_with_count_NoDup 2 ranks) as N2.
  pose proof (ranks_with_count_NoDup 3 ranks) as N3.
  rewrite E4, E3, <- (Permutation_length P2), <- (sorted_reverse_perm _ _ P2).
  assert (Hfilter : forall r, (length (filter (fun x => x <> r) ranks) <= 1)%nat ->
            filter (fun x => x <> r) ranks' = filter (fun x => x <> r) ranks).
  { intros r Hlr. symmetry. apply perm_short_eq; [by rewrite Hr|done]. }
  unfold mbind, outcome_bind.
  destruct (is_flush && is_straight && bool_decide (sorted_ranks = [12; 11; 10; 9; 8]));
    [leaf|].
  destruct (is_flush && is_straight); [leaf|].
  destruct (in_values 4 (Counter ranks)) eqn:T4.
  { apply in_values_nonempty in T4 as [r0 Hr0].
    destruct (ranks_with_count 4 (Counter ranks)) as [|four_rank L] eqn:E;
      [by apply elem_of_nil in Hr0|].
    apply head_elem_of, elem_of_ranks_with_count in E as [_ Ho].
    pose proof (length_filter_ne four_rank ranks) as Hk.
    cbn beta iota delta [index0]. rewrite Hfilter by lia.
    destruct (filter (fun x => x <> four_rank) ranks) as [|kicker ?];
      [simpl in Hk; lia|]. leaf. }
  destruct (in_values 3 (Counter ranks) && in_values 2 (Counter ranks)) eqn:T32.
  { apply andb_true_iff in T32 as [T3 T2].
    apply in_values_nonempty in T3 as [r3 Hr3].
    apply in_values_nonempty in T2 as [r2 Hr2].
    assert (length (ranks_with_count 3 (Counter ranks)
                    ++ ranks_with_count 2 (Counter ranks)) * 2 <= length ranks)%nat
      as Hb.
    { apply occ_bound.
      - apply NoDup_app. split_and!; [done| |done].
        intros x [_ H3]%elem_of_ranks_with_count [_ H2]%elem_of_ranks_with_count.
        lia.
      - intros r [[_ H]%elem_of_ranks_with_count|[_ H]%elem_of_ranks_with_count]%elem_of_app;
          lia. }
    rewrite length_app in Hb.
    assert (ranks_with_count 2 (Counter ranks')
            = ranks_with_count 2 (Counter ranks)) as ->.
    { symmetry. apply perm_short_eq; [done|].
      destruct (ranks_with_count 3 (Counter ranks));
        [by apply elem_of_nil in Hr3|simpl in Hb; lia]. }
    destruct (ranks_with_count 3 (Counter ranks)) as [|three_rank ?];
      [by apply elem_of_nil in Hr3|].
    destruct (ranks_with_count 2 (Counter ranks)) as [|pair_rank ?];
      [by apply elem_of_nil in Hr2|]. simpl. leaf. }
  destruct is_flush; [leaf|].
  destruct is_straight; [leaf|].
  destruct (in_values 3 (Counter ranks)) eqn:T3.
  { apply in_values_nonempty in T3 as [r3 Hr3].
    destruct (ranks_with_count 3 (Counter ranks)) as [|three_rank ?];
      [by apply elem_of_nil in Hr3|]. simpl.
    rewrite (sorted_reverse_perm (filter (fun r => r <> three_rank) ranks')
               (filter (fun r => r <> three_rank) ranks)) by (by rewrite Hr).
    leaf. }
  destruct (bool_decide_reflect
              (length (ranks_with_count 2 (Counter ranks)) = 2%nat)) as [L2|L2].
  { set (pairs := sorted_reverse (ranks_with_count 2 (Counter ranks))).
    assert (Hpp : pairs ≡ₚ ranks_with_count 2 (Counter ranks))
      by apply sorted_reverse_Permutation.
    assert (Npairs : NoDup pairs) by (by rewrite Hpp).
    assert (Hocc : forall r, r ∈ pairs -> occ r ranks = 2%nat).
    { intros r. rewrite Hpp. by intros [_ ?]%elem_of_ranks_with_count. }
    pose proof (length_filter_notin pairs ranks Npairs) as Hk.
    assert (length pairs = 2%nat) as Lp by (by rewrite Hpp).
    destruct pairs as [|p1 [|p2 [|? ?]]]; try done.
    csimpl in Hk. rewrite (Hocc p1), (Hocc p2) in Hk
      by (rewrite !elem_of_cons; auto).
    assert (filter (fun r => r ∉ [p1; p2]) ranks'
            = filter (fun r => r ∉ [p1; p2]) ranks) as ->.
    { symmetry. apply perm_short_eq; [by rewrite Hr|lia]. }
    destruct (filter (fun r => r ∉ [p1; p2]) ranks) as [|kicker ?];
      [simpl in Hk; lia|]. simpl. leaf. }
  destruct (bool_decide_reflect
              (length (ranks_with_count 2 (Counter ranks)) = 1%nat)) as [L1|L1].
  { assert (ranks_with_count 2 (Counter ranks')
            = ranks_with_count 2 (Counter ranks)) as ->.
    { symmetry. apply perm_short_eq; [done|lia]. }
    destruct (ranks_with_count 2 (Counter ranks)) as [|pair_rank ?]; [done|].
    simpl.
    rewrite (sorted_reverse_perm (filter (fun r => r <> pair_rank) ranks')
               (filter (fun r => r <> pair_rank) ranks)) by (by rewrite Hr).
    leaf. }
  leaf.
Qed.

End FiveCardsEval.

(** * The best hand among the five-card combinations *)

Section BestHand.

Lemma elem_of_combinations {A} (xs : list A) (k : nat) (c : list A) :
  c ∈ combinations xs k <-> c `sublist_of` xs /\ length c = k.
Proof.
  revert k c. induction xs as [|x xs IH]; intros [|k] c; simpl.
  - rewrite list_elem_of_singleton, sublist_nil_r. split.
    + by intros ->.
    + tauto.
  - rewrite elem_of_nil, sublist_nil_r. split; [done|]. by intros [-> ?].
  - rewrite list_elem_of_singleton. split.
    + intros ->. split; [apply sublist_nil_l|done].
    + intros [_ ?]. by apply nil_length_inv.
  - rewrite elem_of_app, list_elem_of_fmap, sublist_cons_r, (IH (S k) c).
    split.
    + intros [(c' & -> & [? ?]%IH)|[? ?]].
      * split; [right; eauto|simpl; lia].
      * split; [by left|done].
    + intros [[?|(c' & -> & ?)] Hl].
      * by right.
      * left. exists c'. split; [done|]. apply IH. simpl in Hl. split; [done|lia].
Qed.

Lemma best_step_max (best_hand v : HandRank) (combo : list Card) :
  _evaluate_five_cards combo = Returned v ->
  best_step best_hand combo
  = Returned (if tuple_gt v best_hand then v else best_hand).
Proof.
  intros E. unfold best_step. rewrite E. destruct v as [hand_type key_cards].
  unfold mbind, outcome_bind. rewrite best_test_tuple_gt.
  by destruct (tuple_gt _ _).
Qed.

(** The loop of [evaluate_hand] returns the greatest ranking met. *)
Lemma best_loop_spec (combos : list (list Card)) (best_hand : HandRank) :
  (forall c, c ∈ combos -> length c = 5%nat) ->
  exists h,
    best_loop combos best_hand = Returned h
    /\ tuple_le best_hand h
    /\ (h = best_hand \/ exists c, c ∈ combos /\ _evaluate_five_cards c = Returned h)
    /\ (forall c v, c ∈ combos -> _evaluate_five_cards c = Returned v -> tuple_le v h).
Proof.
  revert best_hand. induction combos as [|combo rest IH]; intros b Hlen; simpl.
  - exists b. split_and!; [done|apply tuple_le_refl|by left|].
    intros c v Hc. by apply elem_of_nil in Hc.
  - destruct (five_cards_perm_total combo combo) as (v & Ev & _ & _);
      [done|apply Hlen, elem_of_cons; auto|].
    rewrite (best_step_max b v combo Ev). unfold mbind, outcome_bind.
    set (b' := if tuple_gt v b then v else b).
    assert (tuple_le b b' /\ tuple_le v b') as [Hb Hv].
    { unfold b'. destruct (tuple_gt v b) eqn:G.
      - split; [by apply tuple_gt_lt|apply tuple_le_refl].
      - split; [apply tuple_le_refl|by apply tuple_gt_le]. }
    destruct (IH b') as (h & Eh & Hle & Hfrom & Hmax).
    { intros c Hc. apply Hlen, elem_of_cons. auto. }
    exists h. split_and!; [done|by eapply tuple_le_trans| |].
    + destruct Hfrom as [->|(c & Hc & Ec)].
      * unfold b'. destruct (tuple_gt v b); [|by left].
        right. exists combo. split; [apply elem_of_cons; auto|done].
      * right. exists c. split; [apply elem_of_cons; auto|done].
    + intros c w [->|Hc]%elem_of_cons Ec.
      * rewrite Ev in Ec. inversion Ec; subst. by eapply tuple_le_trans.
      * by eapply Hmax.
Qed.

End BestHand.

(** * evaluate_hand *)

Section EvaluateHand.

Lemma evaluate_hand_short (cards : list Card) :
  (length cards < 5)%nat -> evaluate_hand cards = Returned (0, []).
Proof. intros H. unfold evaluate_hand. by rewrite bool_decide_eq_true_2. Qed.

Lemma above_initial (v : HandRank) :
  0 <= v.1 -> v.2 <> [] -> tuple_le v (0, []) -> False.
Proof.
  destruct v as [t [|k key]]; simpl; intros Ht Hk; [done|].
  unfold tuple_le, tuple_cmp. simpl. destruct (t ?= 0) eqn:E; try done.
  rewrite Z.compare_lt_iff in E. lia.
Qed.

(** With five cards or more the result is the greatest ranking of a
    five-card combination. *)
Lemma evaluate_hand_spec (cards : list Card) :
  (5 <= length cards)%nat ->
  exists h,
    evaluate_hand cards = Returned h
    /\ 0 <= h.1 <= 9
    /\ (exists c, c ∈ combinations cards 5 /\ _evaluate_five_cards c = Returned h)
    /\ (forall c v, c ∈ combinations cards 5 ->
                    _evaluate_five_cards c = Returned v -> tuple_le v h).
Proof.
  intros Hlen. unfold evaluate_hand. rewrite bool_decide_eq_false_2 by lia.
  destruct (best_loop_spec (combinations cards 5) (0, [])) as (h & Eh & _ & Hfrom & Hmax).
  { by intros c [_ ?]%elem_of_combinations. }
  assert (exists c, c ∈ combinations cards 5 /\ _evaluate_five_cards c = Returned h)
    as (c & Hc & Ec).
  { destruct Hfrom as [->|?]; [|done]. exfalso.
    assert (take 5 cards ∈ combinations cards 5) as H5.
    { apply elem_of_combinations. split; [apply sublist_take|].
      rewrite length_take. lia. }
    destruct (five_cards_perm_total (take 5 cards) (take 5 cards))
      as (v & Ev & _ & Hv1 & Hv2); [done|rewrite length_take; lia|].
    apply (above_initial v); [lia|done|]. by eapply Hmax. }
  exists h. split; [done|]. split; [|split; [by exists c|done]].
  apply elem_of_combinations in Hc as [_ Hc].
  destruct (five_cards_perm_total c c) as (v & Ev & _ & Hv1 & _); [done|done|].
  rewrite Ec in Ev. inversion Ev; subst. done.
Qed.

(** [evaluate_hand] raises no error, whatever the number of cards. *)
Lemma evaluate_hand_total (cards : list Card) :
  exists h, evaluate_hand cards = Returned h /\ 0 <= h.1 <= 9.
Proof.
  destruct (decide (length cards < 5)%nat) as [H|H].
  - exists (0, []). split; [by apply evaluate_hand_short|simpl; lia].
  - destruct (evaluate_hand_spec cards) as (h & ? & ? & _); [lia|]. by exists h.
Qed.

Lemma evaluate_hand_perm_le (cards cards' : list Card) h h' :
  cards ≡ₚ cards' -> (5 <= length cards)%nat ->
  evaluate_hand cards = Returned h -> evaluate_hand cards' = Returned h' ->
  tuple_le h h'.
Proof.
  intros Hp Hlen Eh Eh'.
  destruct (evaluate_hand_spec cards Hlen) as (h0 & E0 & _ & (c & Hc & Ec) & _).
  rewrite Eh in E0. inversion E0; subst h0. clear E0.
  destruct (evaluate_hand_spec cards') as (h0 & E0 & _ & _ & Hmax);
    [by rewrite <- Hp|].
  rewrite Eh' in E0. inversion E0; subst h0. clear E0.
  apply elem_of_combinations in Hc as [Hsub Hc5].
  destruct (sublist_Permutation c cards cards' Hsub Hp) as (c' & Hcc' & Hsub').
  destruct (five_cards_perm_total c c' Hcc' Hc5) as (v & Ev & Ev' & _).
  rewrite Ec in Ev. inversion Ev; subst v.
  apply (Hmax c'); [|done]. apply elem_of_combinations.
  split; [done|]. by rewrite <- Hcc'.
Qed.

(** The ranking does not depend on the order of the cards. *)
Lemma evaluate_hand_perm (cards cards' : list Card) :
  cards ≡ₚ cards' -> evaluate_hand cards = evaluate_hand cards'.
Proof.
  intros Hp. destruct (decide (length cards < 5)%nat) as [H|H].
  - rewrite !evaluate_hand_short; [done| |done]. by rewrite <- Hp.
  - destruct (evaluate_hand_total cards) as (h & Eh & _).
    destruct (evaluate_hand_total cards') as (h' & Eh' & _).
    rewrite Eh, Eh'. f_equal. apply tuple_le_antisym.
    + eapply evaluate_hand_perm_le; [exact Hp|lia|done|done].
    + eapply evaluate_hand_perm_le; [symmetry; exact Hp| |done|done].
      rewrite <- Hp. lia.
Qed.

End EvaluateHand.

(** * Claims about the evaluator *)

(** C8: for 5 to 7 distinct cards, every reordering of the input gives the
    same (category, tie-break key) pair. *)
Theorem evaluate_hand_order_invariant (cards cards' : list Card) :
  (5 <= length cards <= 7)%nat -> NoDup cards -> cards ≡ₚ cards' ->
  exists h, evaluate_hand cards = Returned h /\ evaluate_hand cards' = Returned h.
Proof.
  intros _ _ Hp. destruct (evaluate_hand_total cards) as (h & Eh & _).
  exists h. split; [done|]. by rewrite <- (evaluate_hand_perm cards cards' Hp).
Qed.

Lemma evaluate_hand_order_invariant_witness :
  (5 <= length royal_seven <= 7)%nat /\ NoDup royal_seven
  /\ royal_seven ≡ₚ reverse royal_seven
  /\ exists h, evaluate_hand royal_seven = Returned h
               /\ evaluate_hand (reverse royal_seven) = Returned h.
Proof.
  assert (H1 : (5 <= length royal_seven <= 7)%nat) by (simpl; lia).
  assert (H2 : NoDup royal_seven) by (apply (bool_decide_unpack _); vm_compute; exact I).
  assert (H3 : royal_seven ≡ₚ reverse royal_seven) by (symmetry; apply reverse_Permutation).
  split; [exact H1|]. split; [exact H2|]. split; [exact H3|].
  exact (evaluate_hand_order_invariant _ _ H1 H2 H3).
Defined.

(** C4, as stated, fails: with four cards, and with eight, a ranking is
    returned and no error is signalled. *)
Lemma evaluate_hand_card_count_counterexample :
  (length four_cards < 5)%nat
  /\ evaluate_hand four_cards = Returned (0, [])
  /\ (7 < length eight_cards)%nat
  /\ evaluate_hand eight_cards = Returned (8, wheel_key)
  /\ ~ (forall cards : list Card,
          (length cards < 5 \/ 7 < length cards)%nat ->
          exists e, evaluate_hand cards = Raised e).
Proof.
  assert (E4 : evaluate_hand four_cards = Returned (0, [])) by (vm_compute; reflexivity).
  split; [simpl; lia|]. split; [exact E4|]. split; [simpl; lia|].
  split; [vm_compute; reflexivity|].
  intros H. destruct (H four_cards) as [e He]; [left; simpl; lia|].
  rewrite E4 in He. discriminate.
Qed.

(** C4 (amended): with fewer than 5 cards [evaluate_hand] returns the
    ranking (0, []); with more than 7 cards it returns the greatest ranking
    among all the 5-card combinations of the input; no error is signalled
    for any number of cards. *)
Theorem evaluate_hand_card_count (cards : list Card) :
  ((length cards < 5)%nat -> evaluate_hand cards = Returned (0, []))
  /\ ((7 < length cards)%nat ->
      exists h, evaluate_hand cards = Returned h
        /\ (exists c, c ∈ combinations cards 5 /\ _evaluate_five_cards c = Returned h)
        /\ (forall c v, c ∈ combinations cards 5 ->
                        _evaluate_five_cards c = Returned v -> tuple_cmp v h <> Gt))
  /\ (forall e, evaluate_hand cards <> Raised e).
Proof.
  split; [apply evaluate_hand_short|]. split.
  - intros H. destruct (evaluate_hand_spec cards) as (h & Eh & _ & Hc & Hmax); [lia|].
    exists h. done.
  - intros e He. destruct (evaluate_hand_total cards) as (h & Eh & _). congruence.
Qed.

Lemma evaluate_hand_card_count_witness :
  ((length four_cards < 5)%nat /\ evaluate_hand four_cards = Returned (0, []))
  /\ ((7 < length eight_cards)%nat
      /\ exists h, evaluate_hand eight_cards = Returned h
        /\ (exists c, c ∈ combinations eight_cards 5
                      /\ _evaluate_five_cards c = Returned h)
        /\ (forall c v, c ∈ combinations eight_cards 5 ->
                        _evaluate_five_cards c = Returned v -> tuple_cmp v h <> Gt)).
Proof.
  assert (H1 : (length four_cards < 5)%nat) by (simpl; lia).
  assert (H2 : (7 < length eight_cards)%nat) by (simpl; lia).
  split.
  - split; [exact H1|]. exact (proj1 (evaluate_hand_card_count four_cards) H1).
  - split; [exact H2|].
    exact (proj1 (proj2 (evaluate_hand_card_count eight_cards)) H2).
Defined.

Section Wheel.

Lemma by_rank_pattern (cards : list Card) (rs : list Rank) :
  rank <$> cards ≡ₚ rs ->
  exists cards0, cards ≡ₚ cards0 /\ rank <$> cards0 = rs.
Proof.
  intros Hp. symmetry in Hp.
  change (rank <$> cards) with (map rank cards) in Hp.
  apply Permutation_map_inv in Hp as (cards0 & E & Hp0).
  exists cards0. split; [done|]. by rewrite E.
Qed.

Ltac five_by_rank H cards0 :=
  apply by_rank_pattern in H as (cards0 & H & ?);
  destruct cards0 as [|[? ?] [|[? ?] [|[? ?] [|[? ?] [|[? ?] [|? ?]]]]]];
  try discriminate; simplify_eq/=.

Lemma wheel_eval (cards : list Card) :
  rank <$> cards ≡ₚ [RA; R2; R3; R4; R5] -> mixed_suits cards ->
  evaluate_hand cards = Returned (4, wheel_key).
Proof.
  intros Hr Hs. five_by_rank Hr cards0.
  rewrite (evaluate_hand_perm _ _ Hr).
  match type of Hr with
  | _ ≡ₚ ?l => assert (forall s, ~ Forall (fun c => suit c = s) l) as Hs'
  end.
  { intros s HF. apply Hs. exists s. by rewrite Hr. }
  repeat match goal with s : Suit |- _ => destruct s end;
    try (vm_compute; reflexivity);
    exfalso; eapply Hs'; repeat constructor.
Qed.

Lemma six_high_eval (cards : list Card) :
  rank <$> cards ≡ₚ [R2; R3; R4; R5; R6] -> mixed_suits cards ->
  evaluate_hand cards = Returned (4, [4; 3; 2; 1; 0]).
Proof.
  intros Hr Hs. five_by_rank Hr cards0.
  rewrite (evaluate_hand_perm _ _ Hr).
  match type of Hr with
  | _ ≡ₚ ?l => assert (forall s, ~ Forall (fun c => suit c = s) l) as Hs'
  end.
  { intros s HF. apply Hs. exists s. by rewrite Hr. }
  repeat match goal with s : Suit |- _ => destruct s end;
    try (vm_compute; reflexivity);
    exfalso; eapply Hs'; repeat constructor.
Qed.

End Wheel.

(** C1: a 5-card hand whose ranks are exactly A, 2, 3, 4, 5 and whose suits
    are not all equal is a straight (category 4) whose key counts the ace
    below every rank; it is strictly below the 2-3-4-5-6 straight and
    strictly above every category-0 hand in the ordering of rankings. *)
Theorem wheel_straight (cards : list Card) :
  rank <$> cards ≡ₚ [RA; R2; R3; R4; R5] -> mixed_suits cards ->
  evaluate_hand cards = Returned (4, wheel_key)
  /\ wheel_key = [RANK_VALUES R5; RANK_VALUES R4; RANK_VALUES R3; RANK_VALUES R2; -1]
  /\ (forall r, -1 < RANK_VALUES r)
  /\ (forall six, rank <$> six ≡ₚ [R2; R3; R4; R5; R6] -> mixed_suits six ->
       exists h6, evaluate_hand six = Returned h6 /\ h6.1 = 4
                  /\ tuple_cmp (4, wheel_key) h6 = Lt)
  /\ (forall other h0, evaluate_hand other = Returned h0 -> h0.1 = 0 ->
       tuple_cmp h0 (4, wheel_key) = Lt).
Proof.
  intros Hr Hs. split; [by apply wheel_eval|]. split; [reflexivity|].
  split; [intros r; destruct r; simpl; lia|]. split.
  - intros six H6 Hs6. exists (4, [4; 3; 2; 1; 0]).
    split; [by apply six_high_eval|]. split; reflexivity.
  - intros other [t key] _ Ht. simpl in Ht. subst t. reflexivity.
Qed.

Lemma wheel_straight_witness :
  rank <$> wheel_hand ≡ₚ [RA; R2; R3; R4; R5] /\ mixed_suits wheel_hand
  /\ evaluate_hand wheel_hand = Returned (4, wheel_key).
Proof.
  assert (H1 : rank <$> wheel_hand ≡ₚ [RA; R2; R3; R4; R5])
    by (apply (bool_decide_unpack _); vm_compute; exact I).
  assert (H2 : mixed_suits wheel_hand).
  { intros [s HF]. unfold wheel_hand in HF.
    apply Forall_cons in HF as [E1 HF]. apply Forall_cons in HF as [E2 HF].
    apply Forall_cons in HF as [E3 _]. simpl in *. congruence. }
  split; [exact H1|]. split; [exact H2|].
  exact (proj1 (wheel_straight wheel_hand H1 H2)).
Defined.

(** * The trials of the equity simulation *)

Section Trials.

Lemma bind_Returned {A B} (a : A) (k : A -> outcome B) :
  (Returned a ≫= k) = k a.
Proof. reflexivity. Qed.

Lemma bind_Raised {A B} (e : exn) (k : A -> outcome B) :
  (Raised e ≫= k) = Raised e.
Proof. reflexivity. Qed.

(** A draw from a deck without duplicates, followed by the removal of
    the drawn cards. *)
Lemma draw_remove (self : Deck) (n : Z) (g : Rng) :
  NoDup self -> 0 <= n <= Z.of_nat (length self) ->
  exists drawn g',
    draw self n g = Returned (drawn, self, g')
    /\ length drawn = Z.to_nat n
    /\ drawn ⊆+ self
    /\ NoDup (remove_cards self drawn)
    /\ self ≡ₚ drawn ++ remove_cards self drawn.
Proof.
  intros Hnd Hn. destruct (draw_ok self n g Hn) as (drawn & g' & E & Hl & Hsub).
  exists drawn, g'. split_and!; try done.
  - by apply remove_cards_NoDup.
  - apply remove_cards_split; [done|by eapply submseteq_NoDup|].
    intros c Hc. by eapply elem_of_submseteq.
Qed.

Lemma opponents_loop_spec (n : nat) (fc : list Card) (sim_deck : Deck)
    (hands : list HandRank) (dealt : list (list Card)) (g : Rng) :
  NoDup sim_deck -> (2 * n <= length sim_deck)%nat ->
  exists hands' new sim_deck' g',
    opponents_loop n fc sim_deck hands dealt g
    = Returned (hands ++ hands', dealt ++ new, sim_deck', g')
    /\ length hands' = n /\ length new = n
    /\ Forall (fun h => length h = 2%nat) new
    /\ concat new ⊆+ sim_deck.
Proof.
  revert sim_deck hands dealt g.
  induction n as [|n IH]; intros sim_deck hands dealt g Hnd Hlen.
  - exists [], [], sim_deck, g. simpl. rewrite !app_nil_r.
    split_and!; try done. apply submseteq_nil_l.
  - cbn [opponents_loop].
    destruct (draw_remove sim_deck 2 g Hnd ltac:(lia))
      as (hole & g1 & E & Hl & Hsub & Hnd' & Hsplit).
    rewrite E, bind_Returned. cbn beta iota.
    destruct (evaluate_hand_total (hole ++ fc)) as (h & Eh & _).
    rewrite Eh, bind_Returned.
    assert (length sim_deck = 2 + length (remove_cards sim_deck hole))%nat as Hl'.
    { rewrite (Permutation_length Hsplit), length_app, Hl. lia. }
    destruct (IH (remove_cards sim_deck hole) (hands ++ [h]) (dealt ++ [hole]) g1)
      as (hands' & new & deck' & g' & E' & Hh & Hn & Hall & Hsub'); [done|lia|].
    exists (h :: hands'), (hole :: new), deck', g'.
    rewrite E', <- !app_assoc. simpl. split_and!; try done; try lia.
    + constructor; [by rewrite Hl|done].
    + rewrite Hsplit. by apply submseteq_skips_l.
Qed.

Lemma opponents_loop_short (n : nat) (fc : list Card) (sim_deck : Deck)
    (hands : list HandRank) (dealt : list (list Card)) (g : Rng) :
  NoDup sim_deck -> (length sim_deck < 2 * n)%nat ->
  opponents_loop n fc sim_deck hands dealt g = Raised ValueError.
Proof.
  revert sim_deck hands dealt g.
  induction n as [|n IH]; intros sim_deck hands dealt g Hnd Hlen; [lia|].
  cbn [opponents_loop].
  destruct (decide (length sim_deck < 2)%nat) as [Hs|Hs].
  - rewrite draw_short by lia. done.
  - destruct (draw_remove sim_deck 2 g Hnd ltac:(lia))
      as (hole & g1 & E & Hl & Hsub & Hnd' & Hsplit).
    rewrite E, bind_Returned. cbn beta iota.
    destruct (evaluate_hand_total (hole ++ fc)) as (h & Eh & _).
    rewrite Eh, bind_Returned.
    apply IH; [done|].
    pose proof (Permutation_length Hsplit) as Hl'. rewrite length_app, Hl in Hl'.
    lia.
Qed.

Lemma deal_trial_spec (hole community known : list Card)
    (cards_needed num_opponents : Z) (g : Rng) :
  (Z.to_nat cards_needed + 2 * Z.to_nat num_opponents
   <= length (remove_cards Deck_init known))%nat ->
  exists t g' rem,
    deal_trial hole community known cards_needed num_opponents g = Returned (t, g')
    /\ full_community t = community ++ rem
    /\ length rem = Z.to_nat cards_needed
    /\ length (opponent_holes t) = Z.to_nat num_opponents
    /\ Forall (fun h => length h = 2%nat) (opponent_holes t)
    /\ length (opponent_hands t) = Z.to_nat num_opponents
    /\ rem ++ concat (opponent_holes t) ⊆+ remove_cards Deck_init known
    /\ evaluate_hand (hole ++ full_community t) = Returned (my_hand t).
Proof.
  intros Hlen. unfold deal_trial. cbv zeta.
  set (deck := remove_cards Deck_init known) in *.
  assert (Hnd : NoDup deck) by apply remove_cards_NoDup, Deck_init_NoDup.
  assert (exists rem g1,
             (if bool_decide (cards_needed > 0) then draw deck cards_needed g
              else Returned ([], deck, g)) = Returned (rem, deck, g1)
             /\ length rem = Z.to_nat cards_needed
             /\ NoDup (remove_cards deck rem)
             /\ deck ≡ₚ rem ++ remove_cards deck rem)
    as (rem & g1 & -> & Hl & Hnd' & Hsplit).
  { case_bool_decide as Hc.
    - destruct (draw_remove deck cards_needed g Hnd ltac:(lia))
        as (rem & g1 & E & Hl & _ & Hnd' & Hsplit).
      by exists rem, g1.
    - exists [], g. split_and!; [done|simpl; lia|done|done]. }
  rewrite bind_Returned. cbn beta iota.
  destruct (evaluate_hand_total (hole ++ community ++ rem)) as (mine & Em & _).
  rewrite Em, bind_Returned.
  pose proof (Permutation_length Hsplit) as Hl'. rewrite length_app, Hl in Hl'.
  destruct (opponents_loop_spec (Z.to_nat num_opponents) (community ++ rem)
              (remove_cards deck rem) [] [] g1 Hnd' ltac:(lia))
    as (hands & new & deck' & g' & E & Hh & Hn & Hall & Hsub).
  rewrite E, bind_Returned. cbn beta iota. simpl.
  eexists _, g', rem. split; [reflexivity|]. simpl.
  split_and!; try done.
  rewrite Hsplit. by apply submseteq_skips_l.
Qed.

Lemma deal_trial_short (hole community known : list Card)
    (cards_needed num_opponents : Z) (g : Rng) :
  (length (remove_cards Deck_init known)
   < Z.to_nat cards_needed + 2 * Z.to_nat num_opponents)%nat ->
  deal_trial hole community known cards_needed num_opponents g = Raised ValueError.
Proof.
  intros Hlen. unfold deal_trial. cbv zeta.
  set (deck := remove_cards Deck_init known) in *.
  assert (Hnd : NoDup deck) by apply remove_cards_NoDup, Deck_init_NoDup.
  destruct (decide (Z.of_nat (length deck) < cards_needed)) as [Hs|Hs].
  { rewrite bool_decide_eq_true_2 by lia. by rewrite draw_short. }
  assert (exists rem g1,
             (if bool_decide (cards_needed > 0) then draw deck cards_needed g
              else Returned ([], deck, g)) = Returned (rem, deck, g1)
             /\ length rem = Z.to_nat cards_needed
             /\ NoDup (remove_cards deck rem)
             /\ deck ≡ₚ rem ++ remove_cards deck rem)
    as (rem & g1 & -> & Hl & Hnd' & Hsplit).
  { case_bool_decide as Hc.
    - destruct (draw_remove deck cards_needed g Hnd ltac:(lia))
        as (rem & g1 & E & Hl & _ & Hnd' & Hsplit).
      by exists rem, g1.
    - exists [], g. split_and!; [done|simpl; lia|done|done]. }
  rewrite bind_Returned. cbn beta iota.
  destruct (evaluate_hand_total (hole ++ community ++ rem)) as (mine & Em & _).
  rewrite Em, bind_Returned.
  pose proof (Permutation_length Hsplit) as Hl'. rewrite length_app, Hl in Hl'.
  rewrite opponents_loop_short; [done|done|lia].
Qed.

(** Each trial moves exactly one of the three counters, by one. *)
Lemma tally_cases (wins ties losses : Z) (t : Trial) :
  opponent_hands t <> [] ->
  exists c, tally (wins, ties, losses) t = Returned c
    /\ (c = (wins + 1, ties, losses) \/ c = (wins, ties + 1, losses)
        \/ c = (wins, ties, losses + 1)).
Proof.
  intros Hne. unfold tally, py_max.
  destruct (opponent_hands t) as [|x rest]; [done|].
  rewrite bind_Returned.
  destruct (tuple_gt _ _); [eauto|]. destruct (tuple_eq _ _); eauto 6.
Qed.

Lemma tally_no_opponent (counters : Z * Z * Z) (t : Trial) :
  opponent_hands t = [] -> tally counters t = Raised ValueError.
Proof. intros E. unfold tally. destruct counters as [[? ?] ?]. by rewrite E. Qed.

Lemma simulation_loop_spec (n : nat) (hole community known : list Card)
    (cards_needed num_opponents wins ties losses : Z) (g : Rng) :
  (Z.to_nat cards_needed + 2 * Z.to_nat num_opponents
   <= length (remove_cards Deck_init known))%nat ->
  1 <= num_opponents ->
  exists wins' ties' losses' g',
    simulation_loop n hole community known cards_needed num_opponents
      (wins, ties, losses) g = Returned (wins', ties', losses', g')
    /\ wins <= wins' /\ ties <= ties' /\ losses <= losses'
    /\ wins' + ties' + losses' = wins + ties + losses + Z.of_nat n.
Proof.
  intros Hlen Hopp. revert wins ties losses g.
  induction n as [|n IH]; intros wins ties losses g.
  - exists wins, ties, losses, g. simpl. split_and!; try done; lia.
  - cbn [simulation_loop].
    destruct (deal_trial_spec hole community known cards_needed num_opponents g Hlen)
      as (t & g1 & rem & E & _ & _ & _ & _ & Hh & _).
    rewrite E, bind_Returned. cbn beta iota.
    destruct (tally_cases wins ties losses t) as (c & Ec & Hc).
    { intros E0. rewrite E0 in Hh. simpl in Hh. lia. }
    rewrite Ec, bind_Returned.
    destruct Hc as [-> | [-> | ->]];
      match goal with
      | |- context [simulation_loop _ _ _ _ _ _ (?w, ?t, ?l) ?g] =>
          destruct (IH w t l g) as (w' & t' & l' & g' & E' & ? & ? & ? & ?)
      end;
      exists w', t', l', g'; (split; [exact E'|]); lia.
Qed.

(** The loop deals and compares one trial after the other, [n] in all. *)
Lemma simulation_loop_trials (n : nat) (hole community known : list Card)
    (cards_needed num_opponents wins ties losses : Z) (g : Rng) :
  (Z.to_nat cards_needed + 2 * Z.to_nat num_opponents
   <= length (remove_cards Deck_init known))%nat ->
  1 <= num_opponents ->
  exists trials wins' ties' losses' g',
    simulation_loop n hole community known cards_needed num_opponents
      (wins, ties, losses) g = Returned (wins', ties', losses', g')
    /\ length trials = n
    /\ dealt_in_turn hole community known cards_needed num_opponents g trials g'
    /\ tally_all (wins, ties, losses) trials = Returned (wins', ties', losses')
    /\ wins <= wins' /\ ties <= ties' /\ losses <= losses'
    /\ wins' + ties' + losses' = wins + ties + losses + Z.of_nat n.
Proof.
  intros Hlen Hopp. revert wins ties losses g.
  induction n as [|n IH]; intros wins ties losses g.
  - exists [], wins, ties, losses, g. simpl. split_and!; try done; lia.
  - cbn [simulation_loop].
    destruct (deal_trial_spec hole community known cards_needed num_opponents g Hlen)
      as (t & g1 & rem & E & _ & _ & _ & _ & Hh & _).
    rewrite E, bind_Returned. cbn beta iota.
    destruct (tally_cases wins ties losses t) as (c & Ec & Hc).
    { intros E0. rewrite E0 in Hh. simpl in Hh. lia. }
    rewrite Ec, bind_Returned.
    destruct c as [[w1 t1] l1].
    destruct (IH w1 t1 l1 g1)
      as (trials & w' & t' & l' & g' & E' & Hn & Hd & Ht & ? & ? & ? & ?).
    exists (t :: trials), w', t', l', g'. split; [exact E'|].
    split; [simpl; by rewrite Hn|].
    split; [exists g1; by split|].
    split; [cbn [tally_all]; by rewrite Ec, bind_Returned|].
    destruct Hc as [Hc | [Hc | Hc]]; inversion Hc; subst; lia.
Qed.

Lemma simulation_loop_short (n : nat) (hole community known : list Card)
    (cards_needed num_opponents : Z) (counters : Z * Z * Z) (g : Rng) :
  (length (remove_cards Deck_init known)
   < Z.to_nat cards_needed + 2 * Z.to_nat num_opponents)%nat ->
  simulation_loop (S n) hole community known cards_needed num_opponents
    counters g = Raised ValueError.
Proof. intros Hlen. cbn [simulation_loop]. by rewrite deal_trial_short. Qed.

End Trials.

(** * calculate_win_probability *)

Section Equity.

Lemma known_deck_length (known : list Card) :
  NoDup known ->
  (length known + length (remove_cards Deck_init known) = 52)%nat.
Proof.
  intros Hnd. rewrite <- Deck_init_length.
  symmetry. apply remove_cards_length; [apply Deck_init_NoDup|done|].
  intros c _. apply Deck_init_all.
Qed.

(** Under the contract the deck suffices exactly when there are at most
    22 opponents. *)
Lemma valid_call_opponents (hole community : list Card) (num_opponents : Z) :
  length hole = 2%nat -> (length community <= 5)%nat ->
  NoDup (hole ++ community) -> 1 <= num_opponents ->
  ((Z.to_nat (5 - Z.of_nat (length community)) + 2 * Z.to_nat num_opponents
    <= length (remove_cards Deck_init (hole ++ community)))%nat
   <-> num_opponents <= 22).
Proof.
  intros H2 H5 Hnd Hopp. pose proof (known_deck_length _ Hnd) as Hk.
  rewrite length_app in Hk. lia.
Qed.

Lemma true_div_ok (a b : Z) :
  b <> 0 -> true_div a b = Returned (inject_Z a / inject_Z b)%Q.
Proof. intros H. unfold true_div. by rewrite bool_decide_eq_false_2. Qed.

Lemma rates_sum (wins ties losses n : Z) :
  n <> 0 -> wins + ties + losses = n ->
  (inject_Z wins / inject_Z n + inject_Z ties / inject_Z n
   + inject_Z losses / inject_Z n == 1)%Q.
Proof.
  intros Hn Hsum. unfold Qdiv. rewrite <- !Qmult_plus_distr_l.
  rewrite <- !inject_Z_plus, Hsum. apply Qmult_inv_r.
  intros H. apply Hn. unfold Qeq in H. simpl in H. lia.
Qed.

(** The three rates, each rounded, added with two rounded additions. *)
Lemma rounded_rates_sum (fl : Q -> Q) (a b c : Q) :
  rounds fl -> (0 <= a)%Q -> (0 <= b)%Q -> (0 <= c)%Q -> (a + b + c == 1)%Q ->
  (1 - (1 # 2251799813685248) <= fl (fl (fl a + fl b) + fl c)
   <= 1 + (1 # 2251799813685248))%Q.
Proof.
  intros Hfl Ha Hb Hc Hsum.
  pose proof (Hfl a Ha) as Ra. pose proof (Hfl b Hb) as Rb.
  pose proof (Hfl c Hc) as Rc. unfold unit_roundoff in *.
  assert (0 <= fl a)%Q by lra. assert (0 <= fl b)%Q by lra.
  assert (0 <= fl c)%Q by lra.
  pose proof (Hfl (fl a + fl b)%Q ltac:(lra)) as R1. unfold unit_roundoff in R1.
  assert (0 <= fl (fl a + fl b))%Q by lra.
  pose proof (Hfl (fl (fl a + fl b) + fl c)%Q ltac:(lra)) as R2.
  unfold unit_roundoff in R2. lra.
Qed.

Lemma rate_nonneg (a n : Z) : 0 <= a -> 1 <= n -> (0 <= inject_Z a / inject_Z n)%Q.
Proof.
  intros Ha Hn. apply Qle_shift_div_l.
  - change 0%Q with (inject_Z 0). rewrite <- Zlt_Qlt. lia.
  - rewrite Qmult_0_l. change 0%Q with (inject_Z 0). rewrite <- Zle_Qle. lia.
Qed.

Lemma tolerance_per_trial (n : Z) :
  1 <= n <= 2251799813685248 -> ((1 # 2251799813685248) <= 1 / inject_Z n)%Q.
Proof.
  intros Hn. apply Qle_shift_div_l.
  - change 0%Q with (inject_Z 0). rewrite <- Zlt_Qlt. lia.
  - unfold Qle, Qmult, inject_Z. simpl. lia.
Qed.

(** The result dictionary of a call whose simulation loop returned. *)
Lemma equity_result (hole community : list Card)
    (num_opponents num_simulations wins ties losses : Z) (g g' : Rng) :
  num_simulations <> 0 ->
  simulation_loop (Z.to_nat num_simulations) hole community (hole ++ community)
    (5 - Z.of_nat (length community)) num_opponents (0, 0, 0) g
  = Returned (wins, ties, losses, g') ->
  exists m current,
    calculate_win_probability hole community num_opponents num_simulations g
    = Returned (m, g')
    /\ evaluate_hand (hole ++ community) = Returned current
    /\ m !! "win_rate" = Some (VFloat (inject_Z wins / inject_Z num_simulations))
    /\ m !! "tie_rate" = Some (VFloat (inject_Z ties / inject_Z num_simulations))
    /\ m !! "loss_rate" = Some (VFloat (inject_Z losses / inject_Z num_simulations))
    /\ m !! "simulations" = Some (VInt num_simulations)
    /\ m !! "current_hand" = Some (VStr (hand_name current.1)).
Proof.
  intros Hn E. unfold calculate_win_probability. cbv zeta.
  rewrite E, bind_Returned. cbn beta iota.
  rewrite !true_div_ok by done. rewrite !bind_Returned.
  destruct (evaluate_hand_total (hole ++ community)) as (current & Ec & _).
  rewrite Ec, bind_Returned.
  eexists _, current. split; [reflexivity|]. split; [done|].
  split_and!; by simplify_map_eq.
Qed.

(** The call returns whenever the deck suffices. *)
Lemma equity_returns (hole community : list Card)
    (num_opponents num_simulations : Z) (g : Rng) :
  1 <= num_simulations -> 1 <= num_opponents ->
  (Z.to_nat (5 - Z.of_nat (length community)) + 2 * Z.to_nat num_opponents
   <= length (remove_cards Deck_init (hole ++ community)))%nat ->
  exists m g',
    calculate_win_probability hole community num_opponents num_simulations g
    = Returned (m, g')
    /\ m !! "simulations" = Some (VInt num_simulations).
Proof.
  intros Hn Hopp Hlen.
  destruct (simulation_loop_spec (Z.to_nat num_simulations) hole community
              (hole ++ community) (5 - Z.of_nat (length community))
              num_opponents 0 0 0 g Hlen Hopp)
    as (w & t & l & g' & E & _).
  destruct (equity_result hole community num_opponents num_simulations
              w t l g g' ltac:(lia) E) as (m & c & Em & _ & _ & _ & _ & Hs & _).
  by exists m, g'.
Qed.

Lemma equity_short_deck (hole community : list Card)
    (num_opponents num_simulations : Z) (g : Rng) :
  1 <= num_simulations ->
  (length (remove_cards Deck_init (hole ++ community))
   < Z.to_nat (5 - Z.of_nat (length community)) + 2 * Z.to_nat num_opponents)%nat ->
  calculate_win_probability hole community num_opponents num_simulations g
  = Raised ValueError.
Proof.
  intros Hn Hlen. unfold calculate_win_probability. cbv zeta.
  destruct (Z.to_nat num_simulations) as [|n] eqn:En; [lia|].
  by rewrite simulation_loop_short.
Qed.

End Equity.

(** C10: on a deck built by the program, drawing [n] cards, [n] at most the
    number of cards left, returns [n] pairwise distinct cards of the deck
    and leaves the deck's cards as they were. *)
Theorem draw_distinct_members_frame (removals : list (list Card)) (n : Z) (g : Rng) :
  0 <= n <= Z.of_nat (length (deck_after removals)) ->
  exists drawn g',
    draw (deck_after removals) n g = Returned (drawn, deck_after removals, g')
    /\ length drawn = Z.to_nat n
    /\ NoDup drawn
    /\ (forall c, c ∈ drawn -> c ∈ deck_after removals).
Proof.
  intros Hn. destruct (draw_ok (deck_after removals) n g Hn)
    as (drawn & g' & E & Hl & Hsub).
  exists drawn, g'. split_and!; [done|done| |].
  - eapply submseteq_NoDup; [done|apply deck_after_NoDup].
  - intros c Hc. by eapply elem_of_submseteq.
Qed.

Lemma draw_distinct_members_frame_witness :
  0 <= 5 <= Z.of_nat (length (deck_after [AsAh; flop_spades]))
  /\ exists drawn g',
      draw (deck_after [AsAh; flop_spades]) 5 zeros
      = Returned (drawn, deck_after [AsAh; flop_spades], g')
      /\ length drawn = Z.to_nat 5
      /\ NoDup drawn
      /\ (forall c, c ∈ drawn -> c ∈ deck_after [AsAh; flop_spades]).
Proof.
  assert (H : 0 <= 5 <= Z.of_nat (length (deck_after [AsAh; flop_spades])))
    by (vm_compute; split; discriminate).
  split; [exact H|].
  exact (draw_distinct_members_frame [AsAh; flop_spades] 5 zeros H).
Defined.

(** C9: in a trial of a valid call the caller's hole cards, the five
    community cards and the hole cards of all the opponents are pairwise
    distinct cards. *)
Theorem trial_deals_distinct_cards (hole community : list Card)
    (num_opponents : Z) (g : Rng) :
  valid_call hole community num_opponents ->
  exists t g',
    deal_trial hole community (hole ++ community)
      (5 - Z.of_nat (length community)) num_opponents g = Returned (t, g')
    /\ length (full_community t) = 5%nat
    /\ length (opponent_holes t) = Z.to_nat num_opponents
    /\ Forall (fun h => length h = 2%nat) (opponent_holes t)
    /\ NoDup (hole ++ full_community t ++ concat (opponent_holes t)).
Proof.
  intros (H2 & H5 & Hnd & Hopp & Hlen).
  destruct (deal_trial_spec hole community (hole ++ community)
              (5 - Z.of_nat (length community)) num_opponents g Hlen)
    as (t & g' & rem & E & Hfc & Hrem & Hho & Hall & _ & Hsub & _).
  exists t, g'. split_and!; try done.
  - rewrite Hfc, length_app, Hrem. lia.
  - rewrite Hfc, <- app_assoc, app_assoc. apply NoDup_app. split_and!; [done| |].
    + intros c Hc Hc'. eapply elem_of_submseteq in Hc'; [|exact Hsub].
      apply elem_of_remove_cards in Hc' as [_ Hc']. done.
    + eapply submseteq_NoDup; [exact Hsub|].
      apply remove_cards_NoDup, Deck_init_NoDup.
Qed.

Lemma valid_AsAh_flop : valid_call AsAh flop_spades 3.
Proof.
  unfold valid_call. split; [reflexivity|]. split; [simpl; lia|].
  split; [apply (bool_decide_unpack _); vm_compute; exact I|].
  split; [lia|]. vm_compute. lia.
Defined.

Lemma trial_deals_distinct_cards_witness :
  valid_call AsAh flop_spades 3
  /\ exists t g',
      deal_trial AsAh flop_spades (AsAh ++ flop_spades)
        (5 - Z.of_nat (length flop_spades)) 3 zeros = Returned (t, g')
      /\ length (full_community t) = 5%nat
      /\ length (opponent_holes t) = Z.to_nat 3
      /\ Forall (fun h => length h = 2%nat) (opponent_holes t)
      /\ NoDup (AsAh ++ full_community t ++ concat (opponent_holes t)).
Proof.
  split; [exact valid_AsAh_flop|].
  exact (trial_deals_distinct_cards AsAh flop_spades 3 zeros valid_AsAh_flop).
Defined.

Lemma tally_inv (wins ties losses : Z) (t : Trial) (c : Z * Z * Z) :
  tally (wins, ties, losses) t = Returned c ->
  c = (wins + 1, ties, losses) \/ c = (wins, ties + 1, losses)
  \/ c = (wins, ties, losses + 1).
Proof.
  intros E. destruct (decide (opponent_hands t = [])) as [H0|H0].
  - rewrite tally_no_opponent in E by done. discriminate.
  - destruct (tally_cases wins ties losses t H0) as (c' & E' & Hc). congruence.
Qed.

(** C7: in a valid call with at least one trial every trial adds one to
    exactly one of the counters, the counters add up to the number of
    trials, and the three rates returned add up to 1: exactly as
    quotients, and within [2^-51] of 1 once every quotient and every
    addition is rounded, which is within [1 / num_simulations] up to
    [2^51] trials. *)
Theorem equity_rates_sum_to_one (hole community : list Card)
    (num_opponents num_simulations : Z) (g : Rng) :
  valid_call hole community num_opponents -> 1 <= num_simulations ->
  exists wins ties losses m g',
    simulation_loop (Z.to_nat num_simulations) hole community (hole ++ community)
      (5 - Z.of_nat (length community)) num_opponents (0, 0, 0) g
    = Returned (wins, ties, losses, g')
    /\ 0 <= wins /\ 0 <= ties /\ 0 <= losses
    /\ wins + ties + losses = num_simulations
    /\ calculate_win_probability hole community num_opponents num_simulations g
       = Returned (m, g')
    /\ m !! "win_rate" = Some (VFloat (inject_Z wins / inject_Z num_simulations))
    /\ m !! "tie_rate" = Some (VFloat (inject_Z ties / inject_Z num_simulations))
    /\ m !! "loss_rate" = Some (VFloat (inject_Z losses / inject_Z num_simulations))
    /\ (inject_Z wins / inject_Z num_simulations
        + inject_Z ties / inject_Z num_simulations
        + inject_Z losses / inject_Z num_simulations == 1)%Q
    /\ (forall fl, rounds fl ->
          (1 - (1 # 2251799813685248)
           <= fl (fl (fl (inject_Z wins / inject_Z num_simulations)
                      + fl (inject_Z ties / inject_Z num_simulations))
                  + fl (inject_Z losses / inject_Z num_simulations))
           <= 1 + (1 # 2251799813685248))%Q)
    /\ (num_simulations <= 2251799813685248 ->
        ((1 # 2251799813685248) <= 1 / inject_Z num_simulations)%Q)
    /\ (forall w t l trial c,
          tally (w, t, l) trial = Returned c ->
          c = (w + 1, t, l) \/ c = (w, t + 1, l) \/ c = (w, t, l + 1)).
Proof.
  intros (H2 & H5 & Hnd & Hopp & Hlen) Hn.
  destruct (simulation_loop_spec (Z.to_nat num_simulations) hole community
              (hole ++ community) (5 - Z.of_nat (length community))
              num_opponents 0 0 0 g Hlen Hopp)
    as (w & t & l & g' & E & Hw & Ht & Hl & Hsum).
  destruct (equity_result hole community num_opponents num_simulations
              w t l g g' ltac:(lia) E) as (m & c & Em & _ & Hwr & Htr & Hlr & _).
  exists w, t, l, m, g'. split_and!; try done; try lia.
  - apply rates_sum; lia.
  - intros fl Hfl.
    apply rounded_rates_sum; [done| | | |apply rates_sum; lia];
      apply rate_nonneg; lia.
  - intros Hmax. apply tolerance_per_trial. lia.
  - apply tally_inv.
Qed.

Lemma equity_rates_sum_to_one_witness :
  valid_call AsAh flop_spades 3 /\ 1 <= 4
  /\ exists wins ties losses m g',
    simulation_loop (Z.to_nat 4) AsAh flop_spades (AsAh ++ flop_spades)
      (5 - Z.of_nat (length flop_spades)) 3 (0, 0, 0) zeros
    = Returned (wins, ties, losses, g')
    /\ 0 <= wins /\ 0 <= ties /\ 0 <= losses
    /\ wins + ties + losses = 4
    /\ calculate_win_probability AsAh flop_spades 3 4 zeros = Returned (m, g')
    /\ m !! "win_rate" = Some (VFloat (inject_Z wins / inject_Z 4))
    /\ m !! "tie_rate" = Some (VFloat (inject_Z ties / inject_Z 4))
    /\ m !! "loss_rate" = Some (VFloat (inject_Z losses / inject_Z 4))
    /\ (inject_Z wins / inject_Z 4 + inject_Z ties / inject_Z 4
        + inject_Z losses / inject_Z 4 == 1)%Q
    /\ (forall fl, rounds fl ->
          (1 - (1 # 2251799813685248)
           <= fl (fl (fl (inject_Z wins / inject_Z 4)
                      + fl (inject_Z ties / inject_Z 4))
                  + fl (inject_Z losses / inject_Z 4))
           <= 1 + (1 # 2251799813685248))%Q)
    /\ (4 <= 2251799813685248 ->
        ((1 # 2251799813685248) <= 1 / inject_Z 4)%Q)
    /\ (forall w t l trial c,
          tally (w, t, l) trial = Returned c ->
          c = (w + 1, t, l) \/ c = (w, t + 1, l) \/ c = (w, t, l + 1)).
Proof.
  assert (H : 1 <= 4) by lia.
  split; [exact valid_AsAh_flop|]. split; [exact H|].
  exact (equity_rates_sum_to_one AsAh flop_spades 3 4 zeros valid_AsAh_flop H).
Defined.

(** C2, as stated, fails: a call with three hole cards breaks the contract,
    yet the simulation runs and returns a result. *)
Lemma equity_fail_fast_counterexample :
  ~ valid_call three_hole [] 1
  /\ (exists m g',
        calculate_win_probability three_hole [] 1 1 zeros = Returned (m, g')
        /\ m !! "simulations" = Some (VInt 1))
  /\ ~ (forall hole community num_opponents num_simulations g,
          ~ valid_call hole community num_opponents ->
          exists e,
            calculate_win_probability hole community num_opponents
              num_simulations g = Raised e).
Proof.
  assert (Hv : ~ valid_call three_hole [] 1).
  { intros (H & _). simpl in H. lia. }
  assert (Hr : exists m g',
             calculate_win_probability three_hole [] 1 1 zeros = Returned (m, g')
             /\ m !! "simulations" = Some (VInt 1)).
  { apply equity_returns; [lia|lia|]. vm_compute. lia. }
  split; [exact Hv|]. split; [exact Hr|].
  intros H. destruct (H three_hole [] 1 1 zeros Hv) as [e He].
  destruct Hr as (m & g' & Hr & _). congruence.
Qed.

(** C2 (amended): the equity simulation validates nothing before the
    trials.  With at least one trial, a deck too small for the draws of a
    trial makes the first draw that cannot be served raise [ValueError]
    inside the first trial, so that no result is returned; a call with at
    least one opponent whose deck suffices runs all the trials, one dealt
    and compared after the other, each moving one counter, and returns the
    result made of their counters, whatever the number of hole cards, the
    number of community cards and the duplicates among them. *)
Theorem equity_fails_only_on_short_deck (hole community : list Card)
    (num_opponents num_simulations : Z) (g : Rng) :
  1 <= num_simulations ->
  ((length (remove_cards Deck_init (hole ++ community))
    < Z.to_nat (5 - Z.of_nat (length community)) + 2 * Z.to_nat num_opponents)%nat ->
   deal_trial hole community (hole ++ community)
     (5 - Z.of_nat (length community)) num_opponents g = Raised ValueError
   /\ calculate_win_probability hole community num_opponents num_simulations g
      = Raised ValueError)
  /\ ((Z.to_nat (5 - Z.of_nat (length community)) + 2 * Z.to_nat num_opponents
       <= length (remove_cards Deck_init (hole ++ community)))%nat ->
      1 <= num_opponents ->
      exists trials wins ties losses m g',
        length trials = Z.to_nat num_simulations
        /\ dealt_in_turn hole community (hole ++ community)
             (5 - Z.of_nat (length community)) num_opponents g trials g'
        /\ tally_all (0, 0, 0) trials = Returned (wins, ties, losses)
        /\ 0 <= wins /\ 0 <= ties /\ 0 <= losses
        /\ wins + ties + losses = num_simulations
        /\ calculate_win_probability hole community num_opponents num_simulations g
           = Returned (m, g')
        /\ m !! "win_rate" = Some (VFloat (inject_Z wins / inject_Z num_simulations))
        /\ m !! "tie_rate" = Some (VFloat (inject_Z ties / inject_Z num_simulations))
        /\ m !! "loss_rate"
           = Some (VFloat (inject_Z losses / inject_Z num_simulations))
        /\ m !! "simulations" = Some (VInt num_simulations)).
Proof.
  intros Hn. split.
  - intros Hlen. split; [by apply deal_trial_short|by apply equity_short_deck].
  - intros Hlen Hopp.
    destruct (simulation_loop_trials (Z.to_nat num_simulations) hole community
                (hole ++ community) (5 - Z.of_nat (length community))
                num_opponents 0 0 0 g Hlen Hopp)
      as (trials & w & t & l & g' & E & Hl & Hd & Ht & Hw & Hti & Hlo & Hsum).
    destruct (equity_result hole community num_opponents num_simulations
                w t l g g' ltac:(lia) E)
      as (m & c & Em & _ & Hwr & Htr & Hlr & Hs & _).
    exists trials, w, t, l, m, g'. split_and!; try done; lia.
Qed.

Lemma equity_fails_only_on_short_deck_witness :
  1 <= 2
  /\ ((length (remove_cards Deck_init (AsAh ++ flop_spades))
       < Z.to_nat (5 - Z.of_nat (length flop_spades)) + 2 * Z.to_nat 23)%nat
      /\ deal_trial AsAh flop_spades (AsAh ++ flop_spades)
           (5 - Z.of_nat (length flop_spades)) 23 zeros = Raised ValueError
      /\ calculate_win_probability AsAh flop_spades 23 2 zeros = Raised ValueError)
  /\ ((Z.to_nat (5 - Z.of_nat (length (@nil Card))) + 2 * Z.to_nat 1
       <= length (remove_cards Deck_init (three_hole ++ [])))%nat
      /\ 1 <= 1
      /\ exists trials wins ties losses m g',
          length trials = Z.to_nat 2
          /\ dealt_in_turn three_hole [] (three_hole ++ [])
               (5 - Z.of_nat (length (@nil Card))) 1 zeros trials g'
          /\ tally_all (0, 0, 0) trials = Returned (wins, ties, losses)
          /\ 0 <= wins /\ 0 <= ties /\ 0 <= losses
          /\ wins + ties + losses = 2
          /\ calculate_win_probability three_hole [] 1 2 zeros = Returned (m, g')
          /\ m !! "win_rate" = Some (VFloat (inject_Z wins / inject_Z 2))
          /\ m !! "tie_rate" = Some (VFloat (inject_Z ties / inject_Z 2))
          /\ m !! "loss_rate" = Some (VFloat (inject_Z losses / inject_Z 2))
          /\ m !! "simulations" = Some (VInt 2)).
Proof.
  assert (Hn : 1 <= 2) by lia.
  assert (Hs : (length (remove_cards Deck_init (AsAh ++ flop_spades))
                < Z.to_nat (5 - Z.of_nat (length flop_spades)) + 2 * Z.to_nat 23)%nat)
    by (vm_compute; lia).
  assert (Hl : (Z.to_nat (5 - Z.of_nat (length (@nil Card))) + 2 * Z.to_nat 1
                <= length (remove_cards Deck_init (three_hole ++ [])))%nat)
    by (vm_compute; lia).
  assert (Ho : 1 <= 1) by lia.
  split; [exact Hn|]. split.
  - split; [exact Hs|].
    exact (proj1 (equity_fails_only_on_short_deck AsAh flop_spades 23 2 zeros Hn) Hs).
  - split; [exact Hl|]. split; [exact Ho|].
    exact (proj2 (equity_fails_only_on_short_deck three_hole [] 1 2 zeros Hn) Hl Ho).
Defined.

(** C3: before the flop the [current_hand] entry of the equity result is
    the name of category 0, while [get_hand_strength] on the same cards
    reports that no hand is made yet. *)
Theorem current_hand_preflop_is_high_card :
  (r ← calculate_win_probability AsAh [] 1 1 zeros; Returned (r.1 !! "current_hand"))
  = Returned (Some (VStr "高牌"))
  /\ get_hand_strength AsAh [] = Returned (-1, "尚未形成完整手牌").
Proof. split; vm_compute; reflexivity. Qed.

(** * calculate_outs *)

Section Outs.

Lemma outs_loop_spec (cards hole community : list Card) (cur : Z)
    (acc : list Card) :
  exists improving,
    outs_loop cards hole community cur acc = Returned (acc ++ improving)
    /\ improving `sublist_of` cards
    /\ (forall card, card ∈ improving <->
          card ∈ cards
          /\ exists new, evaluate_hand (hole ++ community ++ [card]) = Returned new
                         /\ new.1 > cur).
Proof.
  revert acc. induction cards as [|card rest IH]; intros acc.
  - exists []. simpl. rewrite app_nil_r. split_and!; [done|done|].
    intros c. rewrite elem_of_nil. tauto.
  - cbn [outs_loop]. cbv zeta.
    destruct (evaluate_hand_total (hole ++ community ++ [card])) as ([t key] & Eh & _).
    rewrite Eh, bind_Returned. cbn beta iota.
    destruct (bool_decide_reflect (t > cur)) as [Hgt|Hle].
    + destruct (IH (acc ++ [card])) as (imp & E & Hsub & Hiff).
      exists (card :: imp). rewrite E, <- app_assoc. split_and!; [done| |].
      * by apply sublist_skip.
      * intros c. rewrite !elem_of_cons, Hiff. split.
        -- intros [->|[? ?]]; [|tauto]. split; [by left|]. by exists (t, key).
        -- intros [[->|?] ?]; tauto.
    + destruct (IH acc) as (imp & E & Hsub & Hiff).
      exists imp. split_and!; [done| |].
      * by apply sublist_cons.
      * intros c. rewrite elem_of_cons, Hiff. split; [tauto|].
        intros [[->|?] Hnew]; [|tauto].
        destruct Hnew as (new & Enew & Hnew). rewrite Eh in Enew.
        inversion Enew; subst new. simpl in Hnew. lia.
Qed.

(** What [calculate_outs] returns before the river. *)
Lemma calculate_outs_spec (hole community : list Card) :
  (length community < 5)%nat ->
  exists cur improving,
    evaluate_hand (hole ++ community) = Returned cur
    /\ improving `sublist_of` remove_cards Deck_init (hole ++ community)
    /\ (forall card, card ∈ improving <->
          card ∈ remove_cards Deck_init (hole ++ community)
          /\ exists new, evaluate_hand (hole ++ community ++ [card]) = Returned new
                         /\ new.1 > cur.1)
    /\ calculate_outs hole community
       = Returned
           (<["outs" := VInt (Z.of_nat (length improving))]>
              (<["immediate_odds" :=
                   if bool_decide
                        (0 < length (remove_cards Deck_init (hole ++ community)))%nat
                   then VFloat
                          (inject_Z (Z.of_nat (length improving))
                           / inject_Z (Z.of_nat
                               (length (remove_cards Deck_init (hole ++ community)))))
                   else VInt 0]>
                 (<["improving_cards" := VCards (take 10 improving)]>
                    (<["description" :=
                         VStr ("有" +:+ pretty (length improving)
                               +:+ "张out牌可以改进手牌")]> ∅)))).
Proof.
  intros Hlen. unfold calculate_outs. cbv zeta.
  rewrite bool_decide_eq_false_2 by lia.
  destruct (evaluate_hand_total (hole ++ community)) as ([t key] & Ec & _).
  rewrite Ec, bind_Returned. cbn beta iota.
  destruct (outs_loop_spec (remove_cards Deck_init (hole ++ community))
              hole community t []) as (imp & E & Hsub & Hiff).
  rewrite E, bind_Returned. simpl app.
  exists (t, key), imp. split_and!; [done|done|done|].
  case_bool_decide as Hr.
  - rewrite true_div_ok by lia. by rewrite !bind_Returned.
  - by rewrite bind_Returned.
Qed.

End Outs.

(** C6: before the river, a card of the remaining deck is among the outs
    exactly when adding it makes the category strictly greater than the
    current one; a card that leaves the category equal is not counted; the
    outs count is the number of those cards. *)
Theorem outs_are_category_upgrades (hole community : list Card) :
  (length community < 5)%nat ->
  exists cur improving m,
    evaluate_hand (hole ++ community) = Returned cur
    /\ calculate_outs hole community = Returned m
    /\ m !! "outs" = Some (VInt (Z.of_nat (length improving)))
    /\ NoDup improving
    /\ (forall card, card ∈ improving <->
          card ∈ remove_cards Deck_init (hole ++ community)
          /\ exists new, evaluate_hand (hole ++ community ++ [card]) = Returned new
                         /\ new.1 > cur.1)
    /\ (forall card new,
          evaluate_hand (hole ++ community ++ [card]) = Returned new ->
          new.1 = cur.1 -> card ∉ improving).
Proof.
  intros Hlen.
  destruct (calculate_outs_spec hole community Hlen)
    as (cur & imp & Ec & Hsub & Hiff & E).
  eexists cur, imp, _. split; [done|]. split; [exact E|].
  split; [by simplify_map_eq|]. split_and!.
  - eapply sublist_NoDup; [|exact Hsub].
    apply remove_cards_NoDup, Deck_init_NoDup.
  - done.
  - intros card new Enew Heq [_ (new' & Enew' & Hgt)]%Hiff.
    rewrite Enew in Enew'. inversion Enew'; subst. lia.
Qed.

Lemma outs_are_category_upgrades_witness :
  (length flop_spades < 5)%nat
  /\ exists cur improving m,
    evaluate_hand (AsAh ++ flop_spades) = Returned cur
    /\ calculate_outs AsAh flop_spades = Returned m
    /\ m !! "outs" = Some (VInt (Z.of_nat (length improving)))
    /\ NoDup improving
    /\ (forall card, card ∈ improving <->
          card ∈ remove_cards Deck_init (AsAh ++ flop_spades)
          /\ exists new, evaluate_hand (AsAh ++ flop_spades ++ [card]) = Returned new
                         /\ new.1 > cur.1)
    /\ (forall card new,
          evaluate_hand (AsAh ++ flop_spades ++ [card]) = Returned new ->
          new.1 = cur.1 -> card ∉ improving).
Proof.
  assert (H : (length flop_spades < 5)%nat) by (simpl; lia).
  split; [exact H|]. exact (outs_are_category_upgrades AsAh flop_spades H).
Defined.

(** C5, as stated, fails: on a complete 5-card board the result holds the
    outs count and the description only. *)
Lemma outs_result_fields_counterexample :
  length river_board = 5%nat
  /\ (m ← calculate_outs AsAh river_board;
      Returned (m !! "outs", m !! "immediate_odds", m !! "improving_cards",
                m !! "description"))
     = Returned (Some (VInt 0), None, None, Some (VStr "已经是河牌圈")).
Proof. split; [reflexivity|]. vm_compute. reflexivity. Qed.

(** C5 (amended): with fewer than 5 community cards the result of
    [calculate_outs] holds the four fields: the outs count, which is the
    number of improving cards; the quotient of the outs count by the size
    of the remaining deck (0 on an empty deck); the first ten at most of
    the improving cards, in the order of the deck; and the description.
    The improving cards are the cards of the remaining deck that make the
    category strictly greater.  With 5 community cards or more the result
    holds only an outs count of 0 and a description. *)
Theorem outs_result_fields (hole community : list Card) :
  ((length community < 5)%nat ->
   exists m cur improving,
     calculate_outs hole community = Returned m
     /\ evaluate_hand (hole ++ community) = Returned cur
     /\ improving `sublist_of` remove_cards Deck_init (hole ++ community)
     /\ (forall card, card ∈ improving <->
           card ∈ remove_cards Deck_init (hole ++ community)
           /\ exists new, evaluate_hand (hole ++ community ++ [card]) = Returned new
                          /\ new.1 > cur.1)
     /\ m !! "outs" = Some (VInt (Z.of_nat (length improving)))
     /\ m !! "immediate_odds"
        = Some (if bool_decide
                     (0 < length (remove_cards Deck_init (hole ++ community)))%nat
                then VFloat
                       (inject_Z (Z.of_nat (length improving))
                        / inject_Z (Z.of_nat
                            (length (remove_cards Deck_init (hole ++ community)))))
                else VInt 0)
     /\ m !! "improving_cards" = Some (VCards (take 10 improving))
     /\ (length (take 10 improving) <= 10)%nat
     /\ take 10 improving `sublist_of` improving
     /\ m !! "description"
        = Some (VStr ("有" +:+ pretty (length improving) +:+ "张out牌可以改进手牌")))
  /\ ((5 <= length community)%nat ->
      exists m,
        calculate_outs hole community = Returned m
        /\ m !! "outs" = Some (VInt 0)
        /\ m !! "description" = Some (VStr "已经是河牌圈")
        /\ m !! "immediate_odds" = None
        /\ m !! "improving_cards" = None).
Proof.
  split.
  - intros Hlen.
    destruct (calculate_outs_spec hole community Hlen)
      as (cur & imp & Ec & Hsub & Hiff & E).
    eexists _, cur, imp. split; [exact E|].
    split; [exact Ec|]. split; [exact Hsub|]. split; [exact Hiff|].
    split; [by simplify_map_eq|]. split; [by simplify_map_eq|].
    split; [by simplify_map_eq|]. split; [rewrite length_take; lia|].
    split; [apply sublist_take|]. by simplify_map_eq.
  - intros Hlen. unfold calculate_outs. rewrite bool_decide_eq_true_2 by done.
    eexists. split; [reflexivity|]. split_and!; by simplify_map_eq.
Qed.

Lemma outs_result_fields_witness :
  ((length flop_spades < 5)%nat
   /\ exists m cur improving,
     calculate_outs AsAh flop_spades = Returned m
     /\ evaluate_hand (AsAh ++ flop_spades) = Returned cur
     /\ improving `sublist_of` remove_cards Deck_init (AsAh ++ flop_spades)
     /\ (forall card, card ∈ improving <->
           card ∈ remove_cards Deck_init (AsAh ++ flop_spades)
           /\ exists new,
               evaluate_hand (AsAh ++ flop_spades ++ [card]) = Returned new
               /\ new.1 > cur.1)
     /\ m !! "outs" = Some (VInt (Z.of_nat (length improving)))
     /\ m !! "immediate_odds"
        = Some (if bool_decide
                     (0 < length (remove_cards Deck_init (AsAh ++ flop_spades)))%nat
                then VFloat
                       (inject_Z (Z.of_nat (length improving))
                        / inject_Z (Z.of_nat
                            (length (remove_cards Deck_init (AsAh ++ flop_spades)))))
                else VInt 0)
     /\ m !! "improving_cards" = Some (VCards (take 10 improving))
     /\ (length (take 10 improving) <= 10)%nat
     /\ take 10 improving `sublist_of` improving
     /\ m !! "description"
        = Some (VStr ("有" +:+ pretty (length improving) +:+ "张out牌可以改进手牌")))
  /\ ((5 <= length river_board)%nat
      /\ exists m,
        calculate_outs AsAh river_board = Returned m
        /\ m !! "outs" = Some (VInt 0)
        /\ m !! "description" = Some (VStr "已经是河牌圈")
        /\ m !! "immediate_odds" = None
        /\ m !! "improving_cards" = None).
Proof.
  assert (H1 : (length flop_spades < 5)%nat) by (simpl; lia).
  assert (H2 : (5 <= length river_board)%nat) by (simpl; lia).
  split.
  - split; [exact H1|]. exact (proj1 (outs_result_fields AsAh flop_spades) H1).
  - split; [exact H2|]. exact (proj2 (outs_result_fields AsAh river_board) H2).
Defined.

(** * Further properties of the code *)

(** ** Deck.remove_cards *)

Lemma remove_cards_filter (cards : list Card) (self : Deck) :
  remove_cards self cards = filter (fun c => c ∉ cards) self.
Proof.
  unfold remove_cards. revert self.
  induction cards as [|x cards IH]; intros self; simpl.
  - induction self as [|c self IHs]; [done|].
    rewrite filter_cons_True by apply not_elem_of_nil. by f_equal.
  - rewrite IH, remove_card_alt, list_filter_filter.
    apply list_filter_iff. intros c. rewrite not_elem_of_cons. tauto.
Qed.

Lemma remove_cards_ext (self : Deck) (xs ys : list Card) :
  (forall c, c ∈ xs <-> c ∈ ys) -> remove_cards self xs = remove_cards self ys.
Proof.
  intros H. rewrite !remove_cards_filter. apply list_filter_iff.
  intros c. by rewrite H.
Qed.

(** X1: a fresh deck from which the known cards were removed holds exactly
    the cards that are not known, each once, and 52 cards less the number
    of distinct known cards. *)
Theorem deck_after_removal (known : list Card) :
  NoDup (remove_cards Deck_init known)
  /\ (forall c, c ∈ remove_cards Deck_init known <-> c ∉ known)
  /\ (length (remove_cards Deck_init known) + length (remove_dups known) = 52)%nat.
Proof.
  split; [apply remove_cards_NoDup, Deck_init_NoDup|]. split.
  - intros c. rewrite elem_of_remove_cards. split; [tauto|].
    intros H. split; [apply Deck_init_all|done].
  - rewrite (remove_cards_ext Deck_init known (remove_dups known)).
    + pose proof (known_deck_length (remove_dups known) (NoDup_remove_dups known)).
      lia.
    + intros c. by rewrite elem_of_remove_dups.
Qed.

(** X2: removing cards none of which is in the deck changes nothing. *)
Theorem remove_cards_absent (self : Deck) (cards : list Card) :
  (forall c, c ∈ cards -> c ∉ self) -> remove_cards self cards = self.
Proof.
  intros H. rewrite remove_cards_filter.
  induction self as [|c self IH]; [done|].
  rewrite filter_cons_True.
  - f_equal. apply IH. intros x Hx Hin. apply (H x Hx), elem_of_cons. auto.
  - intros Hc. apply (H c Hc), elem_of_cons. auto.
Qed.

Lemma remove_cards_absent_witness :
  (forall c, c ∈ AsAh -> c ∉ remove_cards Deck_init AsAh)
  /\ remove_cards (remove_cards Deck_init AsAh) AsAh = remove_cards Deck_init AsAh.
Proof.
  assert (H : forall c, c ∈ AsAh -> c ∉ remove_cards Deck_init AsAh).
  { intros c Hc Hin. apply elem_of_remove_cards in Hin as [_ Hin]. done. }
  split; [exact H|]. exact (remove_cards_absent _ _ H).
Defined.

(** X3: what is removed depends only on which cards are named, not on
    their order, their repetitions or the number of calls: two successive
    removals equal one removal of any list naming the same cards. *)
Theorem remove_cards_twice (self : Deck) (xs ys zs : list Card) :
  (forall c, c ∈ zs <-> c ∈ xs \/ c ∈ ys) ->
  remove_cards (remove_cards self xs) ys = remove_cards self zs.
Proof.
  intros H. rewrite <- remove_cards_app. apply remove_cards_ext.
  intros c. rewrite elem_of_app, H. tauto.
Qed.

Lemma remove_cards_twice_witness :
  (forall c, c ∈ reverse (AsAh ++ flop_spades ++ AsAh) <-> c ∈ AsAh \/ c ∈ flop_spades)
  /\ remove_cards (remove_cards Deck_init AsAh) flop_spades
     = remove_cards Deck_init (reverse (AsAh ++ flop_spades ++ AsAh)).
Proof.
  assert (H : forall c, c ∈ reverse (AsAh ++ flop_spades ++ AsAh)
                        <-> c ∈ AsAh \/ c ∈ flop_spades).
  { intros c. rewrite elem_of_reverse, !elem_of_app. tauto. }
  split; [exact H|]. exact (remove_cards_twice _ _ _ _ H).
Defined.

(** ** HandEvaluator.evaluate_hand *)

Lemma initial_le (h : HandRank) : 0 <= h.1 -> tuple_le (0, []) h.
Proof.
  destruct h as [t key]. simpl. intros Ht. unfold tuple_le, tuple_cmp. simpl.
  destruct t as [|p|p]; simpl; [destruct key; simpl; congruence|congruence|lia].
Qed.

Lemma evaluate_hand_le (cards cards' : list Card) (h h' : HandRank) :
  cards ⊆+ cards' ->
  evaluate_hand cards = Returned h -> evaluate_hand cards' = Returned h' ->
  tuple_le h h' /\ h.1 <= h'.1.
Proof.
  intros Hsub Eh Eh'.
  assert (0 <= h'.1) as Hh'.
  { destruct (evaluate_hand_total cards') as (h0 & E0 & ?).
    rewrite Eh' in E0. inversion E0; subst. lia. }
  assert (tuple_le h h') as Hle.
  { destruct (decide (length cards < 5)%nat) as [Hs|Hs].
    - rewrite evaluate_hand_short in Eh by done. inversion Eh; subst.
      by apply initial_le.
    - destruct (evaluate_hand_spec cards ltac:(lia)) as (h0 & E0 & _ & (c & Hc & Ec) & _).
      rewrite Eh in E0. inversion E0; subst h0. clear E0.
      pose proof (submseteq_length _ _ Hsub) as Hl.
      destruct (evaluate_hand_spec cards' ltac:(lia)) as (h0 & E0 & _ & _ & Hmax).
      rewrite Eh' in E0. inversion E0; subst h0. clear E0.
      apply elem_of_combinations in Hc as [Hc Hc5].
      assert (c ⊆+ cards') as Hcc by (etrans; [by apply sublist_submseteq|done]).
      apply submseteq_sublist_r in Hcc as (c' & Hp & Hsub').
      destruct (five_cards_perm_total c c' Hp Hc5) as (v & Ev & Ev' & _).
      rewrite Ec in Ev. inversion Ev; subst v.
      apply (Hmax c'); [|done]. apply elem_of_combinations.
      split; [done|]. by rewrite <- Hp. }
  split; [exact Hle|].
  unfold tuple_le, tuple_cmp in Hle. destruct (h.1 ?= h'.1) eqn:E.
  - apply Z.compare_eq in E. lia.
  - rewrite Z.compare_lt_iff in E. lia.
  - done.
Qed.

(** X4: cards can only help: the ranking of a hand is at most the ranking
    of any hand that contains its cards. *)
Theorem evaluate_hand_monotone (cards cards' : list Card) :
  cards ⊆+ cards' ->
  exists h h',
    evaluate_hand cards = Returned h /\ evaluate_hand cards' = Returned h'
    /\ tuple_cmp h h' <> Gt /\ h.1 <= h'.1.
Proof.
  intros Hsub.
  destruct (evaluate_hand_total cards) as (h & Eh & Hh).
  destruct (evaluate_hand_total cards') as (h' & Eh' & Hh').
  exists h, h'. split; [done|]. split; [done|].
  by apply (evaluate_hand_le cards cards').
Qed.

Lemma evaluate_hand_monotone_witness :
  wheel_hand ⊆+ wheel_hand ++ AsAh
  /\ exists h h',
    evaluate_hand wheel_hand = Returned h
    /\ evaluate_hand (wheel_hand ++ AsAh) = Returned h'
    /\ tuple_cmp h h' <> Gt /\ h.1 <= h'.1.
Proof.
  assert (H : wheel_hand ⊆+ wheel_hand ++ AsAh)
    by (apply sublist_submseteq, sublist_inserts_r; reflexivity).
  split; [exact H|]. exact (evaluate_hand_monotone _ _ H).
Defined.

(** ** HandEvaluator._evaluate_five_cards, branch by branch *)

Section Classification.

Lemma occ_filter_pass (P : Z -> Prop) `{!forall x, Decision (P x)} r xs :
  P r -> occ r (filter P xs) = occ r xs.
Proof.
  intros HP. unfold occ. rewrite list_filter_filter. f_equal.
  apply list_filter_iff. intros x. split; [tauto|]. intros ->. done.
Qed.

Lemma occ_singleton_filter (P : Z -> Prop) `{!forall x, Decision (P x)} k xs :
  filter P xs = [k] -> occ k xs = 1%nat.
Proof.
  intros E. assert (P k) as HP.
  { assert (k ∈ filter P xs) as Hk by (rewrite E; apply elem_of_cons; auto).
    by apply list_elem_of_filter in Hk as [? _]. }
  rewrite <- (occ_filter_pass P k xs HP), E. unfold occ.
  rewrite filter_cons_True by done. done.
Qed.

Lemma no_count_of_in_values n xs :
  (0 < n)%nat -> in_values n (Counter xs) = false -> forall r, occ r xs <> n.
Proof.
  intros Hn Hv r Ho. apply not_true_iff_false in Hv. apply Hv.
  apply in_values_Counter. exists r. split; [|done]. apply occ_pos. lia.
Qed.

Lemma sorted_reverse_Sorted xs : Sorted (flip Z.le) (sorted_reverse xs).
Proof.
  assert (Total (flip Z.le)) by (intros x y; unfold flip; lia).
  by apply Sorted_merge_sort.
Qed.

Lemma five_cards_cases (cards : list Card) :
  length cards = 5%nat ->
  let ranks := value <$> cards in
  let wheel := bool_decide (sorted_reverse ranks = [12; 3; 2; 1; 0]) in
  exists h,
    _evaluate_five_cards cards = Returned h
    /\ five_case
         (bool_decide (length (remove_dups (suit <$> cards)) = 1%nat))
         (if wheel then true else _is_straight (sorted_reverse ranks))
         (if wheel then [3; 2; 1; 0; -1] else sorted_reverse ranks)
         ranks h.
Proof.
  intros Hlen ranks wheel. unfold _evaluate_five_cards. cbv zeta.
  fold ranks. fold wheel.
  assert (Hl : length ranks = 5%nat) by (unfold ranks; by rewrite length_fmap).
  generalize (bool_decide (length (remove_dups (suit <$> cards)) = 1%nat)).
  intros F.
  generalize (if wheel then true else _is_straight (sorted_reverse ranks)).
  intros S.
  generalize (if wheel then [3; 2; 1; 0; -1] else sorted_reverse ranks).
  intros key5. clearbody ranks. clear wheel.
  unfold mbind, outcome_bind.
  destruct (F && S) eqn:FS.
  { simpl. case_bool_decide as Hroyal.
    - eexists. split; [reflexivity|]. by apply case_royal.
    - eexists. split; [reflexivity|]. by apply case_straight_flush. }
  simpl.
  destruct (in_values 4 (Counter ranks)) eqn:T4.
  { apply in_values_nonempty in T4 as [r0 Hr0].
    destruct (ranks_with_count 4 (Counter ranks)) as [|four_rank L] eqn:E;
      [by apply elem_of_nil in Hr0|].
    apply head_elem_of, elem_of_ranks_with_count in E as [_ Ho].
    pose proof (length_filter_ne four_rank ranks) as Hk.
    cbn beta iota delta [index0].
    destruct (filter (fun x => x <> four_rank) ranks) as [|kicker [|? ?]] eqn:Ek;
      simpl in Hk; try lia.
    eexists. split; [reflexivity|]. apply case_quads; [done|done|].
    by apply (occ_singleton_filter (fun x => x <> four_rank)). }
  pose proof (no_count_of_in_values 4 ranks ltac:(lia) T4) as No4.
  destruct (in_values 3 (Counter ranks) && in_values 2 (Counter ranks)) eqn:T32.
  { apply andb_true_iff in T32 as [T3 T2].
    apply in_values_nonempty in T3 as [r3 Hr3].
    apply in_values_nonempty in T2 as [r2 Hr2].
    destruct (ranks_with_count 3 (Counter ranks)) as [|three_rank ?] eqn:E3;
      [by apply elem_of_nil in Hr3|].
    destruct (ranks_with_count 2 (Counter ranks)) as [|pair_rank ?] eqn:E2;
      [by apply elem_of_nil in Hr2|].
    apply head_elem_of, elem_of_ranks_with_count in E3 as [_ Ho3].
    apply head_elem_of, elem_of_ranks_with_count in E2 as [_ Ho2].
    simpl. eexists. split; [reflexivity|]. by apply case_full_house. }
  assert (No32 : ~ ((exists r, occ r ranks = 3%nat) /\ (exists r, occ r ranks = 2%nat))).
  { intros [[r3 H3] [r2 H2]]. apply not_true_iff_false in T32. apply T32.
    apply andb_true_iff. split; apply in_values_Counter.
    - exists r3. split; [apply occ_pos; lia|done].
    - exists r2. split; [apply occ_pos; lia|done]. }
  apply andb_false_iff in FS.
  destruct F.
  { destruct FS as [? | ->]; [done|]. eexists. split; [reflexivity|].
    by apply case_flush. }
  destruct S.
  { eexists. split; [reflexivity|]. by apply case_straight. }
  destruct (in_values 3 (Counter ranks)) eqn:T3.
  { simpl in T32. pose proof (no_count_of_in_values 2 ranks ltac:(lia) T32) as No2.
    apply in_values_nonempty in T3 as [r3 Hr3].
    destruct (ranks_with_count 3 (Counter ranks)) as [|three_rank ?] eqn:E3;
      [by apply elem_of_nil in Hr3|].
    apply head_elem_of, elem_of_ranks_with_count in E3 as [_ Ho3].
    simpl. eexists. split; [reflexivity|]. by apply case_trips. }
  pose proof (no_count_of_in_values 3 ranks ltac:(lia) T3) as No3.
  pose proof (ranks_with_count_NoDup 2 ranks) as N2.
  pose proof (ranks_with_count_bound 2 ranks) as B2.
  destruct (bool_decide_reflect
              (length (ranks_with_count 2 (Counter ranks)) = 2%nat)) as [L2|L2].
  { set (pairs := sorted_reverse (ranks_with_count 2 (Counter ranks))).
    assert (Hpp : pairs ≡ₚ ranks_with_count 2 (Counter ranks))
      by apply sorted_reverse_Permutation.
    assert (Npairs : NoDup pairs) by (by rewrite Hpp).
    assert (Spairs : Sorted (flip Z.le) pairs) by apply sorted_reverse_Sorted.
    assert (Hocc : forall r, r ∈ pairs -> occ r ranks = 2%nat).
    { intros r. rewrite Hpp. by intros [_ ?]%elem_of_ranks_with_count. }
    pose proof (length_filter_notin pairs ranks Npairs) as Hk.
    assert (length pairs = 2%nat) as Lp by (by rewrite Hpp).
    destruct pairs as [|p1 [|p2 [|? ?]]]; try done.
    csimpl in Hk. rewrite (Hocc p1), (Hocc p2) in Hk
      by (rewrite !elem_of_cons; auto).
    destruct (filter (fun r => r ∉ [p1; p2]) ranks) as [|kicker [|? ?]] eqn:Ek;
      simpl in Hk; try lia.
    simpl. eexists. split; [reflexivity|].
    apply case_two_pair; try done.
    - apply Hocc. rewrite !elem_of_cons. auto.
    - apply Hocc. rewrite !elem_of_cons. auto.
    - apply Sorted_inv in Spairs as [_ Hhd]. apply HdRel_inv in Hhd.
      unfold flip in Hhd. apply NoDup_cons in Npairs as [Hne _].
      rewrite elem_of_cons in Hne. assert (p1 <> p2) by tauto. lia.
    - by apply (occ_singleton_filter (fun r => r ∉ [p1; p2])). }
  destruct (bool_decide_reflect
              (length (ranks_with_count 2 (Counter ranks)) = 1%nat)) as [L1|L1].
  { destruct (ranks_with_count 2 (Counter ranks)) as [|pair_rank [|? ?]] eqn:E2;
      try done.
    assert (forall r, occ r ranks = 2%nat -> r = pair_rank) as Huniq.
    { intros r Hr. assert (r ∈ ranks_with_count 2 (Counter ranks)) as Hin.
      { apply elem_of_ranks_with_count. split; [apply occ_pos; lia|done]. }
      rewrite E2 in Hin. by apply list_elem_of_singleton in Hin. }
    apply head_elem_of, elem_of_ranks_with_count in E2 as [_ Ho2].
    simpl. eexists. split; [reflexivity|]. by apply case_pair. }
  eexists. split; [reflexivity|]. apply case_high_card; try done.
  intros r Hr. assert (r ∈ ranks_with_count 2 (Counter ranks)) as Hin.
  { apply elem_of_ranks_with_count. split; [apply occ_pos; lia|done]. }
  destruct (ranks_with_count 2 (Counter ranks)) as [|? [|? [|? ?]]];
    simpl in *; try done; try lia. by apply elem_of_nil in Hin.
Qed.

(** The test [len(set(suits)) == 1]. *)
Lemma is_flush_same_suit (cards : list Card) :
  cards <> [] ->
  bool_decide (length (remove_dups (suit <$> cards)) = 1%nat) = true
  <-> same_suit cards.
Proof.
  intros Hne. rewrite bool_decide_eq_true. split.
  - intros H. destruct (remove_dups (suit <$> cards)) as [|s [|? ?]] eqn:E;
      try done.
    exists s. intros c Hc.
    assert (suit c ∈ remove_dups (suit <$> cards)) as Hin.
    { apply elem_of_remove_dups, list_elem_of_fmap. by exists c. }
    rewrite E in Hin. by apply list_elem_of_singleton in Hin.
  - intros [s Hs].
    pose proof (NoDup_remove_dups (suit <$> cards)) as Hnd.
    assert (forall x, x ∈ remove_dups (suit <$> cards) -> x = s) as Hall.
    { intros x Hx. apply elem_of_remove_dups, list_elem_of_fmap in Hx
        as (c & -> & Hc). by apply Hs. }
    destruct cards as [|c cards]; [done|].
    assert (suit c ∈ remove_dups (suit <$> c :: cards)) as Hin.
    { apply elem_of_remove_dups. rewrite fmap_cons. apply elem_of_cons. auto. }
    destruct (remove_dups (suit <$> c :: cards)) as [|a [|b l]].
    + by apply elem_of_nil in Hin.
    + done.
    + exfalso. apply NoDup_cons in Hnd as [Hab _]. apply Hab.
      rewrite (Hall a), (Hall b) by (rewrite !elem_of_cons; auto).
      apply elem_of_cons. auto.
Qed.

Lemma adjacent_steps_seqZ (s : list Z) :
  adjacent_steps s = true <-> s = seqZ (hd 0 s) (Z.of_nat (length s)).
Proof.
  induction s as [|x [|y tl] IH].
  - simpl. done.
  - simpl. split; [|done]. intros _. rewrite seqZ_cons by lia. rewrite seqZ_nil by lia. done.
  - cbn [adjacent_steps]. destruct (bool_decide_reflect (y - x = 1)) as [Hxy|Hxy]; simpl negb.
    + cbv iota. rewrite IH. cbn [hd].
      rewrite (seqZ_cons x) by (simpl length; lia).
      replace (Z.succ x) with y by lia.
      replace (Z.pred (Z.of_nat (length (x :: y :: tl))))
        with (Z.of_nat (length (y :: tl))) by (simpl length; lia).
      split; [by intros <-|]. intros E. by inversion E.
    + cbv iota. split; [done|]. cbn [hd].
      rewrite (seqZ_cons x) by (simpl length; lia).
      rewrite (seqZ_cons (Z.succ x)) by (simpl length; lia).
      intros E. inversion E. lia.
Qed.

Lemma Sorted_seqZ (lo : Z) (n : nat) : Sorted Z.le (seqZ lo (Z.of_nat n)).
Proof.
  revert lo. induction n as [|n IH]; intros lo.
  - rewrite seqZ_nil by lia. constructor.
  - rewrite seqZ_cons by lia.
    replace (Z.pred (Z.of_nat (S n))) with (Z.of_nat n) by lia.
    constructor; [apply IH|].
    destruct n as [|n]; [rewrite seqZ_nil by lia; constructor|].
    rewrite seqZ_cons by lia. constructor. lia.
Qed.

Lemma sorted_Permutation xs : sorted xs ≡ₚ xs.
Proof. apply merge_sort_Permutation. Qed.

Lemma sorted_unique xs ys : Sorted Z.le ys -> xs ≡ₚ ys -> sorted xs = ys.
Proof.
  intros Hs Hp.
  assert (Total Z.le) by (intros x y; lia).
  assert (Transitive Z.le) by (intros x y z; lia).
  assert (AntiSymm (=) Z.le) by (intros x y; lia).
  apply (Sorted_unique Z.le); [by apply Sorted_merge_sort|done|].
  by rewrite sorted_Permutation.
Qed.

(** [_is_straight] holds exactly of rearrangements of a run of consecutive
    values; the empty list and a single value are runs. *)
Lemma is_straight_consecutive (ranks : list Z) :
  _is_straight ranks = true <-> consecutive ranks.
Proof.
  unfold _is_straight, consecutive. cbv zeta. rewrite adjacent_steps_seqZ. split.
  - intros E. exists (hd 0 (sorted ranks)).
    rewrite <- (sorted_Permutation ranks) at 1.
    rewrite E at 1. by rewrite (Permutation_length (sorted_Permutation ranks)).
  - intros [lo Hp].
    rewrite (sorted_unique ranks _ (Sorted_seqZ lo (length ranks)) Hp).
    rewrite length_seqZ, Nat2Z.id.
    destruct (length ranks) as [|n]; [by rewrite !seqZ_nil by lia|].
    rewrite (seqZ_cons lo) at 2 by lia. done.
Qed.

Lemma wheel_test (ranks : list Z) :
  bool_decide (sorted_reverse ranks = [12; 3; 2; 1; 0]) = true
  <-> wheel_ranks ranks.
Proof.
  rewrite bool_decide_eq_true. unfold wheel_ranks. split.
  - intros E. rewrite <- E. symmetry. apply sorted_reverse_Permutation.
  - intros Hp. by rewrite (sorted_reverse_perm _ _ Hp).
Qed.

Lemma occ_NoDup (r : Z) (xs : list Z) : NoDup xs -> (occ r xs <= 1)%nat.
Proof.
  intros Hnd. unfold occ.
  assert (NoDup (filter (fun x => x = r) xs)) as Hf by (by apply NoDup_filter).
  destruct (filter (fun x => x = r) xs) as [|a [|b l]] eqn:E; simpl; try lia.
  exfalso. apply NoDup_cons in Hf as [Hab _]. apply Hab.
  assert (a ∈ filter (fun x => x = r) xs) as Ha
    by (rewrite E, !elem_of_cons; auto).
  assert (b ∈ filter (fun x => x = r) xs) as Hb
    by (rewrite E, !elem_of_cons; auto).
  apply list_elem_of_filter in Ha as [-> _].
  apply list_elem_of_filter in Hb as [-> _]. apply elem_of_cons. auto.
Qed.

Lemma NoDup_occ (xs : list Z) : (forall r, (occ r xs <= 1)%nat) -> NoDup xs.
Proof.
  induction xs as [|x xs IH]; intros H; [constructor|].
  apply NoDup_cons. split.
  - intros Hin. apply occ_pos in Hin. specialize (H x).
    change (x :: xs) with ([x] ++ xs) in H. rewrite occ_app in H.
    unfold occ at 1 in H. rewrite filter_cons_True in H by done. simpl in H. lia.
  - apply IH. intros r. specialize (H r).
    change (x :: xs) with ([x] ++ xs) in H. rewrite occ_app in H. lia.
Qed.

Lemma occ_two (r r' : Z) (xs : list Z) :
  r <> r' -> (occ r xs + occ r' xs <= length xs)%nat.
Proof.
  intros Hne. assert (NoDup [r; r']) as Hnd.
  { apply NoDup_cons. split; [by intros ->%list_elem_of_singleton|].
    apply NoDup_singleton. }
  pose proof (length_filter_notin [r; r'] xs Hnd) as H. csimpl in H. lia.
Qed.

Lemma occ_three (r1 r2 r3 : Z) (xs : list Z) :
  r1 <> r2 -> r1 <> r3 -> r2 <> r3 ->
  (occ r1 xs + occ r2 xs + occ r3 xs <= length xs)%nat.
Proof.
  intros H12 H13 H23. assert (NoDup [r1; r2; r3]) as Hnd.
  { apply NoDup_cons. split.
    - rewrite !elem_of_cons, elem_of_nil. tauto.
    - apply NoDup_cons. split; [by intros ->%list_elem_of_singleton|].
      apply NoDup_singleton. }
  pose proof (length_filter_notin [r1; r2; r3] xs Hnd) as H. csimpl in H. lia.
Qed.

(** Distinct cards of one suit have distinct values. *)
Lemma same_suit_NoDup_values (cards : list Card) :
  NoDup cards -> same_suit cards -> NoDup (value <$> cards).
Proof.
  intros Hnd [s Hs]. apply NoDup_fmap_2_strong; [|done].
  intros [r1 s1] [r2 s2] H1 H2 Hv.
  apply Hs in H1, H2. simpl in *. subst. f_equal.
  unfold value in Hv. simpl in Hv. by destruct r1, r2.
Qed.

(** A straight, of either kind, has five distinct values. *)
Lemma straight_test_NoDup (ranks : list Z) :
  (if bool_decide (sorted_reverse ranks = [12; 3; 2; 1; 0]) then true
   else _is_straight (sorted_reverse ranks)) = true ->
  NoDup ranks.
Proof.
  case_bool_decide as Hw.
  - intros _. rewrite <- (sorted_reverse_Permutation ranks), Hw.
    apply (bool_decide_unpack _). vm_compute. exact I.
  - intros [lo Hp]%is_straight_consecutive.
    rewrite sorted_reverse_Permutation in Hp at 1. rewrite Hp. apply NoDup_seqZ.
Qed.

Lemma consecutive_perm (xs ys : list Z) :
  xs ≡ₚ ys -> consecutive xs <-> consecutive ys.
Proof.
  intros Hp. unfold consecutive. rewrite (Permutation_length Hp).
  split; intros [lo H]; exists lo.
  - etrans; [symmetry; exact Hp|exact H].
  - etrans; [exact Hp|exact H].
Qed.

(** The branch taken, with the meaning of its three tests. *)
Lemma five_cards_semantic (cards : list Card) :
  length cards = 5%nat ->
  exists F S key5 h,
    _evaluate_five_cards cards = Returned h
    /\ five_case F S key5 (value <$> cards) h
    /\ (F = true <-> same_suit cards)
    /\ (S = true <-> consecutive (value <$> cards) \/ wheel_ranks (value <$> cards))
    /\ (S = true -> NoDup (value <$> cards))
    /\ (wheel_ranks (value <$> cards) -> key5 = [3; 2; 1; 0; -1])
    /\ (~ wheel_ranks (value <$> cards) -> key5 = sorted_reverse (value <$> cards)).
Proof.
  intros Hlen. destruct (five_cards_cases cards Hlen) as (h & E & Hcase).
  cbv zeta in Hcase. eexists _, _, _, h. split; [exact E|]. split; [exact Hcase|].
  split; [apply is_flush_same_suit; by destruct cards|].
  split; [|split; [apply straight_test_NoDup|]].
  - destruct (bool_decide_reflect
                (sorted_reverse (value <$> cards) = [12; 3; 2; 1; 0])) as [Hw|Hw].
    + split; [|done]. intros _. right. apply wheel_test. by apply bool_decide_eq_true.
    + rewrite is_straight_consecutive.
      rewrite (consecutive_perm _ _ (sorted_reverse_Permutation (value <$> cards))).
      split; [by left|]. intros [?|Hwr]; [done|].
      apply wheel_test, bool_decide_eq_true in Hwr. done.
  - split.
    + intros Hwr. apply wheel_test in Hwr. by rewrite Hwr.
    + intros Hwr. rewrite <- wheel_test in Hwr.
      by destruct (bool_decide (sorted_reverse (value <$> cards) = [12; 3; 2; 1; 0])).
Qed.

End Classification.

Ltac ranks_differ a b :=
  assert (a <> b) by (let H := fresh in intros H; subst; lia).

Ltac no_such_count :=
  solve [ exfalso;
          match goal with
          | H : forall r, occ r ?xs <> ?n, H' : occ ?r ?xs = ?n |- _ => exact (H r H')
          end ].

Ltac not_a_straight HSN :=
  solve [ exfalso;
          repeat match goal with
                 | H : _ && _ = true |- _ => apply andb_true_iff in H as [? ?]
                 end;
          match goal with
          | HS : ?S = true, Ho : occ ?r ?xs = _ |- _ =>
              pose proof (occ_NoDup r xs (HSN HS)); lia
          end ].

Ltac repeated_rank HN :=
  solve [ exfalso;
          match goal with
          | Ho : occ ?r ?xs = _ |- _ => pose proof (occ_NoDup r xs HN); lia
          end ].

Ltac not_three_and_two :=
  solve [ exfalso;
          match goal with
          | H : ~ ((exists a, occ a ?xs = 3%nat) /\ (exists b, occ b ?xs = 2%nat)) |- _ =>
              apply H; split; eexists; eassumption
          end ].

(** X5: a five-card hand is four of a kind (category 7), with the key
    [quad rank, other rank], exactly when one rank occurs four times. *)
Theorem five_cards_quads (cards : list Card) (key : list Z) :
  length cards = 5%nat ->
  (_evaluate_five_cards cards = Returned (7, key)
   <-> exists r k, key = [r; k]
                   /\ occ r (value <$> cards) = 4%nat
                   /\ occ k (value <$> cards) = 1%nat).
Proof.
  intros Hlen.
  destruct (five_cards_semantic cards Hlen)
    as (F & S & key5 & h & E & Hcase & HF & HS & HSN & Hkw & Hkn).
  assert (Hl : length (value <$> cards) = 5%nat) by (by rewrite length_fmap).
  remember (value <$> cards) as ranks eqn:Hranks. clear Hranks.
  split.
  - intros E'. rewrite E in E'. inversion E'; subst h.
    inversion Hcase; subst. eauto.
  - intros (r & k & -> & Hr & Hk). rewrite E. f_equal.
    inversion Hcase; subst;
      try not_a_straight HSN; try no_such_count.
    match goal with
    | H4 : occ ?r' ranks = 4%nat, H1 : occ ?k' ranks = 1%nat |- (7, [?r'; ?k']) = _ =>
        assert (r' = r) by (pose proof (occ_two r' r ranks); lia); subst r';
        ranks_differ r k; ranks_differ r k';
        assert (k' = k) by (pose proof (occ_three r k' k ranks); lia); subst k'
    end.
    reflexivity.
Qed.

Lemma five_cards_quads_witness :
  length quads_hand = 5%nat
  /\ (_evaluate_five_cards quads_hand = Returned (7, [12; 11])
      <-> exists r k, [12; 11] = [r; k]
                      /\ occ r (value <$> quads_hand) = 4%nat
                      /\ occ k (value <$> quads_hand) = 1%nat).
Proof.
  assert (H : length quads_hand = 5%nat) by reflexivity.
  split; [exact H|]. exact (five_cards_quads quads_hand [12; 11] H).
Defined.

(** X6: a five-card hand is a full house (category 6), with the key
    [triple rank, pair rank], exactly when one rank occurs three times and
    another twice. *)
Theorem five_cards_full_house (cards : list Card) (key : list Z) :
  length cards = 5%nat ->
  (_evaluate_five_cards cards = Returned (6, key)
   <-> exists r3 r2, key = [r3; r2]
                     /\ occ r3 (value <$> cards) = 3%nat
                     /\ occ r2 (value <$> cards) = 2%nat).
Proof.
  intros Hlen.
  destruct (five_cards_semantic cards Hlen)
    as (F & S & key5 & h & E & Hcase & HF & HS & HSN & Hkw & Hkn).
  assert (Hl : length (value <$> cards) = 5%nat) by (by rewrite length_fmap).
  remember (value <$> cards) as ranks eqn:Hranks. clear Hranks.
  split.
  - intros E'. rewrite E in E'. inversion E'; subst h.
    inversion Hcase; subst. eauto.
  - intros (r3 & r2 & -> & H3 & H2). rewrite E. f_equal.
    ranks_differ r3 r2.
    inversion Hcase; subst;
      try not_a_straight HSN; try no_such_count; try not_three_and_two.
    + match goal with
      | H4 : occ ?r ranks = 4%nat |- _ =>
          ranks_differ r r3; pose proof (occ_two r r3 ranks); lia
      end.
    + match goal with
      | H3' : occ ?a ranks = 3%nat, H2' : occ ?b ranks = 2%nat
        |- (6, [?a; ?b]) = _ =>
          ranks_differ a r2; ranks_differ b r3;
          assert (a = r3) by (pose proof (occ_two a r3 ranks); lia); subst a;
          assert (b = r2) by (pose proof (occ_three r3 b r2 ranks); lia); subst b
      end.
      reflexivity.
Qed.

Lemma five_cards_full_house_witness :
  length full_house_hand = 5%nat
  /\ (_evaluate_five_cards full_house_hand = Returned (6, [11; 0])
      <-> exists r3 r2, [11; 0] = [r3; r2]
                        /\ occ r3 (value <$> full_house_hand) = 3%nat
                        /\ occ r2 (value <$> full_house_hand) = 2%nat).
Proof.
  assert (H : length full_house_hand = 5%nat) by reflexivity.
  split; [exact H|]. exact (five_cards_full_house full_house_hand [11; 0] H).
Defined.

Lemma royal_not_wheel (ranks : list Z) :
  ranks ≡ₚ [12; 11; 10; 9; 8] -> ~ wheel_ranks ranks.
Proof.
  intros Hp Hw. unfold wheel_ranks in Hw. rewrite Hp in Hw.
  assert (11 ∈ [12; 3; 2; 1; 0]) as Hin
    by (rewrite <- Hw, !elem_of_cons; auto).
  rewrite !elem_of_cons, elem_of_nil in Hin. lia.
Qed.

Lemma wheel_not_consecutive (ranks : list Z) :
  wheel_ranks ranks -> ~ consecutive ranks.
Proof.
  intros Hw [lo Hp]. unfold wheel_ranks in Hw.
  rewrite (Permutation_length Hw) in Hp. rewrite Hw in Hp. simpl in Hp.
  assert (forall x, x ∈ [12; 3; 2; 1; 0] -> lo <= x < lo + 5) as Hb.
  { intros x Hx. rewrite Hp in Hx. apply elem_of_seqZ in Hx. lia. }
  pose proof (Hb 12 ltac:(rewrite !elem_of_cons; auto)).
  pose proof (Hb 0 ltac:(rewrite !elem_of_cons; auto 10)). lia.
Qed.

Lemma royal_consecutive (ranks : list Z) :
  ranks ≡ₚ [12; 11; 10; 9; 8] -> consecutive ranks.
Proof.
  intros Hp. exists 8. rewrite (Permutation_length Hp). rewrite Hp.
  apply (bool_decide_unpack _). vm_compute. exact I.
Qed.

(** X7: a five-card hand is a royal flush (category 9) exactly when its
    cards have one suit and its ranks are 10, J, Q, K, A; the key is then
    these five values from the ace down. *)
Theorem five_cards_royal_flush (cards : list Card) (key : list Z) :
  length cards = 5%nat ->
  (_evaluate_five_cards cards = Returned (9, key)
   <-> same_suit cards
       /\ value <$> cards ≡ₚ [12; 11; 10; 9; 8]
       /\ key = [12; 11; 10; 9; 8]).
Proof.
  intros Hlen.
  destruct (five_cards_semantic cards Hlen)
    as (F & S & key5 & h & E & Hcase & HF & HS & HSN & Hkw & Hkn).
  remember (value <$> cards) as ranks eqn:Hranks. clear Hranks.
  split.
  - intros E'. rewrite E in E'. inversion E'; subst h.
    inversion Hcase; subst.
    match goal with H : _ && _ = true |- _ => apply andb_true_iff in H as [HF' HS'] end.
    split; [by apply HF|]. split; [|done].
    destruct (decide (wheel_ranks ranks)) as [Hw|Hw].
    + by specialize (Hkw Hw).
    + rewrite (Hkn Hw). symmetry. apply sorted_reverse_Permutation.
  - intros (Hsuit & Hp & ->). rewrite E. f_equal.
    assert (F = true) as -> by (by apply HF).
    assert (S = true) as -> by (apply HS; left; by apply royal_consecutive).
    assert (key5 = [12; 11; 10; 9; 8]) as ->.
    { rewrite (Hkn (royal_not_wheel ranks Hp)), (sorted_reverse_perm _ _ Hp).
      reflexivity. }
    inversion Hcase; subst; done.
Qed.

Lemma five_cards_royal_flush_witness :
  length royal_hand = 5%nat
  /\ (_evaluate_five_cards royal_hand = Returned (9, [12; 11; 10; 9; 8])
      <-> same_suit royal_hand
          /\ value <$> royal_hand ≡ₚ [12; 11; 10; 9; 8]
          /\ [12; 11; 10; 9; 8] = [12; 11; 10; 9; 8]).
Proof.
  assert (H : length royal_hand = 5%nat) by reflexivity.
  split; [exact H|]. exact (five_cards_royal_flush royal_hand _ H).
Defined.

(** X8: a five-card hand is a straight flush (category 8) exactly when its
    cards have one suit and its ranks are either consecutive but not 10 to
    the ace, with the key the values from the top down, or A, 2, 3, 4, 5,
    with the key of the five-high straight. *)
Theorem five_cards_straight_flush (cards : list Card) (key : list Z) :
  length cards = 5%nat ->
  (_evaluate_five_cards cards = Returned (8, key)
   <-> same_suit cards
       /\ ((consecutive (value <$> cards)
            /\ ~ value <$> cards ≡ₚ [12; 11; 10; 9; 8]
            /\ key = sorted_reverse (value <$> cards))
           \/ (wheel_ranks (value <$> cards) /\ key = [3; 2; 1; 0; -1]))).
Proof.
  intros Hlen.
  destruct (five_cards_semantic cards Hlen)
    as (F & S & key5 & h & E & Hcase & HF & HS & HSN & Hkw & Hkn).
  remember (value <$> cards) as ranks eqn:Hranks. clear Hranks.
  split.
  - intros E'. rewrite E in E'. inversion E'; subst h.
    inversion Hcase; subst.
    match goal with H : _ && _ = true |- _ => apply andb_true_iff in H as [HF' HS'] end.
    split; [by apply HF|].
    destruct (decide (wheel_ranks ranks)) as [Hw|Hw]; [right; auto|left].
    apply HS in HS' as [Hc|?]; [|done].
    split; [done|]. split; [|by apply Hkn].
    intros Hp. rewrite (Hkn Hw), (sorted_reverse_perm _ _ Hp) in *. done.
  - intros (Hsuit & Hkind). rewrite E. f_equal.
    assert (F = true) as -> by (by apply HF).
    assert (S = true) as -> by (apply HS; tauto).
    assert (key5 = key /\ key <> [12; 11; 10; 9; 8]) as [-> Hnr].
    { destruct Hkind as [(Hc & Hnr & ->)|[Hw ->]].
      - assert (~ wheel_ranks ranks) as Hnw
          by (intros Hw; by apply (wheel_not_consecutive ranks Hw)).
        split; [by apply Hkn|]. intros Hk. apply Hnr.
        rewrite <- Hk. symmetry. apply sorted_reverse_Permutation.
      - split; [by apply Hkw|done]. }
    inversion Hcase; subst; done.
Qed.

Lemma five_cards_straight_flush_witness :
  length straight_flush_hand = 5%nat
  /\ (_evaluate_five_cards straight_flush_hand = Returned (8, [7; 6; 5; 4; 3])
      <-> same_suit straight_flush_hand
          /\ ((consecutive (value <$> straight_flush_hand)
               /\ ~ value <$> straight_flush_hand ≡ₚ [12; 11; 10; 9; 8]
               /\ [7; 6; 5; 4; 3]
                  = sorted_reverse (value <$> straight_flush_hand))
              \/ (wheel_ranks (value <$> straight_flush_hand)
                  /\ [7; 6; 5; 4; 3] = [3; 2; 1; 0; -1])))
  /\ _evaluate_five_cards straight_flush_hand = Returned (8, [7; 6; 5; 4; 3]).
Proof.
  assert (H : length straight_flush_hand = 5%nat) by reflexivity.
  split; [exact H|].
  split; [exact (five_cards_straight_flush _ _ H)|].
  vm_compute. reflexivity.
Defined.

(** X9: a five-card hand is a straight (category 4) exactly when its cards
    do not all have one suit and its ranks are either consecutive, with
    the key the values from the top down, or A, 2, 3, 4, 5, with the key
    of the five-high straight. *)
Theorem five_cards_straight (cards : list Card) (key : list Z) :
  length cards = 5%nat ->
  (_evaluate_five_cards cards = Returned (4, key)
   <-> ~ same_suit cards
       /\ ((consecutive (value <$> cards)
            /\ key = sorted_reverse (value <$> cards))
           \/ (wheel_ranks (value <$> cards) /\ key = [3; 2; 1; 0; -1]))).
Proof.
  intros Hlen.
  destruct (five_cards_semantic cards Hlen)
    as (F & S & key5 & h & E & Hcase & HF & HS & HSN & Hkw & Hkn).
  remember (value <$> cards) as ranks eqn:Hranks. clear Hranks.
  split.
  - intros E'. rewrite E in E'. inversion E'; subst h.
    inversion Hcase; subst.
    split; [intros Hsuit; apply HF in Hsuit; done|].
    destruct (decide (wheel_ranks ranks)) as [Hw|Hw]; [right; auto|left].
    destruct (proj1 HS eq_refl) as [Hc|?]; [|done].
    split; [done|by apply Hkn].
  - intros (Hsuit & Hkind). rewrite E. f_equal.
    assert (F = false) as ->.
    { destruct F; [|done]. exfalso. by apply Hsuit, HF. }
    assert (HS' : S = true) by (apply HS; tauto).
    assert (key5 = key) as ->.
    { destruct Hkind as [(Hc & ->)|[Hw ->]]; [|by apply Hkw].
      apply Hkn. intros Hw. by apply (wheel_not_consecutive ranks Hw). }
    pose proof (HSN HS') as HN.
    inversion Hcase; subst; try done; try repeated_rank HN.
Qed.

Lemma five_cards_straight_witness :
  length straight_hand = 5%nat
  /\ (_evaluate_five_cards straight_hand = Returned (4, [7; 6; 5; 4; 3])
      <-> ~ same_suit straight_hand
          /\ ((consecutive (value <$> straight_hand)
               /\ [7; 6; 5; 4; 3] = sorted_reverse (value <$> straight_hand))
              \/ (wheel_ranks (value <$> straight_hand)
                  /\ [7; 6; 5; 4; 3] = [3; 2; 1; 0; -1]))).
Proof.
  assert (H : length straight_hand = 5%nat) by reflexivity.
  split; [exact H|]. exact (five_cards_straight _ _ H).
Defined.

Lemma occ_four (r1 r2 r3 r4 : Z) (xs : list Z) :
  r1 <> r2 -> r1 <> r3 -> r1 <> r4 -> r2 <> r3 -> r2 <> r4 -> r3 <> r4 ->
  (occ r1 xs + occ r2 xs + occ r3 xs + occ r4 xs <= length xs)%nat.
Proof.
  intros. assert (NoDup [r1; r2; r3; r4]) as Hnd.
  { rewrite !NoDup_cons, !elem_of_cons, !elem_of_nil.
    split_and!; try tauto. constructor. }
  pose proof (length_filter_notin [r1; r2; r3; r4] xs Hnd) as H'. csimpl in H'. lia.
Qed.

Lemma occ_value_filter (r : Z) (cards : list Card) :
  occ r (value <$> cards) = length (filter (fun c => value c = r) cards).
Proof.
  unfold occ. induction cards as [|c cards IH]; [done|].
  rewrite fmap_cons, !filter_cons.
  destruct (decide (value c = r)); simpl; by rewrite IH.
Qed.

(** Distinct cards hold a rank four times at most. *)
Lemma occ_value_le_4 (r : Z) (cards : list Card) :
  NoDup cards -> (occ r (value <$> cards) <= 4)%nat.
Proof.
  intros Hnd. rewrite occ_value_filter.
  assert (NoDup (filter (fun c => value c = r) cards)) as Hf
    by (by apply NoDup_filter).
  assert (NoDup (suit <$> filter (fun c => value c = r) cards)) as Hs.
  { apply NoDup_fmap_2_strong; [|done].
    intros [r1 s1] [r2 s2] [H1 _]%list_elem_of_filter [H2 _]%list_elem_of_filter Hs.
    simpl in *. subst. f_equal. unfold value in *. simpl in *.
    by destruct r1, r2. }
  rewrite <- (length_fmap suit).
  assert (suit <$> filter (fun c => value c = r) cards ⊆+ SUITS) as Hsub.
  { apply NoDup_submseteq; [done|]. intros s _. unfold SUITS.
    rewrite !elem_of_cons. destruct s; auto. }
  apply submseteq_length in Hsub. simpl in Hsub. lia.
Qed.

(** X10: five distinct cards are a flush (category 5) exactly when they
    have one suit and their ranks are neither consecutive nor A, 2, 3, 4,
    5; the key is the five values from the top down. *)
Theorem five_cards_flush (cards : list Card) (key : list Z) :
  length cards = 5%nat -> NoDup cards ->
  (_evaluate_five_cards cards = Returned (5, key)
   <-> same_suit cards
       /\ ~ consecutive (value <$> cards)
       /\ ~ wheel_ranks (value <$> cards)
       /\ key = sorted_reverse (value <$> cards)).
Proof.
  intros Hlen Hnd.
  destruct (five_cards_semantic cards Hlen)
    as (F & S & key5 & h & E & Hcase & HF & HS & HSN & Hkw & Hkn).
  pose proof (same_suit_NoDup_values cards Hnd) as HFN.
  remember (value <$> cards) as ranks eqn:Hranks. clear Hranks.
  split.
  - intros E'. rewrite E in E'. inversion E'; subst h.
    inversion Hcase; subst.
    assert (~ (consecutive ranks \/ wheel_ranks ranks)) as Hns.
    { intros Hs. by apply HS in Hs. }
    split; [by apply HF|]. split; [tauto|]. split; [tauto|].
    apply Hkn. tauto.
  - intros (Hsuit & Hnc & Hnw & ->). rewrite E. f_equal.
    pose proof (HFN Hsuit) as HN.
    assert (F = true) as -> by (by apply HF).
    assert (S = false) as ->.
    { destruct S; [|done]. exfalso. destruct (proj1 HS eq_refl); done. }
    rewrite <- (Hkn Hnw).
    inversion Hcase; subst; try done; try repeated_rank HN.
Qed.

Lemma five_cards_flush_witness :
  length flush_hand = 5%nat /\ NoDup flush_hand
  /\ (_evaluate_five_cards flush_hand = Returned (5, [11; 9; 7; 5; 0])
      <-> same_suit flush_hand
          /\ ~ consecutive (value <$> flush_hand)
          /\ ~ wheel_ranks (value <$> flush_hand)
          /\ [11; 9; 7; 5; 0] = sorted_reverse (value <$> flush_hand)).
Proof.
  assert (H : length flush_hand = 5%nat) by reflexivity.
  assert (Hnd : NoDup flush_hand)
    by (apply (bool_decide_unpack _); vm_compute; exact I).
  split; [exact H|]. split; [exact Hnd|].
  exact (five_cards_flush _ _ H Hnd).
Defined.

(** X11: five distinct cards are three of a kind (category 3) exactly when
    one rank occurs three times and no rank twice; the key is that rank,
    then the two other values from the top down. *)
Theorem five_cards_trips (cards : list Card) (key : list Z) :
  length cards = 5%nat -> NoDup cards ->
  (_evaluate_five_cards cards = Returned (3, key)
   <-> exists r,
         occ r (value <$> cards) = 3%nat
         /\ (forall r', occ r' (value <$> cards) <> 2%nat)
         /\ key = r :: sorted_reverse (filter (fun x => x <> r) (value <$> cards))).
Proof.
  intros Hlen Hnd.
  destruct (five_cards_semantic cards Hlen)
    as (F & S & key5 & h & E & Hcase & HF & HS & HSN & Hkw & Hkn).
  pose proof (same_suit_NoDup_values cards Hnd) as HFN.
  assert (Hl : length (value <$> cards) = 5%nat) by (by rewrite length_fmap).
  remember (value <$> cards) as ranks eqn:Hranks. clear Hranks.
  split.
  - intros E'. rewrite E in E'. inversion E'; subst h.
    inversion Hcase; subst. eauto.
  - intros (r & Hr & No2 & ->). rewrite E. f_equal.
    assert (F = false) as ->.
    { destruct F; [|done]. exfalso. pose proof (HFN (proj1 HF eq_refl)) as HN.
      pose proof (occ_NoDup r ranks HN). lia. }
    assert (S = false) as ->.
    { destruct S; [|done]. exfalso. pose proof (HSN eq_refl) as HN.
      pose proof (occ_NoDup r ranks HN). lia. }
    inversion Hcase; subst; try done; try no_such_count.
    + match goal with
      | H4 : occ ?a ranks = 4%nat |- _ =>
          ranks_differ a r; pose proof (occ_two a r ranks); lia
      end.
    + match goal with
      | H3 : occ ?a ranks = 3%nat |- (3, ?a :: _) = _ =>
          assert (a = r) by (pose proof (occ_two a r ranks); lia); subst a
      end.
      reflexivity.
Qed.

Lemma five_cards_trips_witness :
  length trips_hand = 5%nat /\ NoDup trips_hand
  /\ (_evaluate_five_cards trips_hand = Returned (3, [5; 12; 6])
      <-> exists r,
            occ r (value <$> trips_hand) = 3%nat
            /\ (forall r', occ r' (value <$> trips_hand) <> 2%nat)
            /\ [5; 12; 6]
               = r :: sorted_reverse
                        (filter (fun x => x <> r) (value <$> trips_hand))).
Proof.
  assert (H : length trips_hand = 5%nat) by reflexivity.
  assert (Hnd : NoDup trips_hand)
    by (apply (bool_decide_unpack _); vm_compute; exact I).
  split; [exact H|]. split; [exact Hnd|].
  exact (five_cards_trips _ _ H Hnd).
Defined.

(** X12: five distinct cards are two pair (category 2) exactly when two
    ranks occur twice; the key is the higher pair, the lower pair, then
    the fifth card. *)
Theorem five_cards_two_pair (cards : list Card) (key : list Z) :
  length cards = 5%nat -> NoDup cards ->
  (_evaluate_five_cards cards = Returned (2, key)
   <-> exists p1 p2 k,
         key = [p1; p2; k] /\ p2 < p1
         /\ occ p1 (value <$> cards) = 2%nat
         /\ occ p2 (value <$> cards) = 2%nat
         /\ occ k (value <$> cards) = 1%nat).
Proof.
  intros Hlen Hnd.
  destruct (five_cards_semantic cards Hlen)
    as (F & S & key5 & h & E & Hcase & HF & HS & HSN & Hkw & Hkn).
  pose proof (same_suit_NoDup_values cards Hnd) as HFN.
  assert (Hl : length (value <$> cards) = 5%nat) by (by rewrite length_fmap).
  remember (value <$> cards) as ranks eqn:Hranks. clear Hranks.
  split.
  - intros E'. rewrite E in E'. inversion E'; subst h.
    inversion Hcase; subst. eauto 10.
  - intros (p1 & p2 & k & -> & Hlt & H1 & H2 & Hk). rewrite E. f_equal.
    assert (F = false) as ->.
    { destruct F; [|done]. exfalso. pose proof (HFN (proj1 HF eq_refl)) as HN.
      pose proof (occ_NoDup p1 ranks HN). lia. }
    assert (S = false) as ->.
    { destruct S; [|done]. exfalso. pose proof (HSN eq_refl) as HN.
      pose proof (occ_NoDup p1 ranks HN). lia. }
    ranks_differ p1 k. ranks_differ p2 k.
    inversion Hcase; subst; try done; try no_such_count.
    + match goal with
      | H4 : occ ?a ranks = 4%nat |- _ =>
          ranks_differ a p1; pose proof (occ_two a p1 ranks); lia
      end.
    + match goal with
      | H3 : occ ?a ranks = 3%nat |- _ =>
          ranks_differ a p1; ranks_differ a p2;
          pose proof (occ_three a p1 p2 ranks); lia
      end.
    + match goal with
      | |- (2, [?a; ?b; ?c]) = _ =>
          ranks_differ a c; ranks_differ b c;
          assert (a = p1 \/ a = p2) by (pose proof (occ_three a p1 p2 ranks); lia);
          assert (b = p1 \/ b = p2) by (pose proof (occ_three b p1 p2 ranks); lia);
          assert (a = p1) by lia; assert (b = p2) by lia; subst a b;
          assert (c = k) by (pose proof (occ_four p1 p2 c k ranks); lia); subst c
      end.
      reflexivity.
    + match goal with
      | Hu : forall r, occ r ranks = 2%nat -> r = ?p |- _ =>
          pose proof (Hu p1 H1); pose proof (Hu p2 H2); lia
      end.
Qed.

Lemma five_cards_two_pair_witness :
  length two_pair_hand = 5%nat /\ NoDup two_pair_hand
  /\ (_evaluate_five_cards two_pair_hand = Returned (2, [12; 5; 6])
      <-> exists p1 p2 k,
            [12; 5; 6] = [p1; p2; k] /\ p2 < p1
            /\ occ p1 (value <$> two_pair_hand) = 2%nat
            /\ occ p2 (value <$> two_pair_hand) = 2%nat
            /\ occ k (value <$> two_pair_hand) = 1%nat).
Proof.
  assert (H : length two_pair_hand = 5%nat) by reflexivity.
  assert (Hnd : NoDup two_pair_hand)
    by (apply (bool_decide_unpack _); vm_compute; exact I).
  split; [exact H|]. split; [exact Hnd|].
  exact (five_cards_two_pair _ _ H Hnd).
Defined.

(** X13: five distinct cards are one pair (category 1) exactly when one
    rank occurs twice and every other rank once at most; the key is the
    pair's rank, then the three other values from the top down. *)
Theorem five_cards_pair (cards : list Card) (key : list Z) :
  length cards = 5%nat -> NoDup cards ->
  (_evaluate_five_cards cards = Returned (1, key)
   <-> exists p,
         occ p (value <$> cards) = 2%nat
         /\ (forall r, r <> p -> (occ r (value <$> cards) <= 1)%nat)
         /\ key = p :: sorted_reverse (filter (fun x => x <> p) (value <$> cards))).
Proof.
  intros Hlen Hnd.
  destruct (five_cards_semantic cards Hlen)
    as (F & S & key5 & h & E & Hcase & HF & HS & HSN & Hkw & Hkn).
  pose proof (same_suit_NoDup_values cards Hnd) as HFN.
  assert (Hl : length (value <$> cards) = 5%nat) by (by rewrite length_fmap).
  remember (value <$> cards) as ranks eqn:Hranks. clear Hranks.
  split.
  - intros E'. rewrite E in E'. inversion E'; subst h.
    inversion Hcase; subst.
    match goal with
    | Hp : occ ?p ranks = 2%nat, Hu : forall r, occ r ranks = 2%nat -> r = ?p,
      N4 : forall r, occ r ranks <> 4%nat, N3 : forall r, occ r ranks <> 3%nat |- _ =>
        exists p; split; [done|]; split; [|done];
        intros r Hne; pose proof (occ_two r p ranks Hne);
        pose proof (N4 r); pose proof (N3 r);
        assert (occ r ranks <> 2%nat)
          by (let Hr2 := fresh in intros Hr2; by apply Hne, Hu);
        lia
    end.
  - intros (p & Hp & Hothers & ->). rewrite E. f_equal.
    assert (F = false) as ->.
    { destruct F; [|done]. exfalso. pose proof (HFN (proj1 HF eq_refl)) as HN.
      pose proof (occ_NoDup p ranks HN). lia. }
    assert (S = false) as ->.
    { destruct S; [|done]. exfalso. pose proof (HSN eq_refl) as HN.
      pose proof (occ_NoDup p ranks HN). lia. }
    assert (forall a n, occ a ranks = n -> (2 <= n)%nat -> a = p) as Honly.
    { intros a n Ha Hn. destruct (decide (a = p)) as [|Hne]; [done|].
      pose proof (Hothers a Hne). lia. }
    inversion Hcase; subst; try done; try no_such_count.
    + match goal with
      | H4 : occ ?a ranks = 4%nat |- _ => pose proof (Honly a _ H4 ltac:(lia)); subst; lia
      end.
    + match goal with
      | H3 : occ ?a ranks = 3%nat |- _ => pose proof (Honly a _ H3 ltac:(lia)); subst; lia
      end.
    + match goal with
      | Ha : occ ?a ranks = 2%nat, Hb : occ ?b ranks = 2%nat, Hlt : ?b < ?a |- _ =>
          pose proof (Honly a _ Ha ltac:(lia)); pose proof (Honly b _ Hb ltac:(lia)); lia
      end.
    + match goal with
      | Ha : occ ?a ranks = 2%nat |- (1, ?a :: _) = _ =>
          pose proof (Honly a _ Ha ltac:(lia)); subst a
      end.
      reflexivity.
Qed.

Lemma five_cards_pair_witness :
  length pair_hand = 5%nat /\ NoDup pair_hand
  /\ (_evaluate_five_cards pair_hand = Returned (1, [5; 12; 6; 0])
      <-> exists p,
            occ p (value <$> pair_hand) = 2%nat
            /\ (forall r, r <> p -> (occ r (value <$> pair_hand) <= 1)%nat)
            /\ [5; 12; 6; 0]
               = p :: sorted_reverse
                        (filter (fun x => x <> p) (value <$> pair_hand))).
Proof.
  assert (H : length pair_hand = 5%nat) by reflexivity.
  assert (Hnd : NoDup pair_hand)
    by (apply (bool_decide_unpack _); vm_compute; exact I).
  split; [exact H|]. split; [exact Hnd|].
  exact (five_cards_pair _ _ H Hnd).
Defined.

(** X14: five distinct cards are a high-card hand (category 0) exactly when
    their ranks are all different, not consecutive and not A, 2, 3, 4, 5,
    and their suits are not all equal; the key is the five values from the
    top down. *)
Theorem five_cards_high_card (cards : list Card) (key : list Z) :
  length cards = 5%nat -> NoDup cards ->
  (_evaluate_five_cards cards = Returned (0, key)
   <-> NoDup (value <$> cards)
       /\ ~ same_suit cards
       /\ ~ consecutive (value <$> cards)
       /\ ~ wheel_ranks (value <$> cards)
       /\ key = sorted_reverse (value <$> cards)).
Proof.
  intros Hlen Hnd.
  destruct (five_cards_semantic cards Hlen)
    as (F & S & key5 & h & E & Hcase & HF & HS & HSN & Hkw & Hkn).
  pose proof (fun r => occ_value_le_4 r cards Hnd) as H4.
  remember (value <$> cards) as ranks eqn:Hranks. clear Hranks.
  split.
  - intros E'. rewrite E in E'. inversion E'; subst h.
    inversion Hcase; subst.
    assert (~ (consecutive ranks \/ wheel_ranks ranks)) as Hns.
    { intros Hs. by apply HS in Hs. }
    split.
    { apply NoDup_occ. intros r.
      match goal with
      | N4 : forall r, occ r ranks <> 4%nat, N3 : forall r, occ r ranks <> 3%nat,
        N2 : forall r, occ r ranks <> 2%nat |- _ =>
          pose proof (N4 r); pose proof (N3 r); pose proof (N2 r);
          pose proof (H4 r); lia
      end. }
    split; [intros Hsuit; by apply HF in Hsuit|].
    split; [tauto|]. split; [tauto|]. apply Hkn. tauto.
  - intros (HN & Hsuit & Hnc & Hnw & ->). rewrite E. f_equal.
    assert (F = false) as ->.
    { destruct F; [|done]. exfalso. by apply Hsuit, HF. }
    assert (S = false) as ->.
    { destruct S; [|done]. exfalso. destruct (proj1 HS eq_refl); done. }
    rewrite <- (Hkn Hnw).
    inversion Hcase; subst; try done; try repeated_rank HN.
Qed.

Lemma five_cards_high_card_witness :
  length high_hand = 5%nat /\ NoDup high_hand
  /\ (_evaluate_five_cards high_hand = Returned (0, [12; 9; 6; 5; 0])
      <-> NoDup (value <$> high_hand)
          /\ ~ same_suit high_hand
          /\ ~ consecutive (value <$> high_hand)
          /\ ~ wheel_ranks (value <$> high_hand)
          /\ [12; 9; 6; 5; 0] = sorted_reverse (value <$> high_hand)).
Proof.
  assert (H : length high_hand = 5%nat) by reflexivity.
  assert (Hnd : NoDup high_hand)
    by (apply (bool_decide_unpack _); vm_compute; exact I).
  split; [exact H|]. split; [exact Hnd|].
  exact (five_cards_high_card _ _ H Hnd).
Defined.

(** X15: [_is_straight] accepts exactly the rearrangements of a run of
    consecutive values; in particular it accepts the empty list and every
    single value, and it rejects every list with a repeated value. *)
Theorem is_straight_run (ranks : list Z) :
  (_is_straight ranks = true
   <-> exists lo, ranks ≡ₚ seqZ lo (Z.of_nat (length ranks)))
  /\ ((length ranks <= 1)%nat -> _is_straight ranks = true)
  /\ (_is_straight ranks = true -> NoDup ranks).
Proof.
  split; [apply is_straight_consecutive|]. split.
  - intros Hl. apply is_straight_consecutive.
    destruct ranks as [|x [|y l]]; simpl in Hl; try lia.
    + by exists 0.
    + exists x. simpl. rewrite seqZ_cons by lia. by rewrite seqZ_nil by lia.
  - intros [lo Hp]%is_straight_consecutive. rewrite Hp. apply NoDup_seqZ.
Qed.

Lemma is_straight_run_witness :
  (length [7] <= 1)%nat /\ _is_straight [7] = true.
Proof.
  assert (H : (length [7] <= 1)%nat) by (simpl; lia).
  split; [exact H|]. exact (proj1 (proj2 (is_straight_run [7])) H).
Defined.

Lemma five_case_key (F S : bool) (key5 ranks : list Z) (t : Z) (key : list Z) :
  five_case F S key5 ranks (t, key) ->
  length ranks = 5%nat -> length key5 = 5%nat ->
  (forall x, x ∈ key5 -> x = -1 \/ x ∈ ranks) ->
  length key
  = (if bool_decide (t = 7 \/ t = 6) then 2%nat
     else if bool_decide (t = 3 \/ t = 2) then 3%nat
          else if bool_decide (t = 1) then 4%nat else 5%nat)
  /\ (forall x, x ∈ key -> x = -1 \/ x ∈ ranks).
Proof.
  intros Hcase Hl Hk5 Hin5.
  assert (forall r n, occ r ranks = n -> (0 < n)%nat -> r ∈ ranks) as Hin.
  { intros r n <- Hn. by apply occ_pos. }
  assert (forall r x, x ∈ sorted_reverse (filter (fun y => y <> r) ranks) -> x ∈ ranks)
    as Hrest.
  { intros r x. rewrite sorted_reverse_Permutation. by intros [_ ?]%list_elem_of_filter. }
  inversion Hcase; subst; simpl bool_decide; cbv iota;
    (split;
     [|first [ exact Hin5
             | intros x; rewrite ?elem_of_cons, ?elem_of_nil;
               intuition (subst; eauto using Hin with lia) ]]);
    try done.
  - simpl. rewrite sorted_reverse_length.
    pose proof (length_filter_ne r ranks). lia.
  - simpl. rewrite sorted_reverse_length.
    pose proof (length_filter_ne p ranks). lia.
Qed.

(** X16: the key returned by [evaluate_hand] on five cards or more has the
    length its category fixes (2 for quads and full house, 3 for trips and
    two pair, 4 for one pair, 5 otherwise), so that two hands of one
    category are compared position by position; every entry of the key is
    the value of a card of the hand, or -1 for the ace of A-2-3-4-5. *)
Theorem evaluate_hand_key_shape (cards : list Card) (t : Z) (key : list Z) :
  (5 <= length cards)%nat ->
  evaluate_hand cards = Returned (t, key) ->
  length key
  = (if bool_decide (t = 7 \/ t = 6) then 2%nat
     else if bool_decide (t = 3 \/ t = 2) then 3%nat
          else if bool_decide (t = 1) then 4%nat else 5%nat)
  /\ (forall x, x ∈ key -> x = -1 \/ exists c, c ∈ cards /\ value c = x).
Proof.
  intros Hlen Eh.
  destruct (evaluate_hand_spec cards Hlen) as (h & E & _ & (c & Hc & Ec) & _).
  rewrite Eh in E. inversion E; subst h. clear E.
  apply elem_of_combinations in Hc as [Hsub Hc5].
  destruct (five_cards_semantic c Hc5)
    as (F & S & key5 & h & E & Hcase & _ & _ & _ & Hkw & Hkn).
  rewrite Ec in E. inversion E; subst h. clear E.
  assert (length key5 = 5%nat /\ forall x, x ∈ key5 -> x = -1 \/ x ∈ value <$> c)
    as [Hk5 Hin5].
  { destruct (decide (wheel_ranks (value <$> c))) as [Hw|Hw].
    - rewrite (Hkw Hw). split; [done|]. intros x Hx.
      unfold wheel_ranks in Hw. rewrite Hw.
      rewrite !elem_of_cons, elem_of_nil in *. tauto.
    - rewrite (Hkn Hw). split.
      + by rewrite sorted_reverse_length, length_fmap.
      + intros x Hx. right. by rewrite sorted_reverse_Permutation in Hx. }
  destruct (five_case_key F S key5 (value <$> c) t key Hcase
              ltac:(by rewrite length_fmap) Hk5 Hin5) as [Hlk Hink].
  split; [exact Hlk|]. intros x Hx. destruct (Hink x Hx) as [?|Hxc]; [by left|].
  right. apply list_elem_of_fmap in Hxc as (card & -> & Hcard).
  exists card. split; [|done]. eapply elem_of_sublist; [exact Hcard|exact Hsub].
Qed.

Lemma evaluate_hand_key_shape_witness :
  (5 <= length royal_seven)%nat
  /\ evaluate_hand royal_seven = Returned (9, [12; 11; 10; 9; 8])
  /\ length [12; 11; 10; 9; 8] = 5%nat.
Proof.
  assert (H : (5 <= length royal_seven)%nat) by (simpl; lia).
  assert (E : evaluate_hand royal_seven = Returned (9, [12; 11; 10; 9; 8]))
    by (vm_compute; reflexivity).
  split; [exact H|]. split; [exact E|].
  exact (proj1 (evaluate_hand_key_shape royal_seven 9 [12; 11; 10; 9; 8] H E)).
Defined.

(** X17: on five cards or more the result of [evaluate_hand] is the ranking
    of one of the hand's five-card selections, and no selection of five of
    its cards, in any order, ranks higher. *)
Theorem evaluate_hand_best_five (cards : list Card) :
  (5 <= length cards)%nat ->
  exists h,
    evaluate_hand cards = Returned h
    /\ (exists c, c `sublist_of` cards /\ length c = 5%nat
                  /\ _evaluate_five_cards c = Returned h)
    /\ (forall c v, c ⊆+ cards -> length c = 5%nat ->
                    _evaluate_five_cards c = Returned v -> tuple_cmp v h <> Gt).
Proof.
  intros Hlen.
  destruct (evaluate_hand_spec cards Hlen) as (h & E & _ & (c & Hc & Ec) & Hmax).
  exists h. split; [done|]. split.
  - apply elem_of_combinations in Hc as [? ?]. by exists c.
  - intros c' v Hsub Hc5 Ev.
    apply submseteq_sublist_r in Hsub as (c'' & Hp & Hsub').
    destruct (five_cards_perm_total c' c'' Hp Hc5) as (w & Ew & Ew' & _).
    rewrite Ev in Ew. inversion Ew; subst w.
    apply (Hmax c''); [|done]. apply elem_of_combinations.
    split; [done|]. by rewrite <- Hp.
Qed.

Lemma evaluate_hand_best_five_witness :
  (5 <= length royal_seven)%nat
  /\ exists h,
      evaluate_hand royal_seven = Returned h
      /\ (exists c, c `sublist_of` royal_seven /\ length c = 5%nat
                    /\ _evaluate_five_cards c = Returned h)
      /\ (forall c v, c ⊆+ royal_seven -> length c = 5%nat ->
                      _evaluate_five_cards c = Returned v -> tuple_cmp v h <> Gt).
Proof.
  assert (H : (5 <= length royal_seven)%nat) by (simpl; lia).
  split; [exact H|]. exact (evaluate_hand_best_five royal_seven H).
Defined.

Lemma sublist_full {A} (l k : list A) :
  l `sublist_of` k -> length l = length k -> l = k.
Proof.
  induction 1 as [|x l k Hsub IH|x l k Hsub IH]; simpl; intros Hl.
  - done.
  - f_equal. apply IH. lia.
  - apply sublist_length in Hsub. lia.
Qed.

(** X18: on exactly five cards [evaluate_hand] is [_evaluate_five_cards]:
    the initial best hand (0, []) never survives. *)
Theorem evaluate_hand_five (cards : list Card) :
  length cards = 5%nat -> evaluate_hand cards = _evaluate_five_cards cards.
Proof.
  intros Hlen.
  destruct (evaluate_hand_spec cards ltac:(lia)) as (h & E & _ & (c & Hc & Ec) & _).
  apply elem_of_combinations in Hc as [Hsub Hc5].
  rewrite (sublist_full c cards Hsub ltac:(lia)) in Ec. by rewrite E, Ec.
Qed.

Lemma evaluate_hand_five_witness :
  length quads_hand = 5%nat
  /\ evaluate_hand quads_hand = _evaluate_five_cards quads_hand.
Proof.
  assert (H : length quads_hand = 5%nat) by reflexivity.
  split; [exact H|]. exact (evaluate_hand_five quads_hand H).
Defined.

(** ** PokerCalculator.calculate_win_probability *)

Lemma py_max_spec (xs : list HandRank) :
  xs <> [] ->
  exists m, py_max xs = Returned m /\ m ∈ xs /\ forall h, h ∈ xs -> tuple_le h m.
Proof.
  destruct xs as [|x rest]; [done|]. intros _. unfold py_max.
  eexists. split; [reflexivity|]. revert x.
  induction rest as [|y rest IH]; intros x; simpl.
  - split; [apply elem_of_cons; auto|].
    intros h ->%list_elem_of_singleton. apply tuple_le_refl.
  - destruct (IH (if tuple_gt y x then y else x)) as [Hin Hmax]. split.
    + apply elem_of_cons in Hin as [->|Hin].
      * destruct (tuple_gt y x); rewrite !elem_of_cons; auto.
      * rewrite !elem_of_cons. auto.
    + intros h Hh.
      assert (tuple_le x (if tuple_gt y x then y else x)
              /\ tuple_le y (if tuple_gt y x then y else x)) as [Hx Hy].
      { destruct (tuple_gt y x) eqn:G.
        - split; [by apply tuple_gt_lt|apply tuple_le_refl].
        - split; [apply tuple_le_refl|by apply tuple_gt_le]. }
      assert (tuple_le (if tuple_gt y x then y else x)
                (fold_left (fun m y0 => if tuple_gt y0 m then y0 else m) rest
                   (if tuple_gt y x then y else x))) as Hm
        by (apply Hmax, elem_of_cons; auto).
      apply elem_of_cons in Hh as [->|Hh].
      * by eapply tuple_le_trans.
      * apply elem_of_cons in Hh as [->|Hh].
        -- by eapply tuple_le_trans.
        -- apply Hmax. apply elem_of_cons. auto.
Qed.

Lemma tuple_gt_irrefl (a : HandRank) : tuple_gt a a = false.
Proof. apply tuple_gt_le, tuple_le_refl. Qed.

Lemma tuple_gt_asym (a b : HandRank) :
  tuple_gt a b = true -> tuple_gt b a = false.
Proof. intros H. by apply tuple_gt_le, tuple_gt_lt. Qed.

Lemma tuple_gt_not_le (a b : HandRank) :
  tuple_gt a b = true <-> ~ tuple_le a b.
Proof.
  rewrite <- tuple_gt_le. destruct (tuple_gt a b); split; congruence.
Qed.

(** X19: a trial is a win exactly when the caller's ranking is strictly
    above every opponent's, a tie exactly when no opponent is above it and
    one equals it, and a loss exactly when some opponent is strictly
    above it. *)
Theorem trial_outcome (wins ties losses : Z) (t : Trial) (c : Z * Z * Z) :
  tally (wins, ties, losses) t = Returned c ->
  (c = (wins + 1, ties, losses)
   <-> forall h, h ∈ opponent_hands t -> tuple_gt (my_hand t) h = true)
  /\ (c = (wins, ties + 1, losses)
      <-> my_hand t ∈ opponent_hands t
          /\ forall h, h ∈ opponent_hands t -> tuple_gt h (my_hand t) = false)
  /\ (c = (wins, ties, losses + 1)
      <-> exists h, h ∈ opponent_hands t /\ tuple_gt h (my_hand t) = true).
Proof.
  intros E. destruct (decide (opponent_hands t = [])) as [H0|H0].
  { rewrite tally_no_opponent in E by done. discriminate. }
  destruct (py_max_spec _ H0) as (m & Em & Hm & Hmax).
  unfold tally in E. rewrite Em, bind_Returned in E.
  set (mine := my_hand t) in *.
  set (Pwin := forall h, h ∈ opponent_hands t -> tuple_gt mine h = true).
  set (Ptie := mine ∈ opponent_hands t
               /\ forall h, h ∈ opponent_hands t -> tuple_gt h mine = false).
  set (Ploss := exists h, h ∈ opponent_hands t /\ tuple_gt h mine = true).
  assert (Pwin -> ~ Ptie) as Hwt.
  { intros Hw [Hin _]. specialize (Hw mine Hin). by rewrite tuple_gt_irrefl in Hw. }
  assert (Pwin -> ~ Ploss) as Hwl.
  { intros Hw (h & Hh & Hgt). apply Hw, tuple_gt_asym in Hh. congruence. }
  assert (Ptie -> ~ Ploss) as Htl.
  { intros [_ Ht] (h & Hh & Hgt). rewrite (Ht h Hh) in Hgt. done. }
  destruct (tuple_gt mine m) eqn:G.
  - assert Pwin as Hw.
    { intros h Hh. apply tuple_gt_not_le. intros Hle.
      apply tuple_gt_not_le in G. apply G.
      eapply tuple_le_trans; [exact Hle|by apply Hmax]. }
    inversion E; subst c. split_and!; split; try done; try tauto;
      intros Hc; inversion Hc; lia.
  - unfold tuple_eq in E. destruct (bool_decide_reflect (mine = m)) as [Heq|Hne].
    + assert Ptie as Ht.
      { split; [by rewrite Heq|]. intros h Hh. apply tuple_gt_le.
        rewrite Heq. by apply Hmax. }
      inversion E; subst c. split_and!; split; try done; try tauto;
        intros Hc; inversion Hc; lia.
    + assert Ploss as Hl.
      { exists m. split; [done|]. apply tuple_gt_not_le. intros Hle.
        apply Hne, tuple_le_antisym; [|done]. by apply tuple_gt_le. }
      inversion E; subst c. split_and!; split; try done; try tauto;
        intros Hc; inversion Hc; lia.
Qed.

Lemma trial_outcome_witness :
  tally (0, 0, 0) (mkTrial [] [] (1, [12; 5; 4; 3]) [(0, [12; 11; 5; 4; 3])])
  = Returned (1, 0, 0)
  /\ ((1, 0, 0) = (0 + 1, 0, 0)
      <-> forall h, h ∈ [(0, [12; 11; 5; 4; 3])] ->
                    tuple_gt (1, [12; 5; 4; 3]) h = true).
Proof.
  assert (E : tally (0, 0, 0)
                (mkTrial [] [] (1, [12; 5; 4; 3]) [(0, [12; 11; 5; 4; 3])])
              = Returned (1, 0, 0)) by reflexivity.
  split; [exact E|]. exact (proj1 (trial_outcome 0 0 0 _ _ E)).
Defined.

(** X20: with [num_simulations = 0] no trial runs and the first division
    raises [ZeroDivisionError]; with a negative [num_simulations] no trial
    runs either, no entropy is used, and a result is returned whose three
    rates are all zero. *)
Theorem equity_without_trials (hole community : list Card)
    (num_opponents num_simulations : Z) (g : Rng) :
  num_simulations <= 0 ->
  (num_simulations = 0 ->
   calculate_win_probability hole community num_opponents num_simulations g
   = Raised ZeroDivisionError)
  /\ (num_simulations < 0 ->
      exists m win_rate tie_rate loss_rate,
        calculate_win_probability hole community num_opponents num_simulations g
        = Returned (m, g)
        /\ m !! "win_rate" = Some (VFloat win_rate)
        /\ m !! "tie_rate" = Some (VFloat tie_rate)
        /\ m !! "loss_rate" = Some (VFloat loss_rate)
        /\ (win_rate == 0)%Q /\ (tie_rate == 0)%Q /\ (loss_rate == 0)%Q
        /\ m !! "simulations" = Some (VInt num_simulations)).
Proof.
  intros Hn. split.
  - intros ->. reflexivity.
  - intros Hneg.
    assert (simulation_loop (Z.to_nat num_simulations) hole community
              (hole ++ community) (5 - Z.of_nat (length community))
              num_opponents (0, 0, 0) g = Returned (0, 0, 0, g)) as E.
    { replace (Z.to_nat num_simulations) with 0%nat by lia. reflexivity. }
    destruct (equity_result hole community num_opponents num_simulations
                0 0 0 g g ltac:(lia) E)
      as (m & cur & Em & _ & Hw & Ht & Hl & Hs & _).
    exists m, (inject_Z 0 / inject_Z num_simulations)%Q,
      (inject_Z 0 / inject_Z num_simulations)%Q,
      (inject_Z 0 / inject_Z num_simulations)%Q.
    split_and!; try done; unfold Qdiv; apply Qmult_0_l.
Qed.

Lemma equity_without_trials_witness :
  0 <= 0
  /\ calculate_win_probability AsAh [] 1 0 zeros = Raised ZeroDivisionError.
Proof.
  assert (H : 0 <= 0) by lia. split; [exact H|].
  exact (proj1 (equity_without_trials AsAh [] 1 0 zeros H) eq_refl).
Defined.

(** X21: with no opponent ([num_opponents <= 0]) and at least one trial the
    call raises [ValueError]: either the community draw cannot be served,
    or the maximum of an empty list of opponent hands is taken. *)
Theorem equity_without_opponents (hole community : list Card)
    (num_opponents num_simulations : Z) (g : Rng) :
  num_opponents <= 0 -> 1 <= num_simulations ->
  calculate_win_probability hole community num_opponents num_simulations g
  = Raised ValueError.
Proof.
  intros Hopp Hn.
  destruct (decide (length (remove_cards Deck_init (hole ++ community))
                    < Z.to_nat (5 - Z.of_nat (length community))
                      + 2 * Z.to_nat num_opponents)%nat) as [Hs|Hs].
  { by apply equity_short_deck. }
  unfold calculate_win_probability. cbv zeta.
  destruct (Z.to_nat num_simulations) as [|n] eqn:En; [lia|].
  cbn [simulation_loop].
  destruct (deal_trial_spec hole community (hole ++ community)
              (5 - Z.of_nat (length community)) num_opponents g ltac:(lia))
    as (t & g' & rem & E & _ & _ & _ & _ & Hh & _).
  rewrite E, bind_Returned. cbn beta iota.
  rewrite tally_no_opponent; [done|].
  apply nil_length_inv. rewrite Hh. lia.
Qed.

Lemma equity_without_opponents_witness :
  0 <= 0 /\ 1 <= 3
  /\ calculate_win_probability AsAh flop_spades 0 3 zeros = Raised ValueError.
Proof.
  assert (H1 : 0 <= 0) by lia. assert (H2 : 1 <= 3) by lia.
  split; [exact H1|]. split; [exact H2|].
  exact (equity_without_opponents AsAh flop_spades 0 3 zeros H1 H2).
Defined.

Lemma rate_le_1 (a n : Z) : 0 <= a <= n -> 1 <= n -> (inject_Z a / inject_Z n <= 1)%Q.
Proof.
  intros Ha Hn. apply Qle_shift_div_r.
  - change 0%Q with (inject_Z 0). rewrite <- Zlt_Qlt. lia.
  - rewrite Qmult_1_l. rewrite <- Zle_Qle. lia.
Qed.

(** X22: in a valid call with at least one trial the three rates returned
    lie between 0 and 1, and the result echoes the number of trials. *)
Theorem equity_rates_in_unit_interval (hole community : list Card)
    (num_opponents num_simulations : Z) (g : Rng) :
  valid_call hole community num_opponents -> 1 <= num_simulations ->
  exists m g' win_rate tie_rate loss_rate,
    calculate_win_probability hole community num_opponents num_simulations g
    = Returned (m, g')
    /\ m !! "win_rate" = Some (VFloat win_rate)
    /\ m !! "tie_rate" = Some (VFloat tie_rate)
    /\ m !! "loss_rate" = Some (VFloat loss_rate)
    /\ m !! "simulations" = Some (VInt num_simulations)
    /\ (0 <= win_rate <= 1)%Q /\ (0 <= tie_rate <= 1)%Q
    /\ (0 <= loss_rate <= 1)%Q.
Proof.
  intros (H2 & H5 & Hnd & Hopp & Hlen) Hn.
  destruct (simulation_loop_spec (Z.to_nat num_simulations) hole community
              (hole ++ community) (5 - Z.of_nat (length community))
              num_opponents 0 0 0 g Hlen Hopp)
    as (w & t & l & g' & E & Hw & Ht & Hl & Hsum).
  destruct (equity_result hole community num_opponents num_simulations
              w t l g g' ltac:(lia) E)
    as (m & c & Em & _ & Hwr & Htr & Hlr & Hs & _).
  eexists m, g', _, _, _. split; [exact Em|].
  split; [exact Hwr|]. split; [exact Htr|]. split; [exact Hlr|].
  split; [exact Hs|].
  split_and!; first [apply rate_nonneg; lia | apply rate_le_1; lia].
Qed.

Lemma equity_rates_in_unit_interval_witness :
  valid_call AsAh flop_spades 3 /\ 1 <= 4
  /\ exists m g' win_rate tie_rate loss_rate,
      calculate_win_probability AsAh flop_spades 3 4 zeros = Returned (m, g')
      /\ m !! "win_rate" = Some (VFloat win_rate)
      /\ m !! "tie_rate" = Some (VFloat tie_rate)
      /\ m !! "loss_rate" = Some (VFloat loss_rate)
      /\ m !! "simulations" = Some (VInt 4)
      /\ (0 <= win_rate <= 1)%Q /\ (0 <= tie_rate <= 1)%Q
      /\ (0 <= loss_rate <= 1)%Q.
Proof.
  assert (H : 1 <= 4) by lia.
  split; [exact valid_AsAh_flop|]. split; [exact H|].
  exact (equity_rates_in_unit_interval AsAh flop_spades 3 4 zeros valid_AsAh_flop H).
Defined.

(** ** get_hand_strength and hand_name *)

Lemma hand_name_known (t : Z) : 0 <= t <= 9 -> hand_name t <> "未知".
Proof.
  intros Ht.
  assert (t = 0 \/ t = 1 \/ t = 2 \/ t = 3 \/ t = 4 \/ t = 5 \/ t = 6
          \/ t = 7 \/ t = 8 \/ t = 9) as Hcases by lia.
  repeat (destruct Hcases as [->|Hcases]; [discriminate|]). subst. discriminate.
Qed.

(** X23: [hand_name] answers "未知" exactly for the numbers outside 0..9,
    and names the ten categories with ten different labels. *)
Theorem hand_name_table (t t' : Z) :
  (hand_name t = "未知" <-> ~ 0 <= t <= 9)
  /\ (0 <= t <= 9 -> 0 <= t' <= 9 -> hand_name t = hand_name t' -> t = t').
Proof.
  split.
  - split.
    + intros E Ht. by apply (hand_name_known t Ht).
    + intros Ht. destruct t as [|p|p]; [lia| |reflexivity].
      do 4 (try destruct p as [p|p|]); try reflexivity; lia.
  - intros Ht Ht'.
    assert (t = 0 \/ t = 1 \/ t = 2 \/ t = 3 \/ t = 4 \/ t = 5 \/ t = 6
            \/ t = 7 \/ t = 8 \/ t = 9) as Hc by lia.
    assert (t' = 0 \/ t' = 1 \/ t' = 2 \/ t' = 3 \/ t' = 4 \/ t' = 5 \/ t' = 6
            \/ t' = 7 \/ t' = 8 \/ t' = 9) as Hc' by lia.
    repeat (destruct Hc as [->|Hc]);
      repeat (destruct Hc' as [->|Hc']); subst;
      first [reflexivity | intros E; discriminate E].
Qed.

(** X24: [get_hand_strength] never raises: below five cards it answers
    [-1] with the label of an unfinished hand; from five cards on it
    answers the category [evaluate_hand] finds, between 0 and 9, with that
    category's name, which is never "未知". *)
Theorem get_hand_strength_cases (hole community : list Card) :
  ((length (hole ++ community) < 5)%nat ->
   get_hand_strength hole community = Returned (-1, "尚未形成完整手牌"))
  /\ ((5 <= length (hole ++ community))%nat ->
      exists t key,
        evaluate_hand (hole ++ community) = Returned (t, key)
        /\ get_hand_strength hole community = Returned (t, hand_name t)
        /\ 0 <= t <= 9 /\ hand_name t <> "未知").
Proof.
  unfold get_hand_strength. cbv zeta. split.
  - intros H. by rewrite bool_decide_eq_false_2 by lia.
  - intros H. rewrite bool_decide_eq_true_2 by done.
    destruct (evaluate_hand_total (hole ++ community)) as ([t key] & E & Ht).
    exists t, key. rewrite E, bind_Returned. simpl in Ht.
    split_and!; try done; try lia. by apply hand_name_known.
Qed.

Lemma get_hand_strength_cases_witness :
  ((length (AsAh ++ []) < 5)%nat
   /\ get_hand_strength AsAh [] = Returned (-1, "尚未形成完整手牌"))
  /\ ((5 <= length (AsAh ++ flop_spades))%nat
      /\ exists t key,
          evaluate_hand (AsAh ++ flop_spades) = Returned (t, key)
          /\ get_hand_strength AsAh flop_spades = Returned (t, hand_name t)
          /\ 0 <= t <= 9 /\ hand_name t <> "未知").
Proof.
  assert (H1 : (length (AsAh ++ []) < 5)%nat) by (simpl; lia).
  assert (H2 : (5 <= length (AsAh ++ flop_spades))%nat) by (simpl; lia).
  split.
  - split; [exact H1|]. exact (proj1 (get_hand_strength_cases AsAh []) H1).
  - split; [exact H2|]. exact (proj2 (get_hand_strength_cases AsAh flop_spades) H2).
Defined.

Lemma current_hand_of_result (hole community : list Card)
    (num_opponents num_simulations : Z) (g g' : Rng) (m : gmap string pyval) :
  (5 <= length (hole ++ community))%nat ->
  calculate_win_probability hole community num_opponents num_simulations g
  = Returned (m, g') ->
  exists t,
    get_hand_strength hole community = Returned (t, hand_name t)
    /\ 0 <= t <= 9
    /\ m !! "current_hand" = Some (VStr (hand_name t)).
Proof.
  intros Hlen E. unfold calculate_win_probability in E. cbv zeta in E.
  destruct (simulation_loop _ _ _ _ _ _ _ _) as [[[[w t] l] g1]|e] eqn:El;
    [|discriminate].
  rewrite bind_Returned in E. cbn beta iota in E.
  destruct (true_div w num_simulations) as [wr|e]; [|discriminate].
  destruct (true_div t num_simulations) as [tr|e]; [|discriminate].
  destruct (true_div l num_simulations) as [lr|e]; [|discriminate].
  rewrite !bind_Returned in E.
  destruct (evaluate_hand_total (hole ++ community)) as ([c key] & Ec & Hc).
  rewrite Ec, bind_Returned in E. inversion E; subst. clear E.
  exists c. unfold get_hand_strength. cbv zeta.
  rewrite bool_decide_eq_true_2 by done. rewrite Ec, bind_Returned.
  split; [done|]. split; [done|]. by simplify_map_eq.
Qed.

(** X25: once five cards or more are known, the [current_hand] entry of the
    equity result is the label [get_hand_strength] gives for the same
    cards. *)
Theorem current_hand_agrees (hole community : list Card)
    (num_opponents num_simulations : Z) (g : Rng) :
  valid_call hole community num_opponents -> 1 <= num_simulations ->
  (5 <= length (hole ++ community))%nat ->
  exists m g' t,
    calculate_win_probability hole community num_opponents num_simulations g
    = Returned (m, g')
    /\ get_hand_strength hole community = Returned (t, hand_name t)
    /\ 0 <= t <= 9
    /\ m !! "current_hand" = Some (VStr (hand_name t)).
Proof.
  intros (H2 & H5 & Hnd & Hopp & Hlen) Hn Hfive.
  destruct (equity_returns hole community num_opponents num_simulations g
              Hn Hopp Hlen) as (m & g' & E & _).
  destruct (current_hand_of_result hole community num_opponents num_simulations
              g g' m Hfive E) as (t & Hg & Ht & Hm).
  by exists m, g', t.
Qed.

Lemma current_hand_agrees_witness :
  valid_call AsAh flop_spades 3 /\ 1 <= 4
  /\ (5 <= length (AsAh ++ flop_spades))%nat
  /\ exists m g' t,
      calculate_win_probability AsAh flop_spades 3 4 zeros = Returned (m, g')
      /\ get_hand_strength AsAh flop_spades = Returned (t, hand_name t)
      /\ 0 <= t <= 9
      /\ m !! "current_hand" = Some (VStr (hand_name t)).
Proof.
  assert (H : 1 <= 4) by lia.
  assert (H5 : (5 <= length (AsAh ++ flop_spades))%nat) by (simpl; lia).
  split; [exact valid_AsAh_flop|]. split; [exact H|]. split; [exact H5|].
  exact (current_hand_agrees AsAh flop_spades 3 4 zeros valid_AsAh_flop H H5).
Defined.

(** ** PokerCalculator.calculate_outs *)

(** X26: before the river the outs count is at most the number of cards
    left in the deck, itself at most 52; the cards shown are the first ten
    at most, in deck order, of the improving cards, which are the cards of
    the remaining deck that make the category strictly greater, so that
    every card shown is such a card; and on a non-empty deck the
    improvement probability lies between 0 and 1. *)
Theorem outs_bounds (hole community : list Card) :
  (length community < 5)%nat ->
  exists m cur improving shown,
    calculate_outs hole community = Returned m
    /\ evaluate_hand (hole ++ community) = Returned cur
    /\ improving `sublist_of` remove_cards Deck_init (hole ++ community)
    /\ (forall card, card ∈ improving <->
          card ∈ remove_cards Deck_init (hole ++ community)
          /\ exists new, evaluate_hand (hole ++ community ++ [card]) = Returned new
                         /\ new.1 > cur.1)
    /\ m !! "outs" = Some (VInt (Z.of_nat (length improving)))
    /\ (length improving <= length (remove_cards Deck_init (hole ++ community)) <= 52)%nat
    /\ m !! "improving_cards" = Some (VCards shown)
    /\ shown = take 10 improving
    /\ length shown = (length improving `min` 10)%nat
    /\ (forall card, card ∈ shown ->
          card ∈ remove_cards Deck_init (hole ++ community)
          /\ exists new, evaluate_hand (hole ++ community ++ [card]) = Returned new
                         /\ new.1 > cur.1)
    /\ ((0 < length (remove_cards Deck_init (hole ++ community)))%nat ->
        exists q, m !! "immediate_odds" = Some (VFloat q) /\ (0 <= q <= 1)%Q).
Proof.
  intros Hlen.
  destruct (calculate_outs_spec hole community Hlen)
    as (cur & imp & Ec & Hsub & Hiff & E).
  eexists _, cur, imp, (take 10 imp). split; [exact E|].
  split; [exact Ec|]. split; [exact Hsub|]. split; [exact Hiff|].
  split; [by simplify_map_eq|].
  pose proof (sublist_length _ _ Hsub) as Hl.
  pose proof (sublist_length _ _ (remove_cards_sublist (hole ++ community) Deck_init))
    as Hd. rewrite Deck_init_length in Hd.
  split; [lia|]. split; [by simplify_map_eq|]. split; [done|].
  split; [rewrite length_take; lia|].
  split.
  { intros card Hc. apply Hiff.
    exact (elem_of_sublist _ _ _ Hc (sublist_take _ _)). }
  intros Hpos. eexists. split.
  - rewrite lookup_insert_ne by done. rewrite lookup_insert_eq.
    by rewrite bool_decide_eq_true_2 by done.
  - split; [apply rate_nonneg; lia|apply rate_le_1; lia].
Qed.

Lemma outs_bounds_witness :
  (length flop_spades < 5)%nat
  /\ exists m cur improving shown,
      calculate_outs AsAh flop_spades = Returned m
      /\ evaluate_hand (AsAh ++ flop_spades) = Returned cur
      /\ improving `sublist_of` remove_cards Deck_init (AsAh ++ flop_spades)
      /\ (forall card, card ∈ improving <->
            card ∈ remove_cards Deck_init (AsAh ++ flop_spades)
            /\ exists new,
                evaluate_hand (AsAh ++ flop_spades ++ [card]) = Returned new
                /\ new.1 > cur.1)
      /\ m !! "outs" = Some (VInt (Z.of_nat (length improving)))
      /\ (length improving
          <= length (remove_cards Deck_init (AsAh ++ flop_spades)) <= 52)%nat
      /\ m !! "improving_cards" = Some (VCards shown)
      /\ shown = take 10 improving
      /\ length shown = (length improving `min` 10)%nat
      /\ (forall card, card ∈ shown ->
            card ∈ remove_cards Deck_init (AsAh ++ flop_spades)
            /\ exists new,
                evaluate_hand (AsAh ++ flop_spades ++ [card]) = Returned new
                /\ new.1 > cur.1)
      /\ ((0 < length (remove_cards Deck_init (AsAh ++ flop_spades)))%nat ->
          exists q, m !! "immediate_odds" = Some (VFloat q) /\ (0 <= q <= 1)%Q).
Proof.
  assert (H : (length flop_spades < 5)%nat) by (simpl; lia).
  split; [exact H|]. exact (outs_bounds AsAh flop_spades H).
Defined.

(** X27: with fewer than four known cards no card can make a five-card
    hand, so [calculate_outs] reports no out: before the flop the outs
    count is always 0. *)
Theorem outs_before_four_cards (hole community : list Card) :
  (length (hole ++ community) < 4)%nat ->
  exists m,
    calculate_outs hole community = Returned m
    /\ m !! "outs" = Some (VInt 0)
    /\ m !! "improving_cards" = Some (VCards []).
Proof.
  intros Hlen.
  assert (length community < 5)%nat as Hc by (rewrite length_app in Hlen; lia).
  destruct (calculate_outs_spec hole community Hc)
    as (cur & imp & Ecur & _ & Hiff & E).
  assert (imp = []) as ->.
  { destruct imp as [|card imp]; [done|]. exfalso.
    destruct (proj1 (Hiff card) ltac:(apply elem_of_cons; auto))
      as (_ & new & Enew & Hgt).
    rewrite evaluate_hand_short in Ecur by lia.
    rewrite evaluate_hand_short in Enew
      by (rewrite app_assoc, length_app; simpl; lia).
    inversion Ecur; inversion Enew; subst. simpl in Hgt. lia. }
  eexists. split; [exact E|]. split; by simplify_map_eq.
Qed.

Lemma outs_before_four_cards_witness :
  (length (AsAh ++ []) < 4)%nat
  /\ exists m,
      calculate_outs AsAh [] = Returned m
      /\ m !! "outs" = Some (VInt 0)
      /\ m !! "improving_cards" = Some (VCards []).
Proof.
  assert (H : (length (AsAh ++ []) < 4)%nat) by (simpl; lia).
  split; [exact H|]. exact (outs_before_four_cards AsAh [] H).
Defined.



(** ** app.py: the checks before the analysis *)

Lemma remove_dups_length {A} `{EqDecision A} (l : list A) :
  (length (remove_dups l) <= length l)%nat
  /\ (length (remove_dups l) = length l <-> NoDup l).
Proof.
  induction l as [|x l [IH1 IH2]]; simpl.
  - split; [lia|]. split; [constructor|done].
  - destruct (decide_rel elem_of x l) as [Hin|Hin]; simpl.
    + split; [lia|]. split; [lia|]. intros [? _]%NoDup_cons. done.
    + split; [lia|]. rewrite NoDup_cons. split.
      * intros E. split; [done|]. apply IH2. lia.
      * intros [_ Hnd]. f_equal. by apply IH2.
Qed.

Lemma has_duplicate_NoDup (all_cards : list Card) :
  has_duplicate all_cards = false <-> NoDup all_cards.
Proof.
  unfold has_duplicate. cbv zeta. rewrite bool_decide_eq_false.
  set (pair_of := fun c : Card => (rank c, suit c)).
  assert (Inj (=) (=) pair_of) as Hinj.
  { intros [r s] [r' s'] E. unfold pair_of in E. simpl in E. by inversion E. }
  destruct (remove_dups_length (pair_of <$> all_cards)) as [Hle Hiff].
  rewrite length_fmap in Hle, Hiff. rewrite <- (NoDup_fmap pair_of), <- Hiff.
  lia.
Qed.

(** X29: the checks of the front-end are enough for the simulation: when
    its duplicate test finds nothing, two hole cards are chosen, at most
    five community cards, one to nine opponents and at least one trial,
    the known cards are pairwise distinct, the call meets the contract and
    [calculate_win_probability] returns a result. *)
Theorem app_checks_suffice (hole community : list Card)
    (num_opponents num_simulations : Z) (g : Rng) :
  has_duplicate (hole ++ community) = false ->
  length hole = 2%nat -> (length community <= 5)%nat ->
  1 <= num_opponents <= 9 -> 1 <= num_simulations ->
  NoDup (hole ++ community)
  /\ valid_call hole community num_opponents
  /\ exists m g',
      calculate_win_probability hole community num_opponents num_simulations g
      = Returned (m, g').
Proof.
  intros Hdup H2 H5 Hopp Hn.
  apply has_duplicate_NoDup in Hdup.
  assert (valid_call hole community num_opponents) as Hv.
  { unfold valid_call. split_and!; try done; try lia.
    apply valid_call_opponents; try done; lia. }
  split; [done|]. split; [done|].
  destruct Hv as (_ & _ & _ & Ho & Hlen).
  destruct (equity_returns hole community num_opponents num_simulations g
              Hn Ho Hlen) as (m & g' & E & _).
  by exists m, g'.
Qed.

Lemma app_checks_suffice_witness :
  has_duplicate (AsAh ++ flop_spades) = false
  /\ length AsAh = 2%nat /\ (length flop_spades <= 5)%nat
  /\ 1 <= 9 <= 9 /\ 1 <= 1000
  /\ NoDup (AsAh ++ flop_spades)
  /\ valid_call AsAh flop_spades 9
  /\ exists m g',
      calculate_win_probability AsAh flop_spades 9 1000 zeros = Returned (m, g').
Proof.
  assert (H1 : has_duplicate (AsAh ++ flop_spades) = false)
    by (vm_compute; reflexivity).
  assert (H2 : length AsAh = 2%nat) by reflexivity.
  assert (H3 : (length flop_spades <= 5)%nat) by (simpl; lia).
  assert (H4 : 1 <= 9 <= 9) by lia.
  assert (H5 : 1 <= 1000) by lia.
  split; [exact H1|]. split; [exact H2|]. split; [exact H3|].
  split; [exact H4|]. split; [exact H5|].
  exact (app_checks_suffice AsAh flop_spades 9 1000 zeros H1 H2 H3 H4 H5).
Defined.

(** ** deepseek_advisor.py: parse_action_from_text *)

Lemma first_line_of_no_newline (line : string) :
  py_in newline line = false -> first_line_of line = line.
Proof.
  induction line as [|c line IH]; [done|]. cbn [py_in first_line_of].
  intros H. apply orb_false_iff in H as [Hp Hrest].
  destruct (Ascii.eqb c (Ascii.ascii_of_nat 10)) eqn:Ec.
  - apply Ascii.eqb_eq in Ec. subst c. simpl in Hp.
    by destruct line.
  - f_equal. by apply IH.
Qed.

Lemma first_line_of_app (line rest : string) :
  py_in newline line = false ->
  first_line_of (line +:+ newline +:+ rest) = line.
Proof.
  induction line as [|c line IH].
  - intros _. reflexivity.
  - cbn [py_in]. intros H. apply orb_false_iff in H as [Hp Hrest].
    change (String c line +:+ newline +:+ rest)
      with (String c (line +:+ newline +:+ rest)).
    cbn [first_line_of].
    destruct (Ascii.eqb c (Ascii.ascii_of_nat 10)) eqn:Ec.
    + apply Ascii.eqb_eq in Ec. subst c. simpl in Hp. by destruct line.
    + f_equal. by apply IH.
Qed.

(** X30: only the first line of the answer decides the parsed action: what
    follows the first newline never changes the result. *)
Theorem parse_action_first_line (line rest : string) :
  py_in newline line = false ->
  parse_action_from_text (line +:+ newline +:+ rest)
  = parse_action_from_text line.
Proof.
  intros Hl. unfold parse_action_from_text. cbv zeta.
  rewrite (first_line_of_app line rest Hl).
  rewrite (first_line_of_no_newline line Hl).
  rewrite (bool_decide_eq_false_2 (line +:+ newline +:+ rest = EmptyString))
    by (by destruct line).
  case_bool_decide as He; [by rewrite He|done].
Qed.

Lemma parse_action_first_line_witness :
  py_in newline "## 决策：【跟注】" = false
  /\ parse_action_from_text ("## 决策：【跟注】" +:+ newline +:+ "【弃牌】")
     = parse_action_from_text "## 决策：【跟注】".
Proof.
  assert (H : py_in newline "## 决策：【跟注】" = false) by (vm_compute; reflexivity).
  split; [exact H|]. exact (parse_action_first_line _ _ H).
Defined.
